(** * class-serialize: the hint-driven deserializer and the array codec

    A shallow embedding of

    - [type_serialize/obj/deserialize.py]: the recursive engine
      [_deserialize_any] with its container helpers and the public
      entry point [deserialize];
    - [class_serialize/driver/numpy.py]: the array codec
      [numpy_serialize] / [numpy_deserialize] (imported by the engine
      under the package name [type_serialize]).

    Python values, classes and type hints are inductive types;
    exceptions are an explicit outcome; the recursion of the engine is
    indexed by a fuel counter.  Collaborators that live outside the two
    source files are the fields of a [Host] record. *)

From Stdlib Require Import ZArith List String Ascii Bool Lia.
From Stdlib.Strings Require Import Byte.
From Stdlib Require Import DecimalString DecimalNat.
Import ListNotations.
Open Scope string_scope.
Open Scope list_scope.

Set Warnings "-register-all".

(** ** Exceptions and outcomes *)

Inductive exn_class :=
| DeserializeError
| ValueError
| TypeError
| AssertionError
| AttributeError
| ModuleNotFoundError
| HostException (name : string).

(** Modelled from the spec: the class [DeserializeError] of
    [type_serialize/obj/errors.py] is not part of the sources.  It
    carries a message and an ordered list of path labels; [insert_first]
    prepends one label.  The labels are what the engine passes as [key]:
    a text, or [None] in the frame entered by union stripping.  Other
    exceptions carry no labels. *)
Record exn := MkExn {
  e_class : exn_class;
  e_msg : string;          (* str(e) *)
  e_keys : list (option string)
}.

Definition mk_error (c : exn_class) (msg : string) : exn := MkExn c msg [].

(** [DeserializeError(msg)] and [DeserializeError(msg, key)]. *)
Definition DeserializeError0 (msg : string) : exn := MkExn DeserializeError msg [].
Definition DeserializeError1 (msg : string) (key : option string) : exn :=
  MkExn DeserializeError msg [key].

Definition insert_first (key : option string) (e : exn) : exn :=
  MkExn (e_class e) (e_msg e) (key :: e_keys e).

Definition is_DeserializeError (e : exn) : bool :=
  match e_class e with DeserializeError => true | _ => false end.

(** A call returns, raises, or exhausts the fuel of the model. *)
Inductive outcome (A : Type) :=
| Return (a : A)
| Raise (e : exn)
| Diverge.

Arguments Return {A} a.
Arguments Raise {A} e.
Arguments Diverge {A}.

Definition bind {A B} (m : outcome A) (k : A -> outcome B) : outcome B :=
  match m with
  | Return a => k a
  | Raise e => Raise e
  | Diverge => Diverge
  end.

Declare Scope py_scope.
Delimit Scope py_scope with py.
Notation "x <- m ;; k" := (bind m (fun x => k))
  (at level 61, m at next level, right associativity) : py_scope.
Notation "m ;;; k" := (bind m (fun _ => k))
  (at level 61, right associativity) : py_scope.
Open Scope py_scope.

(** [assert cond]. *)
Definition py_assert (cond : bool) : outcome unit :=
  if cond then Return tt else Raise (mk_error AssertionError "").

(** [for x in xs: state = body(x, state)]. *)
Fixpoint for_each {A S} (xs : list A) (s : S) (body : A -> S -> outcome S)
  : outcome S :=
  match xs with
  | [] => Return s
  | x :: xs' => s' <- body x s ;; for_each xs' s' body
  end.

(** [enumerate(xs)], counting from [start]. *)
Fixpoint enumerate_from {A} (start : nat) (xs : list A) : list (nat * A) :=
  match xs with
  | [] => []
  | x :: xs' => (start, x) :: enumerate_from (S start) xs'
  end.

Definition enumerate {A} (xs : list A) : list (nat * A) := enumerate_from 0 xs.

(** [str(i)] for an index. *)
Definition str_of_nat (n : nat) : string :=
  NilZero.string_of_uint (Nat.to_uint n).

(** ** Classes and type hints *)

(** The built-in classes and abstract base classes the sources test
    against, and a few more that occur as targets. *)
Inductive builtin :=
| Bobject | BNoneType
| Bbytes | Bbytearray | Bmemoryview
| Bbool | Bint | Bfloat | Bstr
| Bndarray
| Bdatetime | Bdate | Btime
| BEnum
| Btuple | Blist | Bdict | Bset | Bfrozenset
| BMutableMapping | BMutableSequence | BMapping | BIterable.

Definition builtin_eqb (a b : builtin) : bool :=
  match a, b with
  | Bobject, Bobject | BNoneType, BNoneType
  | Bbytes, Bbytes | Bbytearray, Bbytearray | Bmemoryview, Bmemoryview
  | Bbool, Bbool | Bint, Bint | Bfloat, Bfloat | Bstr, Bstr
  | Bndarray, Bndarray
  | Bdatetime, Bdatetime | Bdate, Bdate | Btime, Btime
  | BEnum, BEnum
  | Btuple, Btuple | Blist, Blist | Bdict, Bdict | Bset, Bset
  | Bfrozenset, Bfrozenset
  | BMutableMapping, BMutableMapping | BMutableSequence, BMutableSequence
  | BMapping, BMapping | BIterable, BIterable => true
  | _, _ => false
  end.

Definition builtin_name (b : builtin) : string :=
  match b with
  | Bobject => "object" | BNoneType => "NoneType"
  | Bbytes => "bytes" | Bbytearray => "bytearray" | Bmemoryview => "memoryview"
  | Bbool => "bool" | Bint => "int" | Bfloat => "float" | Bstr => "str"
  | Bndarray => "ndarray"
  | Bdatetime => "datetime" | Bdate => "date" | Btime => "time"
  | BEnum => "Enum"
  | Btuple => "tuple" | Blist => "list" | Bdict => "dict" | Bset => "set"
  | Bfrozenset => "frozenset"
  | BMutableMapping => "MutableMapping" | BMutableSequence => "MutableSequence"
  | BMapping => "Mapping" | BIterable => "Iterable"
  end.

(** What [issubclass(b, _)] accepts for a built-in [b]: its bases and the
    abstract base classes it is registered with ([bool] is an [int],
    [datetime] is a [date], [list] and [bytearray] are mutable
    sequences, [dict] is a mutable mapping). *)
Definition ancestry (b : builtin) : list builtin :=
  match b with
  | Bobject => [Bobject]
  | BNoneType => [BNoneType; Bobject]
  | Bbytes => [Bbytes; BIterable; Bobject]
  | Bbytearray => [Bbytearray; BMutableSequence; BIterable; Bobject]
  | Bmemoryview => [Bmemoryview; BIterable; Bobject]
  | Bbool => [Bbool; Bint; Bobject]
  | Bint => [Bint; Bobject]
  | Bfloat => [Bfloat; Bobject]
  | Bstr => [Bstr; BIterable; Bobject]
  | Bndarray => [Bndarray; BIterable; Bobject]
  | Bdatetime => [Bdatetime; Bdate; Bobject]
  | Bdate => [Bdate; Bobject]
  | Btime => [Btime; Bobject]
  | BEnum => [BEnum; Bobject]
  | Btuple => [Btuple; BIterable; Bobject]
  | Blist => [Blist; BMutableSequence; BIterable; Bobject]
  | Bdict => [Bdict; BMutableMapping; BMapping; BIterable; Bobject]
  | Bset => [Bset; BIterable; Bobject]
  | Bfrozenset => [Bfrozenset; BIterable; Bobject]
  | BMutableMapping => [BMutableMapping; BMapping; BIterable; Bobject]
  | BMutableSequence => [BMutableSequence; BIterable; Bobject]
  | BMapping => [BMapping; BIterable; Bobject]
  | BIterable => [BIterable; Bobject]
  end.

(** A class is a built-in one, or a class defined by the user of the
    library: its name, the built-in or abstract class it derives from,
    and whether it was declared with [@dataclass]. *)
Inductive class :=
| Builtin (b : builtin)
| User (name : string) (base : builtin) (dataclass : bool).

Definition class_eqb (a b : class) : bool :=
  match a, b with
  | Builtin x, Builtin y => builtin_eqb x y
  | User n x d, User m y e => String.eqb n m && builtin_eqb x y && Bool.eqb d e
  | _, _ => false
  end.

Definition class_name (c : class) : string :=
  match c with
  | Builtin b => builtin_name b
  | User name _ _ => name
  end.

Definition class_base (c : class) : builtin :=
  match c with
  | Builtin b => b
  | User _ base _ => base
  end.

Definition class_issubclass (c : class) (b : builtin) : bool :=
  existsb (builtin_eqb b) (ancestry (class_base c)).

(** Objects that stand where a type or a hint is expected. *)
Inductive ty :=
| TyNone                                        (* None *)
| TyAny                                         (* typing.Any *)
| TyUnionForm                                   (* typing.Union, the origin of a union hint *)
| TyClass (c : class)                           (* a class *)
| TyGeneric (origin : class) (args : list ty)   (* List[int], Dict[str, V], Set[int], list[int] *)
| TyUnion (args : list ty)                      (* Union[A, B], Optional[A] *)
| TyForm (name : string)                        (* typing.Literal, typing.ClassVar, typing.Final:
                                                   special forms, which are not classes *)
| TySpecial (form : string) (args : list ty).   (* Literal["a"], ClassVar[T], Final[T] *)

Fixpoint ty_eqb (a b : ty) {struct a} : bool :=
  let fix list_eqb (xs ys : list ty) {struct xs} : bool :=
    match xs, ys with
    | [], [] => true
    | x :: xs', y :: ys' => ty_eqb x y && list_eqb xs' ys'
    | _, _ => false
    end in
  match a, b with
  | TyNone, TyNone | TyAny, TyAny | TyUnionForm, TyUnionForm => true
  | TyClass c, TyClass d => class_eqb c d
  | TyGeneric o xs, TyGeneric p ys => class_eqb o p && list_eqb xs ys
  | TyUnion xs, TyUnion ys => list_eqb xs ys
  | TyForm f, TyForm g => String.eqb f g
  | TySpecial f xs, TySpecial g ys => String.eqb f g && list_eqb xs ys
  | _, _ => false
  end.

Arguments ty_eqb a b : simpl never.

Definition NoneType : ty := TyClass (Builtin BNoneType).
Definition Tbytes : ty := TyClass (Builtin Bbytes).
Definition Tbytearray : ty := TyClass (Builtin Bbytearray).
Definition Tbool : ty := TyClass (Builtin Bbool).
Definition Tint : ty := TyClass (Builtin Bint).
Definition Tfloat : ty := TyClass (Builtin Bfloat).
Definition Tstr : ty := TyClass (Builtin Bstr).
Definition Tlist : ty := TyClass (Builtin Blist).
Definition Tdict : ty := TyClass (Builtin Bdict).
Definition Ttuple : ty := TyClass (Builtin Btuple).
Definition Tobject : ty := TyClass (Builtin Bobject).

(** [typing.Optional[t]], [typing.List[t]], [typing.Dict[k, v]],
    [typing.Set[t]]. *)
Definition Optional (t : ty) : ty := TyUnion [t; NoneType].
Definition ListOf (t : ty) : ty := TyGeneric (Builtin Blist) [t].
Definition DictOf (k v : ty) : ty := TyGeneric (Builtin Bdict) [k; v].
Definition SetOf (t : ty) : ty := TyGeneric (Builtin Bset) [t].

(** [typing.Final[t]]. *)
Definition FinalOf (t : ty) : ty := TySpecial "Final" [t].

(** [typing.get_origin] and [typing.get_args]: the origin of a generic
    alias is a class, the origin of a parametrized special form is the
    form itself. *)
Definition get_origin (t : ty) : ty :=
  match t with
  | TyGeneric origin _ => TyClass origin
  | TyUnion _ => TyUnionForm
  | TySpecial form _ => TyForm form
  | _ => TyNone
  end.

Definition get_args (t : ty) : list ty :=
  match t with
  | TyGeneric _ args => args
  | TyUnion args => args
  | TySpecial _ args => args
  | _ => []
  end.

(** [x is None], [x is Union], [x is Any]. *)
Definition is_None (t : ty) : bool :=
  match t with TyNone => true | _ => false end.
Definition is_Union (t : ty) : bool :=
  match t with TyUnionForm => true | _ => false end.
Definition is_Any (t : ty) : bool :=
  match t with TyAny => true | _ => false end.

(** Truth value of an object used as a hint: only [None] is false. *)
Definition ty_truth (t : ty) : bool := negb (is_None t).

(** [issubclass(t, b)]: a [TypeError] when [t] is not a class. *)
Definition issubclass (t : ty) (b : builtin) : outcome bool :=
  match t with
  | TyClass c => Return (class_issubclass c b)
  | _ => Raise (mk_error TypeError "issubclass() arg 1 must be a class")
  end.

(** [inspect.isclass] and [dataclasses.is_dataclass] on a type object. *)
Definition isclass (t : ty) : bool :=
  match t with TyClass _ => true | _ => false end.

Definition is_dataclass (t : ty) : bool :=
  match t with TyClass (User _ _ d) => d | _ => false end.

(** [t.__name__]. *)
Definition ty_name (t : ty) : string :=
  match t with
  | TyNone => "None"
  | TyAny => "Any"
  | TyUnionForm => "Union"
  | TyClass c => class_name c
  | TyGeneric c _ => class_name c
  | TyUnion _ => "Union"
  | TyForm f => f
  | TySpecial f _ => f
  end.

(** [x in xs] and [xs.remove(x)] (the first occurrence) on a list of
    type objects. *)
Definition ty_in (x : ty) (xs : list ty) : bool := existsb (ty_eqb x) xs.

Fixpoint ty_remove (x : ty) (xs : list ty) : list ty :=
  match xs with
  | [] => []
  | y :: ys => if ty_eqb x y then ys else y :: ty_remove x ys
  end.

(** ** The array runtime

    The part of numpy the codec relies on: an array is a strided view
    (shape, element type, strides, first-element offset) over a byte
    buffer. *)

Record dtype := MkDtype {
  dt_name : string;      (* dtype.name *)
  dt_str : string;       (* str(dtype) *)
  dt_itemsize : Z;       (* dtype.itemsize *)
  dt_no_buffer : option string
                         (* the type character numpy names when it refuses to
                            export the data through the buffer protocol: M for
                            datetime64 and m for timedelta64, alone or inside a
                            structured type; None for the types it exports *)
}.

Record ndarray := MkNdarray {
  nd_shape : list Z;
  nd_dtype : dtype;
  nd_strides : list Z;
  nd_base : list byte;   (* the buffer the view reads from *)
  nd_offset : Z          (* byte position of element (0, ..., 0) *)
}.

Definition bytes_slice (bs : list byte) (start len : Z) : list byte :=
  firstn (Z.to_nat len) (skipn (Z.to_nat start) bs).

(** The element bytes in row-major order, read through the strides. *)
Fixpoint gather (itemsize : Z) (base : list byte) (dims strides : list Z)
  (off : Z) : list byte :=
  match dims, strides with
  | d :: ds, s :: ss =>
      flat_map (fun i => gather itemsize base ds ss (off + Z.of_nat i * s))
               (seq 0 (Z.to_nat d))
  | _, _ => bytes_slice base off itemsize
  end.

(** [array.tobytes()]. *)
Definition nd_tobytes (a : ndarray) : list byte :=
  gather (dt_itemsize (nd_dtype a)) (nd_base a) (nd_shape a) (nd_strides a)
         (nd_offset a).

Definition multiply_list (dims : list Z) : Z := fold_right Z.mul 1%Z dims.

(** [array.flags["C_CONTIGUOUS"]]: walking the axes from the last one,
    every axis longer than one element has the stride of a packed
    row-major layout; an array without elements is contiguous. *)
Fixpoint c_chain (sd : Z) (rev_dims rev_strides : list Z) : bool :=
  match rev_dims, rev_strides with
  | d :: ds, s :: ss =>
      if (d =? 1)%Z then c_chain sd ds ss
      else (s =? sd)%Z && c_chain (sd * d)%Z ds ss
  | _, _ => true
  end.

Definition flags_c_contiguous (a : ndarray) : bool :=
  existsb (Z.eqb 0) (nd_shape a)
  || c_chain (dt_itemsize (nd_dtype a)) (rev (nd_shape a)) (rev (nd_strides a)).

(** The byte range a strided view touches, relative to its first
    element, as a half-open interval (numpy's stride check): an empty
    range when some axis has no element. *)
Fixpoint offset_bounds (dims strides : list Z) (lower upper : Z) : Z * Z :=
  match dims, strides with
  | d :: ds, s :: ss =>
      let m := (s * (d - 1))%Z in
      if (0 <? m)%Z then offset_bounds ds ss lower (upper + m)%Z
      else offset_bounds ds ss (lower + m)%Z upper
  | _, _ => (lower, upper)
  end.

Definition offset_bounds_from_strides (itemsize : Z) (dims strides : list Z)
  : Z * Z :=
  if existsb (Z.eqb 0) dims then (0, 0)%Z
  else let '(lo, up) := offset_bounds dims strides 0 0 in (lo, (up + itemsize)%Z).

Definition check_strides (itemsize numbytes offset : Z) (dims strides : list Z)
  : bool :=
  let numbytes :=
    if (numbytes =? 0)%Z then (multiply_list dims * itemsize)%Z else numbytes in
  let '(lo, up) := offset_bounds_from_strides itemsize dims strides in
  (up <=? numbytes - offset)%Z && (- offset <=? lo)%Z.

(** ** Values *)

(** The record of the codec: [class NumpyProto(NamedTuple)]. *)
Definition NumpyProto : class := User "NumpyProto" Btuple false.

(** Runtime data.  Scalars and containers of the built-in types; arrays;
    the codec's named tuple; instances of user classes, described by
    what the engine observes of them (the attribute dictionary, the
    result of [items()] and of [keys()] when the object has these
    methods, and the elements it yields when iterated); and other host
    objects (dates, enumeration members, sets), which are opaque. *)
Inductive value :=
| VNone
| VBool (b : bool)
| VInt (n : Z)
| VFloat (bits : Z)                   (* the binary64 pattern *)
| VStr (s : string)
| VBytes (bs : list byte)
| VBytearray (bs : list byte)
| VMemoryview (bs : list byte)
| VList (xs : list value)
| VTuple (xs : list value)
| VDict (kvs : list (string * value))  (* in insertion order *)
| VNdarray (a : ndarray)
| VProto (shape dtype buffer strides : value)
| VObj (c : class)
       (attrs : list (string * value))
       (items : option (list (string * value)))
       (keys : option (list string))
       (elems : option (list value))
| VHost (c : class) (id : Z).

(** [type(v)]. *)
Definition class_of (v : value) : class :=
  match v with
  | VNone => Builtin BNoneType
  | VBool _ => Builtin Bbool
  | VInt _ => Builtin Bint
  | VFloat _ => Builtin Bfloat
  | VStr _ => Builtin Bstr
  | VBytes _ => Builtin Bbytes
  | VBytearray _ => Builtin Bbytearray
  | VMemoryview _ => Builtin Bmemoryview
  | VList _ => Builtin Blist
  | VTuple _ => Builtin Btuple
  | VDict _ => Builtin Bdict
  | VNdarray _ => Builtin Bndarray
  | VProto _ _ _ _ => NumpyProto
  | VObj c _ _ _ _ => c
  | VHost c _ => c
  end.

Definition type_of (v : value) : ty := TyClass (class_of v).

(** [isinstance(v, b)]. *)
Definition isinstance (v : value) (b : builtin) : bool :=
  class_issubclass (class_of v) b.

Definition is_none_value (v : value) : bool :=
  match v with VNone => true | _ => false end.

(** Association lists with text keys: lookup, [d[k] = v] (a new key goes
    last, an old one keeps its place) and [d.setdefault(k, v)]. *)
Fixpoint assoc_get {A} (k : string) (kvs : list (string * A)) : option A :=
  match kvs with
  | [] => None
  | (k', v) :: rest => if String.eqb k k' then Some v else assoc_get k rest
  end.

Fixpoint assoc_set {A} (k : string) (v : A) (kvs : list (string * A))
  : list (string * A) :=
  match kvs with
  | [] => [(k, v)]
  | (k', v') :: rest =>
      if String.eqb k k' then (k', v) :: rest else (k', v') :: assoc_set k v rest
  end.

Definition assoc_setdefault {A} (k : string) (v : A) (kvs : list (string * A))
  : list (string * A) :=
  match assoc_get k kvs with
  | Some _ => kvs
  | None => kvs ++ [(k, v)]
  end.

(** [lst.insert(i, v)] for [0 <= i]. *)
Definition list_insert {A} (i : nat) (v : A) (xs : list A) : list A :=
  firstn i xs ++ v :: skipn i xs.

Definition not_iterable (v : value) : exn :=
  mk_error TypeError ("'" ++ class_name (class_of v) ++ "' object is not iterable").

Definition no_attribute (v : value) (name : string) : exn :=
  mk_error AttributeError
    ("'" ++ class_name (class_of v) ++ "' object has no attribute '" ++ name ++ "'").

Definition byte_value (b : byte) : value := VInt (Z.of_N (Byte.to_N b)).

Fixpoint chars (s : string) : list value :=
  match s with
  | EmptyString => []
  | String c s' => VStr (String c EmptyString) :: chars s'
  end.

(** ** The host

    What the two source files import and do not define: the capability
    flag and the platform name read at import time, numpy's dtype
    registry, the family predicates and introspection helpers of the
    package, the string-to-boolean parser, and the operations of the
    Python runtime on objects this development keeps opaque. *)
Record Host := MkHost {
  HAS_NUMPY : bool;
  platform : string;                      (* sys.platform *)
  numpy_dtype : value -> option dtype;    (* numpy.dtype(x); None when it raises *)
  is_none : ty -> bool;
  is_deserialize_cls : ty -> bool;
  is_serializable_pod_cls : ty -> bool;
  is_namedtuple_subclass : ty -> bool;
  is_protocol : ty -> bool;
  compatible_iterable : value -> bool;
  get_public_attributes : value -> list (string * value);
  required_init_parameters : ty -> list string;
  string_to_boolean : string -> outcome bool;
  DESERIALIZE_METHOD_NAME : string;
  get_type_hints : ty -> outcome (list (string * ty));
  host_new : ty -> list value -> list (string * value) -> outcome value;
                                          (* cls( *args, **kwargs) *)
  host_call : string -> list value -> outcome value;
  host_truth : value -> outcome bool;     (* bool(x) *)
  host_str : value -> string;             (* str(x) *)
  host_iter : value -> outcome (list value)
}.

(** Modelled from the spec: the names of the item-pairs accessor, of the
    key-enumeration accessor and of the insertion primitive, constants of
    [type_serialize/inspect/types.py]. *)
Definition MAPPING_METHOD_ITEMS : string := "items".
Definition MAPPING_METHOD_KEYS : string := "keys".
Definition SEQUENCE_METHOD_INSERT : string := "insert".

Definition is_empty_string (s : string) : bool :=
  match s with EmptyString => true | _ => false end.

Definition is_nil {A} (xs : list A) : bool :=
  match xs with [] => true | _ => false end.

Section WithHost.

Variable H : Host.

(** *** Built-in operations of the runtime *)

(** [bool(v)]. *)
Definition py_truth (v : value) : outcome bool :=
  match v with
  | VNone => Return false
  | VBool b => Return b
  | VInt n => Return (negb (n =? 0)%Z)
  | VFloat bits => Return (negb ((bits mod 2 ^ 63) =? 0)%Z)
  | VStr s => Return (negb (is_empty_string s))
  | VBytes bs | VBytearray bs | VMemoryview bs => Return (negb (is_nil bs))
  | VList xs | VTuple xs => Return (negb (is_nil xs))
  | VDict kvs => Return (negb (is_nil kvs))
  | VProto _ _ _ _ => Return true
  | VNdarray _ | VObj _ _ _ _ _ | VHost _ _ => host_truth H v
  end.

(** [str(v)], as an f-string formats it. *)
Definition py_str (v : value) : string :=
  match v with
  | VNone => "None"
  | VBool true => "True"
  | VBool false => "False"
  | VInt n => NilZero.string_of_int (Z.to_int n)
  | VStr s => s
  | _ => host_str H v
  end.

(** The elements [for x in v] visits. *)
Definition iterate (v : value) : outcome (list value) :=
  match v with
  | VNone | VBool _ | VInt _ | VFloat _ => Raise (not_iterable v)
  | VStr s => Return (chars s)
  | VBytes bs | VBytearray bs | VMemoryview bs => Return (map byte_value bs)
  | VList xs | VTuple xs => Return xs
  | VDict kvs => Return (map (fun kv => VStr (fst kv)) kvs)
  | VProto a b c d => Return [a; b; c; d]
  | VObj _ _ _ _ (Some xs) => Return xs
  | VObj _ _ _ _ None | VNdarray _ | VHost _ _ => host_iter H v
  end.

(** *** [class_serialize/driver/numpy.py] *)

Definition valid_numpy_module : outcome unit :=
  if negb (HAS_NUMPY H) then
    Raise (mk_error ModuleNotFoundError "NumPy module not found")
  else Return tt.

Definition is_ndarray_instance (obj : value) : outcome bool :=
  valid_numpy_module ;;;
  Return (isinstance obj Bndarray).

Definition is_ndarray_subclass (cls : ty) : outcome bool :=
  valid_numpy_module ;;;
  issubclass cls Bndarray.

(** [assert isinstance(array, numpy.ndarray)], giving the array. *)
Definition assert_ndarray (array : value) : outcome ndarray :=
  match array with
  | VNdarray a => Return a
  | _ => Raise (mk_error AssertionError "")
  end.

Definition _ndarray_to_bytes_by_darwin (array : value) : outcome (list byte) :=
  valid_numpy_module ;;;
  a <- assert_ndarray array ;;
  Return (nd_tobytes a).

(** [array.data]: the memory of a packed array seen through the buffer
    protocol, that is the window of its base that starts at the first
    element.  For an element type without a buffer format numpy raises
    instead of returning a view. *)
Definition nd_data (a : ndarray) : outcome value :=
  match dt_no_buffer (nd_dtype a) with
  | Some c =>
      Raise (mk_error ValueError ("cannot include dtype '" ++ c ++ "' in a buffer"))
  | None =>
      Return (VMemoryview
                (bytes_slice (nd_base a) (nd_offset a)
                             (multiply_list (nd_shape a) * dt_itemsize (nd_dtype a))))
  end.

Definition _ndarray_to_bytes (array : value) : outcome (list byte) :=
  valid_numpy_module ;;;
  a <- assert_ndarray array ;;
  if flags_c_contiguous a then
    data <- nd_data a ;;
    match data with
    | VMemoryview bs => Return bs                    (* data.tobytes() *)
    | VBytes bs => Return bs
    | _ => Raise (mk_error AssertionError "")
    end
  else Return (nd_tobytes a).

Definition ndarray_to_bytes (array : value) : outcome (list byte) :=
  if String.eqb (platform H) "darwin" then _ndarray_to_bytes_by_darwin array
  else _ndarray_to_bytes array.

Definition numpy_serialize (array : value) : outcome value :=
  valid_numpy_module ;;;
  a <- assert_ndarray array ;;
  let name := dt_name (nd_dtype a) in
  match numpy_dtype H (VStr name) with
  | None =>
      if negb (is_empty_string name) then
        Raise (mk_error ValueError ("Unsupported dtype name: " ++ name))
      else
        Raise (mk_error ValueError ("Empty dtype name: " ++ dt_str (nd_dtype a)))
  | Some _ =>
      buffer <- ndarray_to_bytes array ;;
      Return (VProto (VList (map VInt (nd_shape a)))
                     (VStr name)
                     (VBytes buffer)
                     (VList (map VInt (nd_strides a))))
  end.

(** A list or tuple of integers, as [shape=] and [strides=] take them. *)
Fixpoint int_items (xs : list value) : option (list Z) :=
  match xs with
  | [] => Some []
  | VInt n :: rest => option_map (cons n) (int_items rest)
  | _ => None
  end.

Definition int_seq (v : value) : option (list Z) :=
  match v with
  | VList xs | VTuple xs => int_items xs
  | _ => None
  end.

Definition buffer_bytes (v : value) : option (list byte) :=
  match v with
  | VBytes bs | VBytearray bs | VMemoryview bs => Some bs
  | _ => None
  end.

(** [numpy.ndarray(shape=, dtype=, buffer=, strides=)]: a view over the
    given buffer, refused when the strides reach outside of it. *)
Definition ndarray_new (shape : value) (dt : dtype) (buffer strides : value)
  : outcome value :=
  match int_seq shape, buffer_bytes buffer, int_seq strides with
  | Some dims, Some bs, Some sts =>
      if negb (List.length sts =? List.length dims)%nat then
        Raise (mk_error ValueError
                 "strides, if given, must be the same length as shape")
      else if negb (check_strides (dt_itemsize dt) (Z.of_nat (List.length bs)) 0
                                  dims sts) then
        Raise (mk_error ValueError
                 "strides is incompatible with shape of requested array and size of buffer")
      else if existsb (fun d => d <? 0)%Z dims then
        Raise (mk_error ValueError "negative dimensions are not allowed")
      else Return (VNdarray (MkNdarray dims dt sts bs 0))
  | _, _, _ =>
      host_call H "numpy.ndarray" [shape; VStr (dt_name dt); buffer; strides]
  end.

Definition _numpy_deserialize (proto : value) : outcome value :=
  valid_numpy_module ;;;
  match proto with
  | VProto p_shape p_dtype p_buffer p_strides =>
      match numpy_dtype H p_dtype with
      | None =>
          nonempty <- py_truth p_dtype ;;
          if nonempty then
            Raise (mk_error ValueError ("Unsupported dtype name: " ++ py_str p_dtype))
          else
            Raise (mk_error ValueError "Empty dtype name")
      | Some dt => ndarray_new p_shape dt p_buffer p_strides
      end
  | _ => Raise (no_attribute proto "dtype")
  end.

(** The elements of a list or tuple, as [len] and indexing see them. *)
Definition sequence_items (v : value) : outcome (list value) :=
  match v with
  | VList xs | VTuple xs => Return xs
  | _ => iterate v
  end.

Definition is_NumpyProto (v : value) : bool :=
  match v with VProto _ _ _ _ => true | _ => false end.

Definition numpy_deserialize (proto : value) : outcome value :=
  valid_numpy_module ;;;
  if is_NumpyProto proto then _numpy_deserialize proto
  else if isinstance proto Blist || isinstance proto Btuple then
    xs <- sequence_items proto ;;
    if negb (List.length xs =? 4)%nat then
      Raise (mk_error ValueError
               ("There must be 4 elements. "
                ++ "There are actually " ++ str_of_nat (List.length xs) ++ " elements."))
    else if negb (isinstance (nth 0 xs VNone) BIterable) then
      Raise (mk_error ValueError "The first element must be `Iterable`")
    else if negb (isinstance (nth 1 xs VNone) Bstr) then
      Raise (mk_error ValueError "The second element must be `str`")
    else if negb (isinstance (nth 2 xs VNone) Bbytes
                  || isinstance (nth 2 xs VNone) Bbytearray
                  || isinstance (nth 2 xs VNone) Bmemoryview) then
      Raise (mk_error ValueError "The third element must be `bytes-like`")
    else if negb (isinstance (nth 3 xs VNone) BIterable) then
      Raise (mk_error ValueError "The forth element must be `Iterable`")
    else
      _numpy_deserialize
        (VProto (nth 0 xs VNone) (nth 1 xs VNone) (nth 2 xs VNone) (nth 3 xs VNone))
  else
    Raise (mk_error TypeError
             ("Unsupported proto type: " ++ class_name (class_of proto))).

(** *** More built-in operations, used by the engine *)

Definition is_space (c : ascii) : bool :=
  let n := nat_of_ascii c in
  ((9 <=? n) && (n <=? 13) || (28 <=? n) && (n <=? 32))%nat.

Definition is_digit (c : ascii) : bool :=
  let n := nat_of_ascii c in ((48 <=? n) && (n <=? 57))%nat.

Fixpoint lstrip (s : string) : string :=
  match s with
  | String c s' => if is_space c then lstrip s' else s
  | EmptyString => EmptyString
  end.

Fixpoint rstrip (s : string) : string :=
  match s with
  | String c s' =>
      match rstrip s' with
      | EmptyString => if is_space c then EmptyString else String c EmptyString
      | t => String c t
      end
  | EmptyString => EmptyString
  end.

(** Decimal digits, single underscores allowed between them. *)
Fixpoint digits_value (s : string) (acc : Z) (after_digit : bool) : option Z :=
  match s with
  | EmptyString => if after_digit then Some acc else None
  | String c s' =>
      if is_digit c then
        digits_value s' (acc * 10 + Z.of_nat (nat_of_ascii c - 48))%Z true
      else if Ascii.eqb c "_" then
        if after_digit then digits_value s' acc false else None
      else None
  end.

(** The integer a text denotes for [int(text)]. *)
Definition int_literal (s : string) : option Z :=
  match rstrip (lstrip s) with
  | String "-" s' => option_map Z.opp (digits_value s' 0 false)
  | String "+" s' => digits_value s' 0 false
  | s' => digits_value s' 0 false
  end.

(** [int(data)]. *)
Definition py_int (data : value) : outcome value :=
  match data with
  | VBool b => Return (VInt (if b then 1 else 0))
  | VInt n => Return (VInt n)
  | VStr s =>
      match int_literal s with
      | Some n => Return (VInt n)
      | None =>
          Raise (mk_error ValueError
                   ("invalid literal for int() with base 10: '" ++ s ++ "'"))
      end
  | _ => host_new H Tint [data] []
  end.

(** [bool(data)], [str(data)], [float(data)], [bytes(data)],
    [bytearray(data)]. *)
Definition py_bool (data : value) : outcome value :=
  b <- py_truth data ;; Return (VBool b).
Definition py_str_of (data : value) : outcome value := Return (VStr (py_str data)).
Definition py_float (data : value) : outcome value := host_new H Tfloat [data] [].
Definition py_bytes (data : value) : outcome value := host_new H Tbytes [data] [].
Definition py_bytearray (data : value) : outcome value :=
  host_new H Tbytearray [data] [].

(** [cls( *args, **kwargs)]: the empty list, the empty dict and the
    tuple of an iterable are built here, every other construction is the
    host's. *)
Definition py_new (cls : ty) (args : list value) (kwargs : list (string * value))
  : outcome value :=
  match cls, args, kwargs with
  | TyClass (Builtin Blist), [], [] => Return (VList [])
  | TyClass (Builtin Bdict), [], [] => Return (VDict [])
  | TyClass (Builtin Btuple), [x], [] => xs <- iterate x ;; Return (VTuple xs)
  | _, _, _ => host_new H cls args kwargs
  end.

(** [hasattr(v, "items")] with [v.items()], [hasattr(v, "keys")] with
    [v.keys()]. *)
Definition items_of (v : value) : option (list (string * value)) :=
  match v with
  | VDict kvs => Some kvs
  | VObj _ _ items _ _ => items
  | _ => None
  end.

Definition keys_of (v : value) : option (list string) :=
  match v with
  | VDict kvs => Some (map fst kvs)
  | VObj _ _ _ keys _ => keys
  | _ => None
  end.

(** [getattr(v, name, None)] for a data attribute. *)
Definition py_getattr (v : value) (name : string) : outcome value :=
  match v with
  | VObj _ attrs _ _ _ =>
      match assoc_get name attrs with
      | Some x => Return x
      | None => Return VNone
      end
  | VHost _ _ => host_call H "getattr" [v; VStr name; VNone]
  | _ => Return VNone
  end.

(** [setattr(v, name, x)]: instances of user classes take the attribute,
    instances of the built-in types refuse it. *)
Definition py_setattr (v : value) (name : string) (x : value) : outcome value :=
  match v with
  | VObj c attrs items keys elems =>
      Return (VObj c (assoc_set name x attrs) items keys elems)
  | VHost _ _ => host_call H "setattr" [v; VStr name; x]
  | _ => Raise (no_attribute v name)
  end.

(** [v.setdefault(k, x)]. *)
Definition py_setdefault (v : value) (k : string) (x : value) : outcome value :=
  match v with
  | VDict kvs => Return (VDict (assoc_setdefault k x kvs))
  | VObj c attrs (Some kvs) keys elems =>
      let kvs' := assoc_setdefault k x kvs in
      Return (VObj c attrs (Some kvs') (option_map (fun _ => map fst kvs') keys) elems)
  | VObj _ _ None _ _ | VHost _ _ => host_call H "setdefault" [v; VStr k; x]
  | _ => Raise (no_attribute v "setdefault")
  end.

(** [hasattr(v, "insert")], [len(v)] and [v.insert(i, x)]. *)
Definition has_insert (v : value) : bool :=
  match v with
  | VList _ | VBytearray _ => true
  | VObj c _ _ _ _ | VHost c _ => class_issubclass c BMutableSequence
  | _ => false
  end.

Definition py_len (v : value) : outcome nat :=
  match v with
  | VList xs | VTuple xs => Return (List.length xs)
  | VObj _ _ _ _ (Some xs) => Return (List.length xs)
  | VDict kvs => Return (List.length kvs)
  | VStr s => Return (String.length s)
  | VBytes bs | VBytearray bs | VMemoryview bs => Return (List.length bs)
  | _ =>
      n <- host_call H "len" [v] ;;
      match n with
      | VInt z => Return (Z.to_nat z)
      | _ => Raise (mk_error TypeError "object cannot be interpreted as an integer")
      end
  end.

Definition py_insert (v : value) (i : nat) (x : value) : outcome value :=
  match v with
  | VList xs => Return (VList (list_insert i x xs))
  | VObj c attrs items keys (Some xs) =>
      Return (VObj c attrs items keys (Some (list_insert i x xs)))
  | _ => host_call H "insert" [v; VInt (Z.of_nat i); x]
  end.

(** [f"`{type(data).__name__}` type cannot be converted to `dest` type."] *)
Definition cannot_convert (data : value) (dest : string) : exn :=
  let src_type := ("`" ++ class_name (class_of data) ++ "` type")%string in
  let dest_type := ("`" ++ dest ++ "` type")%string in
  DeserializeError0 (src_type ++ " cannot be converted to " ++ dest_type ++ ".").

Definition ty_repr (t : ty) : string :=
  match t with
  | TyClass c => ("<class '" ++ class_name c ++ "'>")%string
  | _ => ("typing." ++ ty_name t)%string
  end.

(** *** [type_serialize/obj/deserialize.py] *)

Definition FIRST_INDEX_KEY_STR : string := "0".
Definition DEFAULT_ROOT_KEY : string := "<root>".

Definition _deserialize_interface (data : value) (cls : ty) : outcome value :=
  result <- py_new cls [] [] ;;
  host_call H (DESERIALIZE_METHOD_NAME H) [result; data].

(** The helpers below reach [_deserialize_any] again; [rec] stands for
    that call ([data], [cls], [key], [hint]). *)
Section Frames.

Variable rec : value -> ty -> option string -> ty -> outcome value.

Definition _deserialize_mapping_by_keys
  (data : value) (cls : ty) (keys : list string) (elem_hint : ty)
  : outcome value :=
  ok <- issubclass cls BMutableMapping ;;
  py_assert ok ;;;
  result <- py_new cls [] [] ;;
  for_each keys result (fun key result =>
    serialize_value <- py_getattr data key ;;
    let attr_cls := if ty_truth elem_hint then elem_hint
                    else type_of serialize_value in
    attr_value <- rec serialize_value attr_cls (Some key) TyNone ;;
    py_setattr result key attr_value).

Definition _deserialize_mapping_by_items
  (cls : ty) (items : list (string * value)) (elem_hint : ty)
  : outcome value :=
  ok <- issubclass cls BMutableMapping ;;
  py_assert ok ;;;
  result <- py_new cls [] [] ;;
  for_each items result (fun item result =>
    let '(key, serialize_value) := item in
    let attr_cls := if ty_truth elem_hint then elem_hint
                    else type_of serialize_value in
    attr_value <- rec serialize_value attr_cls (Some key) TyNone ;;
    py_setdefault result key attr_value).

Definition _deserialize_mapping (data : value) (cls : ty) (elem_hint : ty)
  : outcome value :=
  ok <- issubclass cls BMutableMapping ;;
  py_assert ok ;;;
  match items_of data with
  | Some items => _deserialize_mapping_by_items cls items elem_hint
  | None =>
      match keys_of data with
      | Some keys => _deserialize_mapping_by_keys data cls keys elem_hint
      | None =>
          let members := get_public_attributes H data in
          _deserialize_mapping_by_items cls members elem_hint
      end
  end.

Definition _deserialize_mapping_any (data : value) (cls : ty) (elem_hint : ty)
  : outcome value :=
  ok <- issubclass cls BMutableMapping ;;
  py_assert ok ;;;
  if isinstance data BMapping then
    _deserialize_mapping data cls elem_hint
  else if compatible_iterable H data then
    xs <- iterate data ;;
    let mapping :=
      VDict (fold_left (fun d iv => assoc_set (str_of_nat (fst iv)) (snd iv) d)
                       (enumerate xs) []) in
    _deserialize_mapping mapping cls elem_hint
  else
    let mapping := VDict [(FIRST_INDEX_KEY_STR, data)] in
    _deserialize_mapping mapping cls elem_hint.

Definition index_label (i : nat) : string := "[" ++ str_of_nat i ++ "]".

Definition _deserialize_iterable (data : value) (cls : ty) (elem_hint : ty)
  : outcome value :=
  ok <- issubclass cls BMutableSequence ;;
  py_assert ok ;;;
  result <- py_new cls [] [] ;;
  if negb (has_insert result) then
    Raise (DeserializeError0 ("Not found `" ++ SEQUENCE_METHOD_INSERT ++ "` method"))
  else
    xs <- iterate data ;;
    for_each (enumerate xs) result (fun item result =>
      let '(i, serialize_value) := item in
      let attr_cls := if ty_truth elem_hint then elem_hint
                      else type_of serialize_value in
      attr_value <- rec serialize_value attr_cls (Some (index_label i)) TyNone ;;
      n <- py_len result ;;
      py_insert result n attr_value).

Definition _deserialize_iterable_any (data : value) (cls : ty) (elem_hint : ty)
  : outcome value :=
  ok <- issubclass cls BMutableSequence ;;
  py_assert ok ;;;
  if compatible_iterable H data then
    _deserialize_iterable data cls elem_hint
  else
    _deserialize_iterable (VList [data]) cls elem_hint.

Definition _deserialize_data_to_dict (data : value) (cls : ty)
  : outcome (list (string * value)) :=
  let result := [] in
  result_hints <- get_type_hints H cls ;;
  for_each (get_public_attributes H data) result (fun item result =>
    let '(key, serialize_value) := item in
    let hint := match assoc_get key result_hints with
                | Some h => h
                | None => TyNone
                end in
    let origin := get_origin hint in
    let attr_cls :=
      if ty_truth origin then origin
      else if ty_truth hint then hint
      else type_of serialize_value in
    v <- rec serialize_value attr_cls (Some key) hint ;;
    Return (assoc_set key v result)).

Definition _deserialize_dataclass (data : value) (cls : ty) : outcome value :=
  deserialize_datas <- _deserialize_data_to_dict data cls ;;
  py_new cls [] deserialize_datas.

Definition _deserialize_object (data : value) (cls : ty) : outcome value :=
  result <- py_new cls [] [] ;;
  d <- _deserialize_data_to_dict data cls ;;
  for_each d result (fun item result =>
    let '(key, value) := item in
    py_setattr result key value).

(** The hint-directed part of [_deserialize_any]: [Some r] when one of
    its branches returns [r], [None] when control falls through to the
    deduction by class. *)
Definition by_hint (data : value) (hint : ty) : outcome (option value) :=
  let type_origin := get_origin hint in
  let type_args := get_args hint in
  if is_None type_origin then
    Return None
  else if is_Union type_origin then
    let union_types := type_args in
    py_assert (2 <=? List.length union_types)%nat ;;;
    let union_types :=
      if ty_in NoneType union_types then ty_remove NoneType union_types
      else union_types in
    if (2 <=? List.length union_types)%nat then
      Raise (DeserializeError0 "Two or more UNION types can not be deduced.")
    else
      py_assert (List.length union_types =? 1)%nat ;;;
      r <- rec data (nth 0 union_types TyNone) None (nth 0 union_types TyNone) ;;
      Return (Some r)
  else
    is_bytes <- issubclass type_origin Bbytes ;;
    if is_bytes then r <- py_bytes data ;; Return (Some r) else
    is_bytearray <- issubclass type_origin Bbytearray ;;
    if is_bytearray then r <- py_bytearray data ;; Return (Some r) else
    if is_deserialize_cls H type_origin then
      r <- _deserialize_interface data type_origin ;; Return (Some r)
    else if is_serializable_pod_cls H type_origin then
      r <- py_new type_origin [data] [] ;; Return (Some r)
    else
    is_mapping <- issubclass type_origin BMutableMapping ;;
    if is_mapping then
      let elem_type :=
        if (List.length type_args =? 2)%nat then nth 1 type_args TyNone
        else TyNone in
      r <- _deserialize_mapping_any data type_origin elem_type ;; Return (Some r)
    else
    is_sequence <- issubclass type_origin BMutableSequence ;;
    if is_sequence then
      let elem_type :=
        if (List.length type_args =? 1)%nat then nth 0 type_args TyNone
        else TyNone in
      r <- _deserialize_iterable_any data type_origin elem_type ;; Return (Some r)
    else Return None.

(** The deduction by class: [Some r] when a branch returns [r], [None]
    when control falls through to the deduction by data. *)
Definition by_class (data : value) (cls : ty) (key : option string)
  : outcome (option value) :=
  if negb (is_none H cls) && negb (is_Any cls) then
    let cls_origin := get_origin cls in
    if negb (is_None cls_origin) then
      r <- rec data cls_origin key cls ;; Return (Some r)
    else
    (* Do not change if-else order (Reason: issubclass(bool, int) == True) *)
    is_bytes <- issubclass cls Bbytes ;;
    if is_bytes then r <- py_bytes data ;; Return (Some r) else
    is_bytearray <- issubclass cls Bbytearray ;;
    if is_bytearray then r <- py_bytearray data ;; Return (Some r) else
    is_bool <- issubclass cls Bbool ;;
    if is_bool then
      if isinstance data Bstr then
        b <- string_to_boolean H (py_str data) ;; Return (Some (VBool b))
      else
        r <- py_bool data ;; Return (Some r)
    else
    is_int <- issubclass cls Bint ;;
    if is_int then r <- py_int data ;; Return (Some r) else
    is_float <- issubclass cls Bfloat ;;
    if is_float then r <- py_float data ;; Return (Some r) else
    is_str <- issubclass cls Bstr ;;
    if is_str then r <- py_str_of data ;; Return (Some r) else
    is_ndarray <- (if HAS_NUMPY H then is_ndarray_subclass cls else Return false) ;;
    if is_ndarray then
      if isinstance data Btuple || isinstance data Blist then
        r <- numpy_deserialize data ;; Return (Some r)
      else Raise (cannot_convert data "numpy.ndarray")
    else
    is_datetime <- issubclass cls Bdatetime ;;
    if is_datetime then
      if isinstance data Bfloat then
        r <- host_call H "datetime.fromtimestamp" [data] ;; Return (Some r)
      else if isinstance data Bint then
        r <- host_call H "datetime.fromordinal" [data] ;; Return (Some r)
      else if isinstance data Bstr then
        r <- host_call H "datetime.fromisoformat" [data] ;; Return (Some r)
      else Raise (cannot_convert data "datetime")
    else
    is_date <- issubclass cls Bdate ;;
    if is_date then
      if isinstance data Bfloat then
        r <- host_call H "date.fromtimestamp" [data] ;; Return (Some r)
      else if isinstance data Bint then
        r <- host_call H "date.fromordinal" [data] ;; Return (Some r)
      else if isinstance data Bstr then
        r <- host_call H "date.fromisoformat" [data] ;; Return (Some r)
      else Raise (cannot_convert data "date")
    else
    is_time <- issubclass cls Btime ;;
    if is_time then
      if isinstance data Bstr then
        r <- host_call H "time.fromisoformat" [data] ;; Return (Some r)
      else Raise (cannot_convert data "time")
    else
    is_enum <- issubclass cls BEnum ;;
    if is_enum then r <- py_new cls [data] [] ;; Return (Some r) else
    is_tuple <- issubclass cls Btuple ;;
    if is_tuple then
      if is_namedtuple_subclass H cls then
        args <- iterate data ;;
        r <- py_new cls args [] ;; Return (Some r)
      else if isinstance data BIterable then
        r <- py_new cls [data] [] ;; Return (Some r)
      else
        r <- py_new cls [VList [data]] [] ;; Return (Some r)
    else
    if is_deserialize_cls H cls then
      r <- _deserialize_interface data cls ;; Return (Some r)
    else
    is_mapping <- issubclass cls BMutableMapping ;;
    if is_mapping then
      r <- _deserialize_mapping_any data cls TyNone ;; Return (Some r)
    else
    is_sequence <- issubclass cls BMutableSequence ;;
    if is_sequence then
      r <- _deserialize_iterable_any data cls TyNone ;; Return (Some r)
    else
    if is_dataclass cls then
      r <- _deserialize_dataclass data cls ;; Return (Some r)
    else if is_protocol H cls then
      if isinstance data BIterable then
        r <- _deserialize_iterable data Tlist TyNone ;; Return (Some r)
      else
        r <- _deserialize_object data Tobject ;; Return (Some r)
    else if isclass cls then
      if negb (is_nil (required_init_parameters H cls)) then
        r <- _deserialize_dataclass data cls ;; Return (Some r)
      else
        r <- _deserialize_object data cls ;; Return (Some r)
    else Return None
  else Return None.

(** The deduction by data. *)
Definition by_data (data : value) (cls : ty) : outcome value :=
  if isinstance data Bbytes || isinstance data Bbytearray
     || isinstance data Bbool || isinstance data Bint
     || isinstance data Bfloat || isinstance data Bstr then
    Return data
  else if isinstance data BMapping then
    _deserialize_mapping data Tdict TyNone
  else if isinstance data BIterable then
    _deserialize_iterable data Tlist TyNone
  else if isclass (type_of data) then
    _deserialize_object data Tdict
  else
    Raise (DeserializeError0
             ("The data(`" ++ ty_repr (type_of data) ++ "`) and class(`"
              ++ ty_repr cls ++ "`) are not compatible.")).

(** The [try] block of [_deserialize_any]. *)
Definition _deserialize_any_try
  (data : value) (cls : ty) (key : option string) (hint : ty) : outcome value :=
  if is_none_value data then Return VNone
  else
    hinted <- by_hint data hint ;;
    match hinted with
    | Some r => Return r
    | None =>
        deduced <- by_class data cls key ;;
        match deduced with
        | Some r => Return r
        | None => by_data data cls
        end
    end.

End Frames.

(** The two [except] clauses of [_deserialize_any]: a [DeserializeError]
    gets [key] inserted in front of its path and goes on; any other
    exception is replaced by a [DeserializeError] with its text and the
    path [key]. *)
Definition _deserialize_any_except (key : option string) (r : outcome value)
  : outcome value :=
  match r with
  | Raise e =>
      if is_DeserializeError e then Raise (insert_first key e)
      else Raise (DeserializeError1 (e_msg e) key)
  | _ => r
  end.

Fixpoint _deserialize_any
  (fuel : nat) (data : value) (cls : ty) (key : option string) (hint : ty)
  {struct fuel} : outcome value :=
  match fuel with
  | O => Diverge
  | S fuel' =>
      _deserialize_any_except key
        (_deserialize_any_try (_deserialize_any fuel') data cls key hint)
  end.

Definition _deserialize_root (fuel : nat) (data : value) (cls : ty) (hint : ty)
  : outcome value :=
  _deserialize_any fuel data cls (Some DEFAULT_ROOT_KEY) hint.

(** [deserialize] after [assert origin is not None]. *)
Definition deserialize_origin
  (fuel : nat) (data : value) (cls_or_hint : ty) (origin : ty) : outcome value :=
  py_assert (negb (is_None origin)) ;;;
  if is_Union origin then
    let type_args := get_args cls_or_hint in
    let union_types := type_args in
    py_assert (2 <=? List.length union_types)%nat ;;;
    let union_types :=
      if ty_in NoneType union_types then ty_remove NoneType union_types
      else union_types in
    if (2 <=? List.length union_types)%nat then
      Raise (DeserializeError0 "Two or more UNION types can not be deduced.")
    else
      py_assert (List.length union_types =? 1)%nat ;;;
      _deserialize_root fuel data (nth 0 union_types TyNone)
                        (nth 0 union_types TyNone)
  else
    is_list <- issubclass origin Blist ;;
    if is_list then _deserialize_root fuel data Tlist cls_or_hint else
    is_dict <- issubclass origin Bdict ;;
    if is_dict then _deserialize_root fuel data Tdict cls_or_hint else
    Raise (mk_error TypeError ("Unsupported origin: " ++ ty_name origin)).

Definition deserialize (fuel : nat) (data : value) (cls_or_hint : ty)
  : outcome value :=
  if is_None cls_or_hint then
    let origin := get_origin (type_of data) in
    if is_None origin then _deserialize_root fuel data (type_of data) TyNone
    else deserialize_origin fuel data cls_or_hint origin
  else
    let origin := get_origin cls_or_hint in
    if is_None origin then _deserialize_root fuel data cls_or_hint TyNone
    else deserialize_origin fuel data cls_or_hint origin.

End WithHost.

Arguments _deserialize_any_except key r : simpl never.
Arguments _deserialize_any H fuel data cls key hint : simpl never.
Arguments _deserialize_iterable H rec data cls elem_hint : simpl never.
Arguments _deserialize_iterable_any H rec data cls elem_hint : simpl never.
Arguments _deserialize_mapping_by_keys H rec data cls keys elem_hint : simpl never.
Arguments _deserialize_mapping_by_items H rec cls items elem_hint : simpl never.
Arguments _deserialize_mapping H rec data cls elem_hint : simpl never.
Arguments _deserialize_mapping_any H rec data cls elem_hint : simpl never.
Arguments _deserialize_data_to_dict H rec data cls : simpl never.
Arguments _deserialize_dataclass H rec data cls : simpl never.
Arguments _deserialize_object H rec data cls : simpl never.
Arguments _deserialize_interface H data cls : simpl never.
Arguments numpy_deserialize H proto : simpl never.
Arguments str_of_nat n : simpl never.

(** ** A reference host

    Modelled from the spec: the collaborators of section 6, for a
    runtime with numpy on a platform other than darwin.  [is_none]
    answers for the absent type; [compatible_iterable] is true of an
    iterable that is not itself raw text or bytes; the plain scalar
    classes are the serializable PODs; the public attributes of an
    object are those whose name does not start with an underscore; the
    string-to-boolean parser knows a fixed vocabulary; the dtype
    registry knows a few names.  No class implements the
    self-deserializing interface, is a protocol or has required
    constructor parameters; user classes are instantiated with their
    keyword arguments as attributes, and the operations on opaque
    objects are unavailable. *)
Module SpecHost.

Definition unavailable {A} (what : string) : outcome A :=
  Raise (mk_error (HostException "NotImplementedError") what).

Definition iterable_not_text (v : value) : bool :=
  isinstance v BIterable
  && negb (isinstance v Bstr || isinstance v Bbytes || isinstance v Bbytearray).

Definition scalar_class (t : ty) : bool :=
  match t with
  | TyClass (Builtin (Bbool | Bint | Bfloat | Bstr)) => true
  | _ => false
  end.

Definition is_public (name : string) : bool :=
  match name with
  | String "_" _ => false
  | _ => true
  end.

Definition public_attributes (v : value) : list (string * value) :=
  match v with
  | VObj _ attrs _ _ _ => filter (fun kv => is_public (fst kv)) attrs
  | _ => []
  end.

Definition lower (c : ascii) : ascii :=
  let n := nat_of_ascii c in
  if ((65 <=? n) && (n <=? 90))%nat then ascii_of_nat (n + 32) else c.

Fixpoint lowercase (s : string) : string :=
  match s with
  | EmptyString => EmptyString
  | String c s' => String (lower c) (lowercase s')
  end.

Definition parse_boolean (s : string) : outcome bool :=
  let t := lowercase s in
  if existsb (String.eqb t) ["true"; "1"; "yes"] then Return true
  else if existsb (String.eqb t) ["false"; "0"; "no"] then Return false
  else Raise (mk_error ValueError ("Unknown boolean text: " ++ s)).

Definition registry : list (string * dtype) :=
  [ ("uint8", MkDtype "uint8" "uint8" 1 None);
    ("int32", MkDtype "int32" "int32" 4 None);
    ("int64", MkDtype "int64" "int64" 8 None);
    ("float32", MkDtype "float32" "float32" 4 None);
    ("f4", MkDtype "float32" "float32" 4 None);
    ("float64", MkDtype "float64" "float64" 8 None);
    ("datetime64[ns]", MkDtype "datetime64[ns]" "datetime64[ns]" 8 (Some "M")) ].

Definition registry_lookup (v : value) : option dtype :=
  match v with
  | VStr name => assoc_get name registry
  | _ => None
  end.

(** The declared fields of the classes used in the examples. *)
Definition declared_fields (hints : list (string * list (string * ty))) (t : ty)
  : outcome (list (string * ty)) :=
  match t with
  | TyClass c =>
      match assoc_get (class_name c) hints with
      | Some fields => Return fields
      | None => Return []
      end
  | _ => Raise (mk_error TypeError "not a module, class, method, or function")
  end.

(** A user class is instantiated without positional arguments: the
    keyword arguments become the attributes, and a mutable mapping or
    sequence starts empty. *)
Definition instantiate (t : ty) (args : list value) (kwargs : list (string * value))
  : outcome value :=
  match t, args with
  | TyClass (User name base dc), [] =>
      let c := User name base dc in
      let mapping := class_issubclass c BMutableMapping in
      let sequence := class_issubclass c BMutableSequence in
      Return (VObj c kwargs
                   (if mapping then Some [] else None)
                   (if mapping then Some [] else None)
                   (if sequence then Some [] else None))
  | _, _ => unavailable "constructor"
  end.

Definition host (hints : list (string * list (string * ty))) : Host :=
  {| HAS_NUMPY := true;
     platform := "linux";
     numpy_dtype := registry_lookup;
     is_none := is_None;
     is_deserialize_cls := fun _ => false;
     is_serializable_pod_cls := scalar_class;
     is_namedtuple_subclass := fun _ => false;
     is_protocol := fun _ => false;
     compatible_iterable := iterable_not_text;
     get_public_attributes := public_attributes;
     required_init_parameters := fun _ => [];
     string_to_boolean := parse_boolean;
     DESERIALIZE_METHOD_NAME := "__deserialize__";
     get_type_hints := declared_fields hints;
     host_new := instantiate;
     host_call := fun name _ => unavailable name;
     host_truth := fun _ => Return true;
     host_str := fun _ => "<object>";
     host_iter := fun _ => unavailable "iteration" |}.

End SpecHost.

(** ** Vocabulary of the properties *)

(** More fuel can only turn an exhausted call into an answer. *)
Definition extends {A} (r1 r2 : outcome A) : Prop := r1 = Diverge \/ r1 = r2.

Definition rec_extends (f g : value -> ty -> option string -> ty -> outcome value)
  : Prop :=
  forall data cls key hint, extends (f data cls key hint) (g data cls key hint).

(** A union's alternatives once [NoneType] is taken out, as the code does
    it, and those that are not [NoneType]. *)
Definition strip_none (args : list ty) : list ty :=
  if ty_in NoneType args then ty_remove NoneType args else args.

Definition non_null (args : list ty) : list ty :=
  filter (fun t => negb (ty_eqb NoneType t)) args.

(** The hints [deserialize] takes to the engine: anything without an
    origin, a union that leaves one alternative, a generic whose origin
    is a list or a dict. *)
Definition root_supported (h : ty) : bool :=
  match h with
  | TyUnion args =>
      (2 <=? List.length args)%nat && (List.length (strip_none args) =? 1)%nat
  | TyGeneric o _ => class_issubclass o Blist || class_issubclass o Bdict
  | TySpecial _ _ => false
  | _ => true
  end.

Definition union_ambiguity : string :=
  "Two or more UNION types can not be deduced.".

(** What the bool branch of the engine computes from present data. *)
Definition boolean_rule (H : Host) (data : value) : outcome value :=
  if isinstance data Bstr then
    b <- string_to_boolean H (py_str H data) ;; Return (VBool b)
  else py_bool H data.

(** [isinstance(v, (bytes, bytearray, memoryview))]. *)
Definition bytes_like (v : value) : bool :=
  isinstance v Bbytes || isinstance v Bbytearray || isinstance v Bmemoryview.

Definition wrong_count (n : nat) : string :=
  "There must be 4 elements. There are actually " ++ str_of_nat n ++ " elements.".

(** The two dtype failures, in the serialize and in the deserialize
    direction. *)
Definition dtype_failure_serialize (d : dtype) : exn :=
  mk_error ValueError
    (if is_empty_string (dt_name d) then "Empty dtype name: " ++ dt_str d
     else "Unsupported dtype name: " ++ dt_name d).

Definition dtype_failure_deserialize (name : string) : exn :=
  mk_error ValueError
    (if is_empty_string name then "Empty dtype name"
     else "Unsupported dtype name: " ++ name).

(** The malformed record of the spec and an array whose element type
    has a name the registry does not know. *)
Definition zero4 : list byte := ["000"; "000"; "000"; "000"]%byte.

Definition malformed_record : value :=
  VTuple [VInt 123; VStr "f4"; VBytes zero4; VList [VInt 4]].

Definition text_array : ndarray :=
  MkNdarray [1%Z] (MkDtype "str32" "<U1" 4 None) [4%Z] zero4 0.

(** The elements of a sequence instance the engine fills, and the
    instance with other elements. *)
Definition seq_store (r : value) : option (list value) :=
  match r with
  | VList xs => Some xs
  | VObj _ _ _ _ elems => elems
  | _ => None
  end.

Definition with_elems (r : value) (l : list value) : value :=
  match r with
  | VList _ => VList l
  | VObj c attrs items keys _ => VObj c attrs items keys (Some l)
  | _ => r
  end.

(** The class an element is deserialized against, and the statement
    that the engine call for the element at index [i] returns [y]. *)
Definition attr_cls_of (elem_hint : ty) (serialize_value : value) : ty :=
  if ty_truth elem_hint then elem_hint else type_of serialize_value.

Definition elem_result
  (rec : value -> ty -> option string -> ty -> outcome value) (elem_hint : ty)
  (ix : nat * value) (y : value) : Prop :=
  rec (snd ix) (attr_cls_of elem_hint (snd ix)) (Some (index_label (fst ix))) TyNone
  = Return y.

Definition three_one_two : value := VList [VInt 3; VInt 1; VInt 2].


(** The engine call for an item pair, and for a key of the keys path,
    returns the value of [out]. *)
Definition item_result
  (rec : value -> ty -> option string -> ty -> outcome value) (elem_hint : ty)
  (item out : string * value) : Prop :=
  fst out = fst item
  /\ rec (snd item) (attr_cls_of elem_hint (snd item)) (Some (fst item)) TyNone
     = Return (snd out).

Definition key_result (H : Host)
  (rec : value -> ty -> option string -> ty -> outcome value)
  (data : value) (elem_hint : ty) (key : string) (out : string * value) : Prop :=
  fst out = key
  /\ exists serialize_value,
       py_getattr H data key = Return serialize_value
       /\ rec serialize_value (attr_cls_of elem_hint serialize_value) (Some key) TyNone
          = Return (snd out).

(** Writing a run of pairs with [setdefault], and with assignment. *)
Definition setdefault_all (outs m0 : list (string * value)) : list (string * value) :=
  fold_left (fun m kv => assoc_setdefault (fst kv) (snd kv) m) outs m0.

Definition set_all (outs a0 : list (string * value)) : list (string * value) :=
  fold_left (fun a kv => assoc_set (fst kv) (snd kv) a) outs a0.







(** A record type with one field, [a : List[int]], and the source of
    the spec's example as an object with the attribute [a]. *)
Definition Rec : ty := TyClass (User "Rec" Bobject true).

Definition one_x : value := VList [VInt 1; VStr "x"].

Definition rec_source : value :=
  VObj (User "Source" Bobject false) [("a", one_x)] None None None.

Definition invalid_x : string := "invalid literal for int() with base 10: 'x'".

(** A generic the entry point refuses and the engine meets as a nested
    hint: [Tuple[int, int]]. *)
Definition TupleOfTwo : ty := TyGeneric (Builtin Btuple) [Tint; Tint].

Definition unsupported_origin (o : class) : exn :=
  mk_error TypeError ("Unsupported origin: " ++ class_name o).

(** The row-major packed layout, stated from the first axis on: an axis
    longer than one element strides over the block of the axes after
    it. *)
Fixpoint packed (itemsize : Z) (dims strides : list Z) : Prop :=
  match dims, strides with
  | d :: ds, s :: ss =>
      (d = 1%Z \/ s = (itemsize * multiply_list ds)%Z) /\ packed itemsize ds ss
  | [], [] => True
  | _, _ => False
  end.

(** An array as the runtime hands it out: positive element size, one
    stride per axis, no negative extent, and a buffer that holds the
    block the view starts at. *)
Definition well_formed (a : ndarray) : Prop :=
  (0 < dt_itemsize (nd_dtype a))%Z
  /\ List.length (nd_strides a) = List.length (nd_shape a)
  /\ Forall (fun d => 0 <= d)%Z (nd_shape a)
  /\ (0 <= nd_offset a)%Z
  /\ (nd_offset a + dt_itemsize (nd_dtype a) * multiply_list (nd_shape a)
      <= Z.of_nat (List.length (nd_base a)))%Z.

Definition int32 : dtype := MkDtype "int32" "int32" 4 None.

Definition le32 (n : byte) : list byte := [n; "000"%byte; "000"%byte; "000"%byte].

(** [numpy.arange(6, dtype="int32")], its view [[::2]] and the packed
    array [reshape(2, 3)]. *)
Definition arange6 : list byte :=
  le32 "000" ++ le32 "001" ++ le32 "002" ++ le32 "003" ++ le32 "004" ++ le32 "005".

Definition every_other : ndarray := MkNdarray [3%Z] int32 [8%Z] arange6 0.

Definition two_by_three : ndarray := MkNdarray [2%Z; 3%Z] int32 [12%Z; 4%Z] arange6 0.

(** The transpose [reshape(2, 3).T]: the same six integers seen column
    by column, and its elements in the order of [tobytes()]. *)
Definition transposed : ndarray := MkNdarray [3%Z; 2%Z] int32 [4%Z; 12%Z] arange6 0.

Definition transposed_bytes : list byte :=
  le32 "000" ++ le32 "003" ++ le32 "001" ++ le32 "004" ++ le32 "002" ++ le32 "005".

(** Three nanosecond timestamps, packed: an element type that numpy does
    not export through the buffer protocol. *)
Definition datetime64ns : dtype :=
  MkDtype "datetime64[ns]" "datetime64[ns]" 8 (Some "M").

Definition three_instants : ndarray :=
  MkNdarray [3%Z] datetime64ns [8%Z] arange6 0.

Definition buffer_refused (c : string) : exn :=
  mk_error ValueError ("cannot include dtype '" ++ c ++ "' in a buffer").

Definition strides_refused : exn :=
  mk_error ValueError
    "strides is incompatible with shape of requested array and size of buffer".

(** What the deserializer rebuilds from the record of [a], with the
    element type [dt] the registry gives for the name. *)
Definition rebuilt (a : ndarray) (dt : dtype) : ndarray :=
  MkNdarray (nd_shape a) dt (nd_strides a) (nd_tobytes a) 0.

(** Text keys without repetition. *)
Fixpoint distinct (ks : list string) : bool :=
  match ks with
  | [] => true
  | k :: rest => negb (existsb (String.eqb k) rest) && distinct rest
  end.

(** Plain data nested at most [depth] deep: [None], booleans, integers,
    text, lists of plain data and dicts of plain data. *)
Fixpoint plain (depth : nat) (v : value) {struct depth} : bool :=
  match v with
  | VNone | VBool _ | VInt _ | VStr _ => true
  | VList xs =>
      match depth with
      | O => false
      | S d => forallb (plain d) xs
      end
  | VDict kvs =>
      match depth with
      | O => false
      | S d => distinct (map fst kvs) && forallb (fun kv => plain d (snd kv)) kvs
      end
  | _ => false
  end.

(** A target that leaves the deduction to the data: the class of the
    data itself, [Any], or what the host takes for the absent type. *)
Definition untyped_target (H : Host) (v : value) (cls : ty) : Prop :=
  cls = type_of v \/ is_Any cls = true \/ is_none H cls = true.

Definition nested_sample : value :=
  VDict [("name", VStr "n"); ("tags", VList [VInt 1; VNone; VBool true]);
         ("more", VDict [("k", VList [])])].

(** The entries a sequence source is given when the target is a mapping:
    the elements keyed by their decimal index. *)
Definition indexed_from (start : nat) (xs : list value) : list (string * value) :=
  map (fun ix => (str_of_nat (fst ix), snd ix)) (enumerate_from start xs).

Definition indexed (xs : list value) : list (string * value) := indexed_from 0 xs.

Definition typed_sample : value := VDict [("a", VStr "1"); ("b", VInt 2)].

(** What [issubclass] raises for a first argument that is not a class. *)
Definition not_a_class : exn :=
  mk_error TypeError "issubclass() arg 1 must be a class".

(** How [deserialize] can fail: with a [DeserializeError] (its own for an
    ambiguous union, or one of the engine, whose path starts at the
    root), with the refusal of a generic origin that is a class, with
    the [TypeError] of [issubclass] for an origin that is not a class, or
    on a union of fewer than two alternatives. *)
Definition root_failure (h : ty) (e : exn) : Prop :=
  (e_class e = DeserializeError
   /\ (e = DeserializeError0 union_ambiguity
       \/ exists rest, e_keys e = Some DEFAULT_ROOT_KEY :: rest))
  \/ (exists o args, h = TyGeneric o args
                     /\ class_issubclass o Blist = false
                     /\ class_issubclass o Bdict = false
                     /\ e = unsupported_origin o)
  \/ (exists form args, h = TySpecial form args /\ e = not_a_class)
  \/ (exists args, h = TyUnion args /\ (List.length args < 2)%nat
                   /\ e_class e = AssertionError).

(** The array class and the classes of [datetime] as targets. *)
Definition Tndarray : ty := TyClass (Builtin Bndarray).
Definition Tdatetime : ty := TyClass (Builtin Bdatetime).
Definition Tdate : ty := TyClass (Builtin Bdate).
Definition Ttime : ty := TyClass (Builtin Btime).

(** What the codec raises without the array runtime. *)
Definition module_not_found : exn :=
  mk_error ModuleNotFoundError "NumPy module not found".

(** The reference host on a machine without numpy. *)
Definition host_without_numpy : Host :=
  let h := SpecHost.host [] in
  MkHost false (platform h) (numpy_dtype h) (is_none h) (is_deserialize_cls h)
         (is_serializable_pod_cls h) (is_namedtuple_subclass h) (is_protocol h)
         (compatible_iterable h) (get_public_attributes h)
         (required_init_parameters h) (string_to_boolean h)
         (DESERIALIZE_METHOD_NAME h) (get_type_hints h) (host_new h) (host_call h)
         (host_truth h) (host_str h) (host_iter h).

(** The error of a refused conversion, as it leaves the frame [key]. *)
Definition conversion_refused (data : value) (dest : string) (key : option string)
  : exn :=
  MkExn DeserializeError
        ("`" ++ class_name (class_of data) ++ "` type cannot be converted to `"
         ++ dest ++ "` type.")
        [key].

(** The class and the hint a field is deserialized against, and the
    statement that the engine call for a field returns the value of
    [out]. *)
Definition field_hint (hints : list (string * ty)) (key : string) : ty :=
  match assoc_get key hints with
  | Some h => h
  | None => TyNone
  end.

Definition field_cls (hints : list (string * ty)) (key : string)
  (serialize_value : value) : ty :=
  let hint := field_hint hints key in
  if ty_truth (get_origin hint) then get_origin hint
  else if ty_truth hint then hint
  else type_of serialize_value.

Definition field_result
  (rec : value -> ty -> option string -> ty -> outcome value)
  (hints : list (string * ty)) (item out : string * value) : Prop :=
  fst out = fst item
  /\ rec (snd item) (field_cls hints (fst item) (snd item)) (Some (fst item))
         (field_hint hints (fst item))
     = Return (snd out).

(** A source with an attribute the record type [Point] declares and one
    it does not. *)
Definition point_source : value :=
  VObj (User "Source" Bobject false) [("x", VStr "1"); ("label", VStr "p")]
       None None None.

Definition Point : ty := TyClass (User "Point" Bobject true).

(** A source that offers [keys()] and no [items()]. *)
Definition keyed_source : value :=
  VObj (User "Keyed" BMapping false) [("a", VInt 1)] None (Some ["a"]) None.

(** An instance of a plain class with one public attribute. *)
Definition Plain : class := User "Plain" Bobject false.

Definition plain_object : value := VObj Plain [("a", VInt 1)] None None None.

(** The hints that the hint dispatch of the engine decides: unions, and
    generics whose origin is in one of its families. *)
Definition hint_decides (H : Host) (hint : ty) : bool :=
  match hint with
  | TyUnion _ => true
  | TyGeneric o _ =>
      class_issubclass o Bbytes || class_issubclass o Bbytearray
      || is_deserialize_cls H (TyClass o) || is_serializable_pod_cls H (TyClass o)
      || class_issubclass o BMutableMapping || class_issubclass o BMutableSequence
  | _ => false
  end.

(** * Properties *)

(** Evaluation that keeps the comparisons and the union surgery folded. *)
Ltac step := cbn -[Nat.leb Nat.eqb ty_in ty_remove].

(** ** Equations of the engine *)

Lemma deserialize_any_unfold (H : Host) fuel data cls key hint :
  _deserialize_any H (S fuel) data cls key hint
  = _deserialize_any_except key
      (_deserialize_any_try H (_deserialize_any H fuel) data cls key hint).
Proof. reflexivity. Qed.

(** The guarded array test of the deduction by class. *)
Lemma ndarray_test (H : Host) (c : class) :
  (if HAS_NUMPY H then is_ndarray_subclass H (TyClass c) else Return false)
  = Return (HAS_NUMPY H && class_issubclass c Bndarray).
Proof.
  unfold is_ndarray_subclass, valid_numpy_module.
  now destruct (HAS_NUMPY H).
Qed.

Ltac no_ndarray :=
  rewrite ndarray_test; cbn [class_issubclass class_base ancestry existsb
                             builtin_eqb orb];
  rewrite andb_false_r; cbn [bind].

(** An integer for the target [int] comes back as it is, whether the
    host takes [int] for the absent type or not. *)
Lemma deserialize_any_int_hint (H : Host) fuel n key hint :
  get_origin hint = TyNone ->
  _deserialize_any H (S fuel) (VInt n) Tint key hint = Return (VInt n).
Proof.
  intros Ho. rewrite deserialize_any_unfold.
  unfold _deserialize_any_try, by_hint, by_class; rewrite Ho; cbn.
  destruct (is_none H Tint); reflexivity.
Qed.

Lemma deserialize_any_int (H : Host) fuel n key :
  _deserialize_any H (S fuel) (VInt n) Tint key TyNone = Return (VInt n).
Proof. now apply deserialize_any_int_hint. Qed.

(** ** Fuel

    The answer of the engine does not depend on the fuel once there is
    enough of it. *)

Lemma extends_refl {A} (r : outcome A) : extends r r.
Proof. now right. Qed.

Lemma bind_extends {A B} (m1 m2 : outcome A) (k1 k2 : A -> outcome B) :
  extends m1 m2 -> (forall a, extends (k1 a) (k2 a)) ->
  extends (bind m1 k1) (bind m2 k2).
Proof.
  intros [-> | ->] Hk; [now left |].
  destruct m2; cbn; [apply Hk | now right | now left].
Qed.

Lemma for_each_extends {A S} (b1 b2 : A -> S -> outcome S) :
  (forall x s, extends (b1 x s) (b2 x s)) ->
  forall xs s, extends (for_each xs s b1) (for_each xs s b2).
Proof.
  intros Hb. induction xs as [| x xs IH]; intros s; cbn; [apply extends_refl |].
  apply bind_extends; [apply Hb | apply IH].
Qed.

Lemma except_extends key (r1 r2 : outcome value) :
  extends r1 r2 ->
  extends (_deserialize_any_except key r1) (_deserialize_any_except key r2).
Proof. intros [-> | ->]; [now left | now right]. Qed.

Ltac ext_step :=
  match goal with
  | |- extends ?a ?a => apply extends_refl
  | Hfg : rec_extends ?f ?g |- extends (?f _ _ _ _) (?g _ _ _ _) => apply Hfg
  | |- extends (bind _ _) (bind _ _) => simple apply bind_extends; [| intros ?]
  | |- extends (for_each _ _ _) (for_each _ _ _) =>
      simple apply for_each_extends; intros ? ?
  | |- extends (if ?b then _ else _) (if ?b then _ else _) => destruct b
  | |- extends (match ?x with _ => _ end) (match ?x with _ => _ end) => destruct x
  end.

Ltac ext := cbv beta zeta; repeat (ext_step; cbv beta zeta).

Section Monotone.
Variable H : Host.
Variables f g : value -> ty -> option string -> ty -> outcome value.
Hypothesis Hfg : rec_extends f g.

Lemma by_keys_extends data cls keys hint :
  extends (_deserialize_mapping_by_keys H f data cls keys hint)
          (_deserialize_mapping_by_keys H g data cls keys hint).
Proof. unfold _deserialize_mapping_by_keys. ext. Qed.

Lemma by_items_extends cls items hint :
  extends (_deserialize_mapping_by_items H f cls items hint)
          (_deserialize_mapping_by_items H g cls items hint).
Proof. unfold _deserialize_mapping_by_items. ext. Qed.

Lemma mapping_extends data cls hint :
  extends (_deserialize_mapping H f data cls hint)
          (_deserialize_mapping H g data cls hint).
Proof.
  unfold _deserialize_mapping. ext;
    first [simple apply by_items_extends | simple apply by_keys_extends].
Qed.

Lemma mapping_any_extends data cls hint :
  extends (_deserialize_mapping_any H f data cls hint)
          (_deserialize_mapping_any H g data cls hint).
Proof. unfold _deserialize_mapping_any. ext; simple apply mapping_extends. Qed.

Lemma iterable_extends data cls hint :
  extends (_deserialize_iterable H f data cls hint)
          (_deserialize_iterable H g data cls hint).
Proof. unfold _deserialize_iterable. ext. Qed.

Lemma iterable_any_extends data cls hint :
  extends (_deserialize_iterable_any H f data cls hint)
          (_deserialize_iterable_any H g data cls hint).
Proof. unfold _deserialize_iterable_any. ext; simple apply iterable_extends. Qed.

Lemma data_to_dict_extends data cls :
  extends (_deserialize_data_to_dict H f data cls)
          (_deserialize_data_to_dict H g data cls).
Proof. unfold _deserialize_data_to_dict. ext. Qed.

Lemma dataclass_extends data cls :
  extends (_deserialize_dataclass H f data cls)
          (_deserialize_dataclass H g data cls).
Proof. unfold _deserialize_dataclass. ext. simple apply data_to_dict_extends. Qed.

Lemma object_extends data cls :
  extends (_deserialize_object H f data cls) (_deserialize_object H g data cls).
Proof. unfold _deserialize_object. ext. simple apply data_to_dict_extends. Qed.

Ltac ext_frames :=
  ext;
  first [ simple apply mapping_any_extends | simple apply iterable_any_extends
        | simple apply mapping_extends | simple apply iterable_extends
        | simple apply dataclass_extends | simple apply object_extends ].

Lemma by_hint_extends data hint :
  extends (by_hint H f data hint) (by_hint H g data hint).
Proof. unfold by_hint. ext_frames. Qed.

Lemma by_class_extends data cls key :
  extends (by_class H f data cls key) (by_class H g data cls key).
Proof. unfold by_class. ext_frames. Qed.

Lemma by_data_extends data cls :
  extends (by_data H f data cls) (by_data H g data cls).
Proof. unfold by_data. ext_frames. Qed.

Lemma try_extends data cls key hint :
  extends (_deserialize_any_try H f data cls key hint)
          (_deserialize_any_try H g data cls key hint).
Proof.
  unfold _deserialize_any_try. ext;
    first [simple apply by_hint_extends | simple apply by_class_extends
          | simple apply by_data_extends].
Qed.
End Monotone.

Lemma fuel_step (H : Host) (n : nat) :
  rec_extends (_deserialize_any H n) (_deserialize_any H (S n)).
Proof.
  induction n as [| n IH]; intros data cls key hint; [now left |].
  rewrite (deserialize_any_unfold H (S n)), (deserialize_any_unfold H n).
  apply except_extends, try_extends, IH.
Qed.

(** A call that ends with some fuel ends in the same way with more. *)
Theorem fuel_monotone (H : Host) (n m : nat) data cls key hint :
  (n <= m)%nat ->
  _deserialize_any H n data cls key hint <> Diverge ->
  _deserialize_any H m data cls key hint = _deserialize_any H n data cls key hint.
Proof.
  induction 1 as [| m Hle IH]; intros Hn; [reflexivity |].
  destruct (fuel_step H m data cls key hint) as [E | E].
  - rewrite IH in E by assumption. contradiction.
  - rewrite <- E. now apply IH.
Qed.

(** ** Absence *)

Lemma deserialize_any_None (H : Host) fuel cls key hint :
  _deserialize_any H (S fuel) VNone cls key hint = Return VNone.
Proof. reflexivity. Qed.

(** C1, as the code has it: inside the engine absent data is answered
    with [None] before any dispatch, whatever the class, the key and the
    hint; through [deserialize] this is reached for every hint the entry
    point hands to the engine (no generic origin, a union that leaves one
    alternative, a list or dict generic). *)
Theorem C1_absence_short_circuits :
  forall (H : Host) (fuel : nat) (h cls : ty) (key : option string) (hint : ty),
    root_supported h = true ->
    deserialize H (S fuel) VNone h = Return VNone
    /\ _deserialize_any H (S fuel) VNone cls key hint = Return VNone.
Proof.
  intros H fuel h cls key hint Hs. split; [| reflexivity].
  destruct h as [ | | | c | o args | args | f | f args];
    try reflexivity; try discriminate.
  - unfold deserialize, deserialize_origin; simpl.
    simpl in Hs.
    destruct (class_issubclass o Blist); simpl; [reflexivity |].
    simpl in Hs. now rewrite Hs.
  - unfold deserialize, deserialize_origin; simpl.
    simpl in Hs. apply andb_true_iff in Hs as [H1 H2].
    rewrite H1; simpl. unfold strip_none in H2.
    destruct (ty_in NoneType args); apply Nat.eqb_eq in H2; now rewrite H2.
Qed.

Lemma C1_absence_short_circuits_witness :
  root_supported (Optional Tint) = true
  /\ deserialize (SpecHost.host []) 1 VNone (Optional Tint) = Return VNone
  /\ _deserialize_any (SpecHost.host []) 1 VNone Tint (Some "k") (SetOf Tint)
     = Return VNone.
Proof.
  split; [reflexivity |].
  apply (C1_absence_short_circuits (SpecHost.host []) 0 (Optional Tint) Tint
           (Some "k") (SetOf Tint)).
  reflexivity.
Defined.

(** C1 as stated fails: for a generic hint it does not support, the
    entry point raises before it looks at the data. *)
Lemma C1_counterexample :
  deserialize (SpecHost.host []) 8 VNone (SetOf Tint)
  = Raise (mk_error TypeError "Unsupported origin: set").
Proof. reflexivity. Qed.

(** The entry point also strips a union, and raises when two
    alternatives remain, before it looks at the data. *)
Lemma deserialize_None_ambiguous_union :
  deserialize (SpecHost.host []) 8 VNone (TyUnion [Tint; Tstr])
  = Raise (DeserializeError0 union_ambiguity).
Proof. reflexivity. Qed.

(** ** Unions *)

Lemma non_null_le_remove (args : list ty) :
  (List.length (non_null args) <= List.length (ty_remove NoneType args))%nat.
Proof.
  induction args as [| t args IH]; simpl; [lia |].
  destruct (ty_eqb NoneType t); simpl; [| lia].
  unfold non_null. apply filter_length_le.
Qed.

Lemma non_null_le_strip (args : list ty) :
  (List.length (non_null args) <= List.length (strip_none args))%nat.
Proof.
  unfold strip_none. destruct (ty_in NoneType args).
  - apply non_null_le_remove.
  - apply filter_length_le.
Qed.

Lemma strip_le (args : list ty) :
  (List.length (strip_none args) <= List.length args)%nat.
Proof.
  unfold strip_none. destruct (ty_in NoneType args); [| lia].
  induction args as [| t args IH]; simpl; [lia |].
  destruct (ty_eqb NoneType t); simpl; lia.
Qed.

(** C2: an optional integer takes [5] to [5] and absence to absence; a
    union with two or more non-null alternatives makes [deserialize]
    fail with the union-ambiguity error, whatever the data; the engine
    fails in the same way on such a hint when the data is present. *)
Theorem C2_union_handling :
  forall (H : Host) (fuel : nat) (data : value) (args : list ty)
         (cls : ty) (key : option string),
    (2 <= List.length (non_null args))%nat ->
    deserialize H (S fuel) (VInt 5) (Optional Tint) = Return (VInt 5)
    /\ deserialize H (S fuel) VNone (Optional Tint) = Return VNone
    /\ deserialize H fuel data (TyUnion args)
       = Raise (DeserializeError0 union_ambiguity)
    /\ (is_none_value data = false ->
        _deserialize_any H (S fuel) data cls key (TyUnion args)
        = Raise (MkExn DeserializeError union_ambiguity [key])).
Proof.
  intros H fuel data args cls key Hargs.
  pose proof (non_null_le_strip args) as Hstrip.
  pose proof (strip_le args) as Hle.
  assert (H2 : (2 <=? List.length args)%nat = true) by (apply Nat.leb_le; lia).
  assert (H3 : (2 <=? List.length (strip_none args))%nat = true)
    by (apply Nat.leb_le; lia).
  split; [| split; [| split]].
  - unfold deserialize, deserialize_origin, _deserialize_root; cbn.
    now apply deserialize_any_int_hint.
  - reflexivity.
  - unfold deserialize, deserialize_origin; step.
    unfold strip_none in H3.
    rewrite H2; step. now rewrite H3.
  - intros Hdata. rewrite deserialize_any_unfold. unfold _deserialize_any_try.
    rewrite Hdata. unfold by_hint; step.
    unfold strip_none in H3.
    rewrite H2; step. now rewrite H3.
Qed.

Lemma C2_union_handling_witness :
  (2 <= List.length (non_null [Tint; Tstr]))%nat
  /\ deserialize (SpecHost.host []) 1 (VInt 5) (TyUnion [Tint; Tstr])
     = Raise (DeserializeError0 union_ambiguity).
Proof.
  split; [simpl; lia |].
  apply (C2_union_handling (SpecHost.host []) 0 (VInt 5) [Tint; Tstr] Tint None).
  simpl; lia.
Defined.

(** ** Booleans *)

Lemma deserialize_any_Tbool (H : Host) fuel data key :
  is_none H Tbool = false ->
  is_none_value data = false ->
  _deserialize_any H (S fuel) data Tbool key TyNone
  = _deserialize_any_except key (boolean_rule H data).
Proof.
  intros Hn Hd. rewrite deserialize_any_unfold. f_equal.
  unfold _deserialize_any_try. rewrite Hd.
  unfold by_hint, by_class; cbn. rewrite Hn; cbn.
  unfold boolean_rule.
  destruct (isinstance data Bstr).
  - destruct (string_to_boolean H (py_str H data)); reflexivity.
  - unfold py_bool. destruct (py_truth H data); reflexivity.
Qed.

(** C3: for the target [bool] and data that is there (absence is
    answered before any family is looked at, C1), text goes through the
    string-to-boolean parser and anything else through its truth value,
    in the engine and through [deserialize]; so ["false"] gives [False]
    when the parser says so and [1] gives [True].  The integer
    conversion plays no part although [bool] is a subclass of [int]. *)
Theorem C3_boolean_precedence :
  forall (H : Host) (fuel : nat) (data : value) (key : option string),
    is_none H Tbool = false ->
    is_none_value data = false ->
    _deserialize_any H (S fuel) data Tbool key TyNone
    = _deserialize_any_except key (boolean_rule H data)
    /\ deserialize H (S fuel) data Tbool
       = _deserialize_any_except (Some DEFAULT_ROOT_KEY) (boolean_rule H data)
    /\ (forall s, boolean_rule H (VStr s)
                  = b <- string_to_boolean H s ;; Return (VBool b))
    /\ (isinstance data Bstr = false -> boolean_rule H data = py_bool H data)
    /\ (string_to_boolean H "false" = Return false ->
        deserialize H (S fuel) (VStr "false") Tbool = Return (VBool false))
    /\ deserialize H (S fuel) (VInt 1) Tbool = Return (VBool true)
    /\ class_issubclass (Builtin Bbool) Bint = true.
Proof.
  intros H fuel data key Hn Hd.
  split; [now apply deserialize_any_Tbool |].
  split; [unfold deserialize, _deserialize_root; cbn [is_None Tbool get_origin];
          now apply deserialize_any_Tbool |].
  split; [reflexivity |].
  split; [intros Hs; unfold boolean_rule; now rewrite Hs |].
  split; [| split; [| reflexivity]].
  - intros Hf. unfold deserialize, _deserialize_root; cbn [is_None Tbool get_origin].
    fold Tbool. rewrite deserialize_any_Tbool by easy.
    unfold boolean_rule; cbn. now rewrite Hf.
  - unfold deserialize, _deserialize_root; cbn [is_None Tbool get_origin].
    fold Tbool. now rewrite deserialize_any_Tbool by easy.
Qed.

Lemma C3_boolean_precedence_witness :
  deserialize (SpecHost.host []) 1 (VStr "false") Tbool = Return (VBool false).
Proof.
  apply (C3_boolean_precedence (SpecHost.host []) 0 (VStr "false") None);
    reflexivity.
Defined.

(** ** The array codec: malformed records and unknown element types *)

Lemma numpy_deserialize_raw (H : Host) (proto : value) (xs : list value) :
  HAS_NUMPY H = true ->
  proto = VList xs \/ proto = VTuple xs ->
  numpy_deserialize H proto
  = if negb (List.length xs =? 4)%nat then
      Raise (mk_error ValueError (wrong_count (List.length xs)))
    else if negb (isinstance (nth 0 xs VNone) BIterable) then
      Raise (mk_error ValueError "The first element must be `Iterable`")
    else if negb (isinstance (nth 1 xs VNone) Bstr) then
      Raise (mk_error ValueError "The second element must be `str`")
    else if negb (bytes_like (nth 2 xs VNone)) then
      Raise (mk_error ValueError "The third element must be `bytes-like`")
    else if negb (isinstance (nth 3 xs VNone) BIterable) then
      Raise (mk_error ValueError "The forth element must be `Iterable`")
    else _numpy_deserialize H
           (VProto (nth 0 xs VNone) (nth 1 xs VNone) (nth 2 xs VNone)
                   (nth 3 xs VNone)).
Proof.
  intros Hnp Hproto.
  unfold numpy_deserialize, valid_numpy_module. rewrite Hnp.
  destruct Hproto as [-> | ->]; reflexivity.
Qed.

(** C5: with the array runtime present, a list or tuple handed to
    [numpy_deserialize] is refused with a [ValueError] when it has not
    four elements (the message gives the count) and otherwise at the
    first position that is not what it has to be: iterable, text,
    bytes-like, iterable; the message names that position.  A record that
    passes goes on to the construction.  The record of the spec fails at
    the first position. *)
Theorem C5_raw_record_validation :
  forall (H : Host) (proto : value) (xs : list value),
    HAS_NUMPY H = true ->
    proto = VList xs \/ proto = VTuple xs ->
    (List.length xs <> 4%nat ->
     numpy_deserialize H proto
     = Raise (mk_error ValueError (wrong_count (List.length xs))))
    /\ (forall p0 p1 p2 p3, xs = [p0; p1; p2; p3] ->
        (isinstance p0 BIterable = false ->
         numpy_deserialize H proto
         = Raise (mk_error ValueError "The first element must be `Iterable`"))
        /\ (isinstance p0 BIterable = true -> isinstance p1 Bstr = false ->
            numpy_deserialize H proto
            = Raise (mk_error ValueError "The second element must be `str`"))
        /\ (isinstance p0 BIterable = true -> isinstance p1 Bstr = true ->
            bytes_like p2 = false ->
            numpy_deserialize H proto
            = Raise (mk_error ValueError "The third element must be `bytes-like`"))
        /\ (isinstance p0 BIterable = true -> isinstance p1 Bstr = true ->
            bytes_like p2 = true -> isinstance p3 BIterable = false ->
            numpy_deserialize H proto
            = Raise (mk_error ValueError "The forth element must be `Iterable`"))
        /\ (isinstance p0 BIterable = true -> isinstance p1 Bstr = true ->
            bytes_like p2 = true -> isinstance p3 BIterable = true ->
            numpy_deserialize H proto = _numpy_deserialize H (VProto p0 p1 p2 p3)))
    /\ numpy_deserialize H malformed_record
       = Raise (mk_error ValueError "The first element must be `Iterable`").
Proof.
  intros H proto xs Hnp Hproto.
  pose proof (numpy_deserialize_raw H proto xs Hnp Hproto) as Hbody.
  split; [| split].
  - intros Hlen. rewrite Hbody.
    apply Nat.eqb_neq in Hlen. now rewrite Hlen.
  - intros p0 p1 p2 p3 ->. rewrite Hbody. cbn [List.length Nat.eqb negb nth].
    repeat split; intros;
      repeat match goal with
             | E : _ = _ |- _ => rewrite E; clear E
             end; reflexivity.
  - unfold numpy_deserialize, valid_numpy_module. now rewrite Hnp.
Qed.

Lemma C5_raw_record_validation_witness :
  numpy_deserialize (SpecHost.host []) malformed_record
  = Raise (mk_error ValueError "The first element must be `Iterable`").
Proof.
  apply (C5_raw_record_validation (SpecHost.host []) malformed_record
           [VInt 123; VStr "f4"; VBytes zero4; VList [VInt 4]]).
  - reflexivity.
  - right; reflexivity.
Defined.

(** C6: with the array runtime present, an element-type name the
    registry does not resolve makes the serializer and the deserializer
    raise a [ValueError]: "Unsupported dtype name" followed by the name
    when there is one, "Empty dtype name" when the name is blank.  The
    deserializer does so for the named record and for a raw record that
    passed the positional checks. *)
Theorem C6_dtype_error_taxonomy :
  forall (H : Host) (a : ndarray) (name : string) (shape buffer strides : value),
    HAS_NUMPY H = true ->
    numpy_dtype H (VStr (dt_name (nd_dtype a))) = None ->
    numpy_dtype H (VStr name) = None ->
    numpy_serialize H (VNdarray a) = Raise (dtype_failure_serialize (nd_dtype a))
    /\ _numpy_deserialize H (VProto shape (VStr name) buffer strides)
       = Raise (dtype_failure_deserialize name)
    /\ numpy_deserialize H (VProto shape (VStr name) buffer strides)
       = Raise (dtype_failure_deserialize name)
    /\ (isinstance shape BIterable = true -> bytes_like buffer = true ->
        isinstance strides BIterable = true ->
        numpy_deserialize H (VTuple [shape; VStr name; buffer; strides])
        = Raise (dtype_failure_deserialize name)).
Proof.
  intros H a name shape buffer strides Hnp Ha Hname.
  assert (Hd : _numpy_deserialize H (VProto shape (VStr name) buffer strides)
               = Raise (dtype_failure_deserialize name)).
  { unfold _numpy_deserialize, valid_numpy_module. rewrite Hnp; cbn.
    rewrite Hname; cbn. unfold dtype_failure_deserialize.
    now destruct name. }
  split; [| split; [exact Hd | split]].
  - unfold numpy_serialize, valid_numpy_module. rewrite Hnp; cbn.
    rewrite Ha. unfold dtype_failure_serialize.
    now destruct (dt_name (nd_dtype a)).
  - unfold numpy_deserialize, valid_numpy_module. rewrite Hnp; cbn.
    now rewrite <- Hd.
  - intros H0 H2 H3.
    rewrite (numpy_deserialize_raw H (VTuple [shape; VStr name; buffer; strides])
               [shape; VStr name; buffer; strides] Hnp (or_intror eq_refl)).
    cbn [List.length Nat.eqb negb nth]. rewrite H0, H2, H3. exact Hd.
Qed.

Lemma C6_dtype_error_taxonomy_witness :
  numpy_serialize (SpecHost.host []) (VNdarray text_array)
  = Raise (mk_error ValueError "Unsupported dtype name: str32")
  /\ numpy_deserialize (SpecHost.host [])
       (VTuple [VList [VInt 1]; VStr "not-a-real-dtype"; VBytes zero4; VList [VInt 4]])
     = Raise (mk_error ValueError "Unsupported dtype name: not-a-real-dtype")
  /\ numpy_deserialize (SpecHost.host [])
       (VTuple [VList [VInt 1]; VStr ""; VBytes zero4; VList [VInt 4]])
     = Raise (mk_error ValueError "Empty dtype name").
Proof.
  split; [| split].
  - apply (C6_dtype_error_taxonomy (SpecHost.host []) text_array
             "not-a-real-dtype" VNone VNone VNone); reflexivity.
  - apply (C6_dtype_error_taxonomy (SpecHost.host []) text_array
             "not-a-real-dtype" (VList [VInt 1]) (VBytes zero4) (VList [VInt 4]));
      reflexivity.
  - apply (C6_dtype_error_taxonomy (SpecHost.host []) text_array
             "" (VList [VInt 1]) (VBytes zero4) (VList [VInt 4]));
      reflexivity.
Defined.

(** ** Sequences *)

Lemma list_insert_end {A} (x : A) (l : list A) :
  list_insert (List.length l) x l = l ++ [x].
Proof.
  unfold list_insert. now rewrite firstn_all, skipn_all.
Qed.

(** [result.insert(len(result), x)] puts [x] after the elements already
    there. *)
Lemma insert_at_end (H : Host) (r : value) (l : list value) (x : value) :
  seq_store r = Some l ->
  (n <- py_len H r ;; py_insert H r n x) = Return (with_elems r (l ++ [x])).
Proof.
  destruct r; cbn; intros E; try discriminate.
  - injection E as ->. now rewrite list_insert_end.
  - subst elems. cbn. now rewrite list_insert_end.
Qed.

Lemma seq_store_with_elems (r : value) (l l' : list value) :
  seq_store r = Some l -> seq_store (with_elems r l') = Some l'.
Proof. destruct r; cbn; intros E; try discriminate; reflexivity. Qed.

Lemma with_elems_twice (r : value) (l l' : list value) :
  with_elems (with_elems r l) l' = with_elems r l'.
Proof. now destruct r. Qed.

Lemma with_elems_same (r : value) (l : list value) :
  seq_store r = Some l -> with_elems r l = r.
Proof.
  destruct r; cbn; intros E; try discriminate.
  - now injection E as ->.
  - now subst.
Qed.

(** The loop of [_deserialize_iterable]: when every element
    deserializes, the results follow the elements already in the
    sequence, in the order of the source. *)
Lemma iterable_loop (H : Host) rec elem_hint :
  forall (xs : list value) (start : nat) (r : value) (l ys : list value),
    seq_store r = Some l ->
    Forall2 (elem_result rec elem_hint) (enumerate_from start xs) ys ->
    for_each (enumerate_from start xs) r (fun item result =>
      let '(i, serialize_value) := item in
      let attr_cls := if ty_truth elem_hint then elem_hint
                      else type_of serialize_value in
      attr_value <- rec serialize_value attr_cls (Some (index_label i)) TyNone ;;
      n <- py_len H result ;;
      py_insert H result n attr_value)
    = Return (with_elems r (l ++ ys)).
Proof.
  induction xs as [| x xs IH]; intros start r l ys Hr Hall; cbn in *.
  - inversion Hall; subst. rewrite app_nil_r. now rewrite with_elems_same.
  - inversion Hall as [| ? y ? ys' Hx Hrest]; subst.
    unfold elem_result, attr_cls_of in Hx; cbn in Hx. rewrite Hx; cbn.
    rewrite (insert_at_end H r l y Hr); cbn.
    rewrite (IH (S start) (with_elems r (l ++ [y])) (l ++ [y]) ys').
    + now rewrite with_elems_twice, <- app_assoc.
    + now apply seq_store_with_elems with (l := l).
    + exact Hrest.
Qed.

Lemma deserialize_iterable_ok (H : Host) rec data cls elem_hint r0 l0 xs ys :
  issubclass cls BMutableSequence = Return true ->
  py_new H cls [] [] = Return r0 ->
  seq_store r0 = Some l0 ->
  has_insert r0 = true ->
  iterate H data = Return xs ->
  Forall2 (elem_result rec elem_hint) (enumerate xs) ys ->
  _deserialize_iterable H rec data cls elem_hint = Return (with_elems r0 (l0 ++ ys)).
Proof.
  intros Hsub Hnew Hstore Hins Hiter Hall.
  unfold _deserialize_iterable. rewrite Hsub; cbn [bind py_assert].
  rewrite Hnew; cbn [bind]. rewrite Hins; cbn [negb]. rewrite Hiter; cbn [bind].
  exact (iterable_loop H rec elem_hint xs 0 r0 l0 ys Hstore Hall).
Qed.

(** A list as data for the target [list]: by class or by data, the
    engine ends in [_deserialize_iterable]. *)
Lemma try_list_target (H : Host) rec xs key :
  is_deserialize_cls H Tlist = false ->
  compatible_iterable H (VList xs) = true ->
  _deserialize_any_try H rec (VList xs) Tlist key TyNone
  = _deserialize_iterable H rec (VList xs) Tlist TyNone.
Proof.
  intros Hdcls Hcompat.
  unfold _deserialize_any_try, by_hint, by_class, by_data; cbn.
  destruct (is_none H Tlist); cbn.
  - now destruct (_deserialize_iterable H rec (VList xs) Tlist TyNone).
  - unfold Tlist; no_ndarray. fold Tlist. rewrite Hdcls; cbn.
    unfold _deserialize_iterable_any; cbn. rewrite Hcompat.
    now destruct (_deserialize_iterable H rec (VList xs) Tlist TyNone).
Qed.

(** A list as data under a list generic: the hint decides, the element
    hint is the type argument. *)
Lemma try_list_hint (H : Host) rec xs cls key t :
  is_deserialize_cls H Tlist = false ->
  is_serializable_pod_cls H Tlist = false ->
  compatible_iterable H (VList xs) = true ->
  _deserialize_any_try H rec (VList xs) cls key (ListOf t)
  = _deserialize_iterable H rec (VList xs) Tlist t.
Proof.
  intros Hdcls Hpod Hcompat.
  unfold _deserialize_any_try, by_hint; cbn. fold Tlist.
  rewrite Hdcls, Hpod; cbn. unfold _deserialize_iterable_any; cbn.
  rewrite Hcompat.
  now destruct (_deserialize_iterable H rec (VList xs) Tlist t).
Qed.

Lemma deserialize_iterable_three_one_two (H : Host) fuel elem_hint :
  elem_hint = TyNone \/ elem_hint = Tint ->
  _deserialize_iterable H (_deserialize_any H (S fuel)) three_one_two Tlist elem_hint
  = Return three_one_two.
Proof.
  intros Hh.
  apply (deserialize_iterable_ok H (_deserialize_any H (S fuel)) three_one_two
           Tlist elem_hint (VList []) [] [VInt 3; VInt 1; VInt 2]
           [VInt 3; VInt 1; VInt 2]); try reflexivity.
  repeat constructor; unfold elem_result, attr_cls_of;
    destruct Hh as [-> | ->]; apply deserialize_any_int.
Qed.

(** C9: for a sequence target whose fresh instance has the insertion
    method and holds the elements [l0] (none, for [list]), and a source
    that iterates over [xs], if the element at each index deserializes
    to the value at the same index of [ys], then [_deserialize_iterable]
    returns the instance holding [l0] followed by exactly [ys], in that
    order; every insertion goes after the elements already present.  So
    [[3, 1, 2]] gives [[3, 1, 2]], in the helper for every host, and
    through [deserialize] when the host counts a list as a compatible
    iterable and [list] is neither a self-deserializing class nor a
    serializable POD. *)
Theorem C9_sequence_order :
  forall (H : Host) (rec : value -> ty -> option string -> ty -> outcome value)
         (data : value) (cls elem_hint : ty) (r0 : value) (l0 xs ys : list value)
         (fuel : nat),
    issubclass cls BMutableSequence = Return true ->
    py_new H cls [] [] = Return r0 ->
    seq_store r0 = Some l0 ->
    has_insert r0 = true ->
    iterate H data = Return xs ->
    Forall2 (elem_result rec elem_hint) (enumerate xs) ys ->
    _deserialize_iterable H rec data cls elem_hint = Return (with_elems r0 (l0 ++ ys))
    /\ seq_store (with_elems r0 (l0 ++ ys)) = Some (l0 ++ ys)
    /\ (forall r l x, seq_store r = Some l ->
        (n <- py_len H r ;; py_insert H r n x) = Return (with_elems r (l ++ [x])))
    /\ _deserialize_iterable H (_deserialize_any H (S fuel)) three_one_two Tlist TyNone
       = Return three_one_two
    /\ (compatible_iterable H three_one_two = true ->
        is_deserialize_cls H Tlist = false ->
        is_serializable_pod_cls H Tlist = false ->
        deserialize H (S (S fuel)) three_one_two Tlist = Return three_one_two
        /\ deserialize H (S (S fuel)) three_one_two (ListOf Tint)
           = Return three_one_two).
Proof.
  intros H rec data cls elem_hint r0 l0 xs ys fuel Hsub Hnew Hstore Hins Hiter Hall.
  split; [now apply deserialize_iterable_ok with (xs := xs) |].
  split; [now apply seq_store_with_elems with (l := l0) |].
  split; [intros r l x; apply insert_at_end |].
  split; [apply deserialize_iterable_three_one_two; now left |].
  intros Hcompat Hdcls Hpod. split.
  - unfold deserialize, _deserialize_root; cbn [is_None Tlist get_origin].
    fold Tlist. rewrite deserialize_any_unfold.
    unfold three_one_two in *. rewrite try_list_target by assumption.
    fold three_one_two.
    now rewrite deserialize_iterable_three_one_two by now left.
  - unfold deserialize, deserialize_origin, _deserialize_root; cbn.
    fold Tlist; fold Tint; fold (ListOf Tint). rewrite deserialize_any_unfold.
    unfold three_one_two in *. rewrite try_list_hint by assumption.
    fold three_one_two.
    now rewrite deserialize_iterable_three_one_two by now right.
Qed.

Lemma C9_sequence_order_witness :
  _deserialize_iterable (SpecHost.host []) (_deserialize_any (SpecHost.host []) 1)
    three_one_two Tlist TyNone
  = Return three_one_two.
Proof.
  apply (C9_sequence_order (SpecHost.host []) (_deserialize_any (SpecHost.host []) 1)
           three_one_two Tlist TyNone (VList []) []
           [VInt 3; VInt 1; VInt 2] [VInt 3; VInt 1; VInt 2] 0);
    try reflexivity.
  repeat constructor.
Defined.

(** ** Mappings *)

Lemma assoc_get_app {A} (k k' : string) (v : A) (m : list (string * A)) :
  assoc_get k (m ++ [(k', v)])
  = match assoc_get k m with
    | Some x => Some x
    | None => if String.eqb k k' then Some v else None
    end.
Proof.
  induction m as [| [k0 v0] m IH]; cbn; [reflexivity |].
  now destruct (String.eqb k k0).
Qed.











(** ** Error paths *)

Lemma is_DeserializeError_class (e : exn) :
  is_DeserializeError e = true <-> e_class e = DeserializeError.
Proof.
  unfold is_DeserializeError. destruct (e_class e); split; congruence.
Qed.

(** What leaves the [except] clauses is a [DeserializeError] whose path
    starts with the label of the frame. *)
Lemma except_raises (key : option string) (r : outcome value) (e : exn) :
  _deserialize_any_except key r = Raise e ->
  e_class e = DeserializeError /\ exists rest, e_keys e = key :: rest.
Proof.
  unfold _deserialize_any_except.
  destruct r as [v | e0 |]; try discriminate.
  destruct (is_DeserializeError e0) eqn:E; intros [= <-]; cbn.
  - split; [now apply is_DeserializeError_class | eauto].
  - split; [reflexivity | eauto].
Qed.

Lemma deserialize_any_raises (H : Host) fuel data cls key hint (e : exn) :
  _deserialize_any H fuel data cls key hint = Raise e ->
  e_class e = DeserializeError /\ exists rest, e_keys e = key :: rest.
Proof.
  destruct fuel as [| fuel]; [discriminate |].
  rewrite deserialize_any_unfold. apply except_raises.
Qed.

(** The text [x] for the target [int]: the conversion fails and the
    frame reports it under its own label. *)
Lemma deserialize_any_int_x (H : Host) fuel key :
  is_none H Tint = false ->
  _deserialize_any H (S fuel) (VStr "x") Tint key TyNone
  = Raise (DeserializeError1 invalid_x key).
Proof.
  intros Hn. rewrite deserialize_any_unfold.
  unfold _deserialize_any_try, by_hint, by_class; cbn. now rewrite Hn.
Qed.

(** The list [[1, "x"]] against the element hint [int]: the failure of
    the element at index 1 leaves the loop as it is. *)
Lemma deserialize_iterable_one_x (H : Host) fuel :
  is_none H Tint = false ->
  _deserialize_iterable H (_deserialize_any H (S fuel)) one_x Tlist Tint
  = Raise (DeserializeError1 invalid_x (Some "[1]")).
Proof.
  intros Hn. unfold _deserialize_iterable; cbn.
  fold Tint. rewrite deserialize_any_int; cbn.
  now rewrite deserialize_any_int_x.
Qed.

(** The deduction by class for a dataclass that is none of the other
    families. *)
Lemma try_dataclass (H : Host) rec data name key :
  let cls := TyClass (User name Bobject true) in
  is_none_value data = false ->
  is_none H cls = false ->
  is_deserialize_cls H cls = false ->
  _deserialize_any_try H rec data cls key TyNone
  = _deserialize_dataclass H rec data cls.
Proof.
  intros cls Hd Hn Hdcls. subst cls.
  unfold _deserialize_any_try, by_hint, by_class; rewrite Hd; cbn.
  rewrite Hn; cbn. no_ndarray. rewrite Hdcls; cbn.
  now destruct (_deserialize_dataclass H rec data _).
Qed.

(** C8: whatever leaves a frame of [_deserialize_any] is a
    [DeserializeError] whose path starts with the label of that frame;
    when the frame's body fails with a [DeserializeError], the frame puts
    its label in front of the path the error already carries, and any
    other exception becomes a [DeserializeError] with the frame's label
    as its path.  For a source whose public attributes are
    [a = [1, "x"]] and a record type with the field [a : List[int]], on
    a host with the usual answers for [int], [list] and the record type,
    the call fails with the path root, [a], [[1]]. *)
Theorem C8_error_path :
  forall (H : Host) (fuel : nat) (data : value) (cls : ty) (key : option string)
         (hint : ty) (src : value),
    is_none_value src = false ->
    get_public_attributes H src = [("a", one_x)] ->
    get_type_hints H Rec = Return [("a", ListOf Tint)] ->
    is_none H Rec = false ->
    is_deserialize_cls H Rec = false ->
    is_deserialize_cls H Tlist = false ->
    is_serializable_pod_cls H Tlist = false ->
    compatible_iterable H one_x = true ->
    is_none H Tint = false ->
    (forall e, _deserialize_any H fuel data cls key hint = Raise e ->
               e_class e = DeserializeError /\ exists rest, e_keys e = key :: rest)
    /\ (forall e0,
          _deserialize_any_try H (_deserialize_any H fuel) data cls key hint = Raise e0 ->
          e_class e0 = DeserializeError ->
          _deserialize_any H (S fuel) data cls key hint
          = Raise (MkExn DeserializeError (e_msg e0) (key :: e_keys e0)))
    /\ (forall e0,
          _deserialize_any_try H (_deserialize_any H fuel) data cls key hint = Raise e0 ->
          e_class e0 <> DeserializeError ->
          _deserialize_any H (S fuel) data cls key hint
          = Raise (MkExn DeserializeError (e_msg e0) [key]))
    /\ deserialize H (S (S (S fuel))) src Rec
       = Raise (MkExn DeserializeError invalid_x
                      [Some "<root>"; Some "a"; Some "[1]"]).
Proof.
  intros H fuel data cls key hint src Hsrc Hattrs Hhints HnR HdR HdL HpL Hc HnI.
  split; [intros e; apply deserialize_any_raises |].
  split; [| split].
  - intros e0 Htry Hclass. rewrite deserialize_any_unfold, Htry.
    unfold _deserialize_any_except.
    rewrite (proj2 (is_DeserializeError_class e0) Hclass).
    unfold insert_first. now rewrite Hclass.
  - intros e0 Htry Hclass. rewrite deserialize_any_unfold, Htry.
    unfold _deserialize_any_except.
    destruct (is_DeserializeError e0) eqn:E; [| reflexivity].
    now apply is_DeserializeError_class in E.
  - unfold deserialize, _deserialize_root; cbn [is_None Rec get_origin].
    fold Rec. rewrite deserialize_any_unfold.
    unfold Rec in *. rewrite try_dataclass by assumption.
    unfold _deserialize_dataclass, _deserialize_data_to_dict.
    rewrite Hhints; cbn [bind]. rewrite Hattrs; cbn.
    fold Tlist; fold Tint; fold (ListOf Tint).
    rewrite deserialize_any_unfold.
    unfold one_x in *. rewrite try_list_hint by assumption. fold one_x.
    now rewrite deserialize_iterable_one_x.
Qed.

Lemma C8_error_path_witness :
  deserialize (SpecHost.host [("Rec", [("a", ListOf Tint)])]) 3 rec_source Rec
  = Raise (MkExn DeserializeError invalid_x [Some "<root>"; Some "a"; Some "[1]"]).
Proof.
  apply (C8_error_path (SpecHost.host [("Rec", [("a", ListOf Tint)])]) 0
           VNone Tint None TyNone rec_source); reflexivity.
Defined.

(** ** Generic hints at the entry point and inside the engine *)

(** A generic hint whose origin is none of the families of the hint
    dispatch, on a host for which it is neither self-deserializing nor a
    POD, is passed over: control reaches the deduction by class. *)
Lemma by_hint_falls_through (H : Host) rec data o args :
  class_issubclass o Bbytes = false ->
  class_issubclass o Bbytearray = false ->
  class_issubclass o BMutableMapping = false ->
  class_issubclass o BMutableSequence = false ->
  is_deserialize_cls H (TyClass o) = false ->
  is_serializable_pod_cls H (TyClass o) = false ->
  by_hint H rec data (TyGeneric o args) = Return None.
Proof.
  intros Hb Hba Hm Hs Hd Hp. unfold by_hint; cbn.
  now rewrite Hb, Hba, Hd, Hp, Hm, Hs.
Qed.

(** C10, as the code has it: for a generic hint whose origin is a class,
    neither a list nor a dict class, [deserialize] raises the
    [TypeError] "Unsupported origin" with the name of the origin, before
    it looks at the data; it is not a [DeserializeError] and has no
    path.  Inside the engine the same hint never has this effect:
    whatever the engine raises is a [DeserializeError] that starts with
    the label of the frame, and a hint whose origin is outside the
    families of the hint dispatch is passed over, the call being decided
    as if there were no hint. *)
Theorem C10_unsupported_origin :
  forall (H : Host) (fuel : nat) (data : value) (o : class) (args : list ty)
         (cls : ty) (key : option string),
    class_issubclass o Blist = false ->
    class_issubclass o Bdict = false ->
    deserialize H fuel data (TyGeneric o args) = Raise (unsupported_origin o)
    /\ e_class (unsupported_origin o) = TypeError
    /\ e_keys (unsupported_origin o) = []
    /\ (forall e, _deserialize_any H fuel data cls key (TyGeneric o args) = Raise e ->
                  e_class e = DeserializeError
                  /\ exists rest, e_keys e = key :: rest)
    /\ (class_issubclass o Bbytes = false ->
        class_issubclass o Bbytearray = false ->
        class_issubclass o BMutableMapping = false ->
        class_issubclass o BMutableSequence = false ->
        is_deserialize_cls H (TyClass o) = false ->
        is_serializable_pod_cls H (TyClass o) = false ->
        _deserialize_any H (S fuel) data cls key (TyGeneric o args)
        = _deserialize_any H (S fuel) data cls key TyNone).
Proof.
  intros H fuel data o args cls key Hl Hd.
  split; [| split; [reflexivity | split; [reflexivity | split]]].
  - unfold deserialize, deserialize_origin; cbn. now rewrite Hl, Hd.
  - intros e. apply deserialize_any_raises.
  - intros Hb Hba Hm Hs Hdc Hp.
    rewrite !deserialize_any_unfold. f_equal.
    unfold _deserialize_any_try.
    now rewrite (by_hint_falls_through H _ data o args Hb Hba Hm Hs Hdc Hp).
Qed.

Lemma C10_unsupported_origin_witness :
  deserialize (SpecHost.host []) 2 (VList [VInt 1; VInt 2]) TupleOfTwo
  = Raise (mk_error TypeError "Unsupported origin: tuple")
  /\ _deserialize_any (SpecHost.host []) 2 (VList [VInt 1; VInt 2]) Ttuple
       (Some "t") TupleOfTwo
     = Return (VTuple [VInt 1; VInt 2]).
Proof.
  destruct (C10_unsupported_origin (SpecHost.host []) 1 (VList [VInt 1; VInt 2])
              (Builtin Btuple) [Tint; Tint] Ttuple (Some "t") eq_refl eq_refl)
    as (Hroot & _ & _ & _ & Hnested).
  split.
  - destruct (C10_unsupported_origin (SpecHost.host []) 2 (VList [VInt 1; VInt 2])
                (Builtin Btuple) [Tint; Tint] Ttuple (Some "t") eq_refl eq_refl)
      as (Hroot2 & _). exact Hroot2.
  - unfold TupleOfTwo.
    rewrite (Hnested eq_refl eq_refl eq_refl eq_refl eq_refl eq_refl).
    reflexivity.
Defined.

(** C10 as stated fails for a parametrized hint whose origin is not a
    class: for [Final[int]] (as for [Literal] and [ClassVar]) the origin
    is the special form, and the subclass test of the entry point raises
    its own [TypeError], which is not the "Unsupported origin" one; as a
    nested hint it is not passed over either, the same test fails in the
    engine and the frame reports it. *)
Lemma C10_counterexample :
  get_origin (FinalOf Tint) = TyForm "Final"
  /\ deserialize (SpecHost.host []) 2 (VInt 5) (FinalOf Tint)
     = Raise (mk_error TypeError "issubclass() arg 1 must be a class")
  /\ (forall o, mk_error TypeError "issubclass() arg 1 must be a class"
                <> unsupported_origin o)
  /\ _deserialize_any (SpecHost.host []) 2 (VInt 5) Tint (Some "k") (FinalOf Tint)
     = Raise (MkExn DeserializeError "issubclass() arg 1 must be a class"
                    [Some "k"]).
Proof.
  split; [reflexivity |]. split; [reflexivity |].
  split; [| reflexivity].
  intros o. unfold unsupported_origin, mk_error. intros [=].
Qed.

(** ** The array codec: round trip *)

Lemma firstn_plus {A} (n m : nat) (l : list A) :
  firstn (n + m) l = firstn n l ++ firstn m (skipn n l).
Proof.
  revert l; induction n as [| n IH]; intros l; [reflexivity |].
  destruct l as [| x l]; cbn.
  - now rewrite firstn_nil.
  - now rewrite IH.
Qed.

Lemma bytes_slice_app (bs : list byte) (off l1 l2 : Z) :
  (0 <= off)%Z -> (0 <= l1)%Z -> (0 <= l2)%Z ->
  bytes_slice bs off l1 ++ bytes_slice bs (off + l1) l2
  = bytes_slice bs off (l1 + l2).
Proof.
  intros Ho H1 H2. unfold bytes_slice.
  rewrite !Z2Nat.inj_add by lia.
  rewrite firstn_plus, skipn_skipn.
  now rewrite (Nat.add_comm (Z.to_nat l1)).
Qed.

Lemma bytes_slice_empty (bs : list byte) (off : Z) : bytes_slice bs off 0 = [].
Proof. reflexivity. Qed.

(** Consecutive blocks make one block. *)
Lemma blocks_concat (bs : list byte) (off len : Z) (n : nat) :
  (0 <= off)%Z -> (0 <= len)%Z ->
  flat_map (fun i => bytes_slice bs (off + Z.of_nat i * len) len) (seq 0 n)
  = bytes_slice bs off (Z.of_nat n * len).
Proof.
  intros Ho Hl. induction n as [| n IH]; [reflexivity |].
  rewrite seq_S, flat_map_app, IH; cbn [flat_map Nat.add].
  rewrite app_nil_r, bytes_slice_app by nia.
  f_equal. lia.
Qed.

Lemma flat_map_ext_in {A B} (f g : A -> list B) (l : list A) :
  (forall x, In x l -> f x = g x) -> flat_map f l = flat_map g l.
Proof.
  induction l as [| x l IH]; intros Hfg; [reflexivity |].
  cbn. rewrite (Hfg x) by now left.
  rewrite IH; [reflexivity |]. intros y Hy. apply Hfg. now right.
Qed.

Lemma flat_map_nil {A B} (l : list A) : flat_map (fun _ : A => @nil B) l = [].
Proof. induction l; cbn; auto. Qed.

Lemma multiply_list_cons (d : Z) (ds : list Z) :
  multiply_list (d :: ds) = (d * multiply_list ds)%Z.
Proof. reflexivity. Qed.

Lemma multiply_list_nonneg (dims : list Z) :
  Forall (fun d => 0 <= d)%Z dims -> (0 <= multiply_list dims)%Z.
Proof.
  induction 1; [cbn; lia | rewrite multiply_list_cons; nia].
Qed.

Lemma multiply_list_zero (dims : list Z) :
  existsb (Z.eqb 0) dims = true -> multiply_list dims = 0%Z.
Proof.
  induction dims as [| d ds IH]; cbn [existsb]; [discriminate |].
  rewrite multiply_list_cons.
  destruct (Z.eqb_spec 0 d); cbn; intros E.
  - subst; lia.
  - rewrite IH by assumption. lia.
Qed.

Lemma multiply_list_pos (dims : list Z) :
  Forall (fun d => 0 <= d)%Z dims -> existsb (Z.eqb 0) dims = false ->
  (0 < multiply_list dims)%Z.
Proof.
  induction 1 as [| d ds Hd Hds IH]; [cbn; lia |].
  cbn [existsb]. rewrite multiply_list_cons.
  destruct (Z.eqb_spec 0 d); cbn; [discriminate |]. intros E.
  specialize (IH E). nia.
Qed.

Lemma multiply_list_app (l1 l2 : list Z) :
  multiply_list (l1 ++ l2) = (multiply_list l1 * multiply_list l2)%Z.
Proof.
  induction l1 as [| d l1 IH].
  - cbn [app]. change (multiply_list []) with 1%Z. lia.
  - cbn [app]. rewrite !multiply_list_cons, IH. lia.
Qed.

Lemma multiply_list_rev (l : list Z) : multiply_list (rev l) = multiply_list l.
Proof.
  induction l as [| d l IH]; [reflexivity |].
  cbn [rev]. rewrite multiply_list_app, IH, !multiply_list_cons.
  change (multiply_list []) with 1%Z. lia.
Qed.

(** The contiguity walk over two runs of axes. *)
Lemma c_chain_app (l1 l2 m1 m2 : list Z) :
  forall sd, List.length l1 = List.length m1 ->
  c_chain sd (l1 ++ l2) (m1 ++ m2)
  = c_chain sd l1 m1 && c_chain (sd * multiply_list l1)%Z l2 m2.
Proof.
  revert m1; induction l1 as [| d l1 IH]; intros [| s m1] sd Hlen;
    try discriminate.
  - cbn. now rewrite Z.mul_1_r.
  - injection Hlen as Hlen. cbn [app c_chain]. rewrite multiply_list_cons.
    destruct (Z.eqb_spec d 1).
    + subst. rewrite IH by assumption. do 2 f_equal. lia.
    + rewrite IH by assumption. rewrite andb_assoc. do 2 f_equal. lia.
Qed.

(** The flag, read from the first axis on. *)
Lemma c_chain_packed (itemsize : Z) :
  forall dims strides,
    List.length strides = List.length dims ->
    c_chain itemsize (rev dims) (rev strides) = true ->
    packed itemsize dims strides.
Proof.
  induction dims as [| d ds IH]; intros [| s ss] Hlen Hc; try discriminate;
    cbn; [exact I |].
  injection Hlen as Hlen. cbn [rev] in Hc.
  rewrite c_chain_app in Hc by now rewrite !length_rev.
  apply andb_true_iff in Hc as [Hc1 Hc2]. split; [| now apply IH].
  cbn in Hc2. rewrite multiply_list_rev in Hc2.
  destruct (Z.eqb_spec d 1); [now left | right].
  rewrite andb_true_r in Hc2. now apply Z.eqb_eq in Hc2.
Qed.

(** Reading a packed view gives the block it covers. *)
Lemma gather_packed (itemsize : Z) (base : list byte) :
  (0 <= itemsize)%Z ->
  forall dims strides off,
    Forall (fun d => 0 <= d)%Z dims ->
    packed itemsize dims strides ->
    (0 <= off)%Z ->
    gather itemsize base dims strides off
    = bytes_slice base off (itemsize * multiply_list dims).
Proof.
  intros Hi. induction dims as [| d ds IH]; intros [| s ss] off Hd Hp Ho;
    cbn in Hp; try contradiction; cbn [gather].
  - cbn. now rewrite Z.mul_1_r.
  - destruct Hp as [Hs Hp]. inversion Hd as [| ? ? Hd0 Hds]; subst.
    pose proof (multiply_list_nonneg ds Hds) as Hm.
    rewrite multiply_list_cons.
    destruct Hs as [-> | ->].
    + change (seq 0 (Z.to_nat 1)) with [0%nat]. cbn [flat_map Z.of_nat].
      rewrite app_nil_r, Z.mul_0_l, Z.add_0_r. rewrite IH by assumption.
      f_equal. lia.
    + rewrite (flat_map_ext_in _
                 (fun i => bytes_slice base
                             (off + Z.of_nat i * (itemsize * multiply_list ds))
                             (itemsize * multiply_list ds))).
      * rewrite blocks_concat by nia. f_equal. rewrite Z2Nat.id by lia. lia.
      * intros i _. apply IH; [assumption | assumption | nia].
Qed.

(** A view without elements reads nothing. *)
Lemma gather_no_elements (itemsize : Z) (base : list byte) :
  forall dims strides off,
    List.length strides = List.length dims ->
    existsb (Z.eqb 0) dims = true ->
    gather itemsize base dims strides off = [].
Proof.
  induction dims as [| d ds IH]; intros [| s ss] off Hlen Hz;
    cbn [List.length existsb] in Hlen, Hz; try discriminate.
  cbn [gather]. injection Hlen as Hlen.
  destruct (Z.eqb_spec 0 d); cbn [orb] in Hz.
  - subst. reflexivity.
  - rewrite (flat_map_ext_in _ (fun _ => [])); [apply flat_map_nil |].
    intros i _. now apply IH.
Qed.

(** [tobytes()] of a contiguous array is the block it views. *)
Lemma contiguous_tobytes (a : ndarray) :
  well_formed a ->
  flags_c_contiguous a = true ->
  nd_tobytes a
  = bytes_slice (nd_base a) (nd_offset a)
                (multiply_list (nd_shape a) * dt_itemsize (nd_dtype a)).
Proof.
  intros (Hi & Hlen & Hd & Ho & _) Hc. unfold nd_tobytes.
  unfold flags_c_contiguous in Hc.
  destruct (existsb (Z.eqb 0) (nd_shape a)) eqn:Hz; cbn in Hc.
  - rewrite gather_no_elements by assumption.
    now rewrite multiply_list_zero.
  - rewrite gather_packed; try assumption; try lia.
    + f_equal. lia.
    + now apply c_chain_packed.
Qed.

(** The range a packed view with elements touches. *)
Lemma offset_bounds_packed (itemsize : Z) :
  (0 < itemsize)%Z ->
  forall dims strides lo up,
    Forall (fun d => 0 <= d)%Z dims ->
    existsb (Z.eqb 0) dims = false ->
    packed itemsize dims strides ->
    offset_bounds dims strides lo up
    = (lo, (up + itemsize * multiply_list dims - itemsize)%Z).
Proof.
  intros Hi. induction dims as [| d ds IH]; intros [| s ss] lo up Hd Hz Hp;
    cbn in Hp; try contradiction.
  - cbn. f_equal. lia.
  - destruct Hp as [Hs Hp]. inversion Hd as [| ? ? Hd0 Hds]; subst.
    cbn [existsb] in Hz. apply orb_false_iff in Hz as [Hz0 Hz].
    apply Z.eqb_neq in Hz0.
    pose proof (multiply_list_pos ds Hds Hz) as Hm.
    cbn [offset_bounds]. rewrite multiply_list_cons.
    destruct (Z.ltb_spec 0 (s * (d - 1))) as [Hpos | Hneg].
    + rewrite IH by assumption. f_equal.
      destruct Hs as [-> | ->]; lia.
    + assert (d = 1%Z) as -> by (destruct Hs as [-> | ->]; [reflexivity | nia]).
      rewrite IH by assumption. f_equal; lia.
Qed.

(** The stride check accepts a contiguous layout over a buffer of
    exactly its size. *)
Lemma check_strides_contiguous (itemsize : Z) (dims strides : list Z) :
  (0 < itemsize)%Z ->
  List.length strides = List.length dims ->
  Forall (fun d => 0 <= d)%Z dims ->
  existsb (Z.eqb 0) dims
  || c_chain itemsize (rev dims) (rev strides) = true ->
  check_strides itemsize (itemsize * multiply_list dims) 0 dims strides = true.
Proof.
  intros Hi Hlen Hd Hc. unfold check_strides, offset_bounds_from_strides.
  destruct (existsb (Z.eqb 0) dims) eqn:Hz.
  - rewrite (multiply_list_zero dims Hz), Z.mul_0_r, Z.mul_0_l. reflexivity.
  - cbn [orb] in Hc. apply c_chain_packed in Hc; [| assumption].
    rewrite (offset_bounds_packed itemsize Hi dims strides 0 0 Hd Hz Hc).
    pose proof (multiply_list_pos dims Hd Hz) as Hm.
    destruct (Z.eqb_spec (itemsize * multiply_list dims) 0); [nia |].
    apply andb_true_iff; split; apply Z.leb_le; lia.
Qed.

Lemma bytes_slice_length (bs : list byte) (off len : Z) :
  (0 <= off)%Z -> (0 <= len)%Z -> (off + len <= Z.of_nat (List.length bs))%Z ->
  Z.of_nat (List.length (bytes_slice bs off len)) = len.
Proof.
  intros Ho Hl Hb. unfold bytes_slice.
  rewrite length_firstn, length_skipn. lia.
Qed.

Lemma int_items_map (l : list Z) : int_items (map VInt l) = Some l.
Proof.
  induction l as [| n l IH]; cbn; [reflexivity |]. now rewrite IH.
Qed.

Lemma no_negative (dims : list Z) :
  Forall (fun d => 0 <= d)%Z dims -> existsb (fun d => d <? 0)%Z dims = false.
Proof.
  induction 1 as [| d ds Hd _ IH]; cbn; [reflexivity |].
  rewrite IH. destruct (Z.ltb_spec d 0); [lia | reflexivity].
Qed.

(** The default extraction: the linearizing copy for an array that is
    not contiguous; for a contiguous one the view of its block, which
    numpy hands out only for an element type with a buffer format. *)
Lemma default_extraction (H : Host) (a : ndarray) :
  HAS_NUMPY H = true ->
  (flags_c_contiguous a = true -> well_formed a) ->
  _ndarray_to_bytes H (VNdarray a)
  = if flags_c_contiguous a then
      match dt_no_buffer (nd_dtype a) with
      | Some c => Raise (buffer_refused c)
      | None => Return (nd_tobytes a)
      end
    else Return (nd_tobytes a).
Proof.
  intros Hnp Hwf. unfold _ndarray_to_bytes, valid_numpy_module.
  rewrite Hnp; cbn [negb bind assert_ndarray].
  destruct (flags_c_contiguous a) eqn:Hc; [| reflexivity].
  unfold nd_data. destruct (dt_no_buffer (nd_dtype a)); [reflexivity |].
  cbn [bind]. now rewrite contiguous_tobytes by auto.
Qed.

(** On either platform the serializer extracts [tobytes()] from an array
    whose element type has a buffer format: by the linearizing copy, or,
    for a contiguous array, by the view of its block. *)
Lemma ndarray_to_bytes_tobytes (H : Host) (a : ndarray) :
  HAS_NUMPY H = true ->
  dt_no_buffer (nd_dtype a) = None ->
  (flags_c_contiguous a = true -> well_formed a) ->
  ndarray_to_bytes H (VNdarray a) = Return (nd_tobytes a).
Proof.
  intros Hnp Hbuf Hwf. unfold ndarray_to_bytes.
  destruct (String.eqb (platform H) "darwin").
  - unfold _ndarray_to_bytes_by_darwin, valid_numpy_module. now rewrite Hnp.
  - rewrite default_extraction, Hbuf by assumption.
    now destruct (flags_c_contiguous a).
Qed.

(** X20: where the round trip of the codec does hold: for a contiguous
    array [a] whose element type has a buffer format, and the element
    type [dt] the registry gives for the name of [a]'s, with the same
    name and the same item size, the serializer's record is accepted and
    the array built from it has the shape and the strides of [a], the
    element type [dt], the buffer [a.tobytes()], and reads the same
    element bytes as [a]. *)
Theorem X20_contiguous_round_trip (H : Host) (a : ndarray) (dt : dtype) :
  HAS_NUMPY H = true ->
  numpy_dtype H (VStr (dt_name (nd_dtype a))) = Some dt ->
  dt_name dt = dt_name (nd_dtype a) ->
  dt_itemsize dt = dt_itemsize (nd_dtype a) ->
  dt_no_buffer (nd_dtype a) = None ->
  well_formed a ->
  flags_c_contiguous a = true ->
  (proto <- numpy_serialize H (VNdarray a) ;; numpy_deserialize H proto)
  = Return (VNdarray (rebuilt a dt))
  /\ nd_shape (rebuilt a dt) = nd_shape a
  /\ dt_name (nd_dtype (rebuilt a dt)) = dt_name (nd_dtype a)
  /\ nd_strides (rebuilt a dt) = nd_strides a
  /\ nd_base (rebuilt a dt) = nd_tobytes a
  /\ nd_tobytes (rebuilt a dt) = nd_tobytes a.
Proof.
  intros Hnp Hreg Hname Hsame Hbuf Hwf Hc.
  pose proof Hwf as (Hi & Hlen & Hd & Ho & Hb).
  pose proof (multiply_list_nonneg _ Hd) as Hm.
  assert (Hsize : Z.of_nat (List.length (nd_tobytes a))
                  = (dt_itemsize dt * multiply_list (nd_shape a))%Z).
  { rewrite contiguous_tobytes by assumption.
    rewrite bytes_slice_length; nia. }
  split; [| split; [reflexivity | split; [exact Hname | split; [reflexivity |
            split; [reflexivity |]]]]].
  - unfold numpy_serialize, valid_numpy_module.
    rewrite Hnp; cbn [negb bind assert_ndarray].
    rewrite Hreg. rewrite ndarray_to_bytes_tobytes by auto. cbn [bind].
    unfold numpy_deserialize, valid_numpy_module.
    rewrite Hnp; cbn [negb bind is_NumpyProto].
    unfold _numpy_deserialize, valid_numpy_module. rewrite Hnp; cbn [negb bind].
    rewrite Hreg. unfold ndarray_new; cbn [int_seq buffer_bytes].
    rewrite !int_items_map. rewrite Hlen, Nat.eqb_refl; cbn [negb].
    rewrite Hsize, check_strides_contiguous; try assumption; try lia.
    + cbn [negb]. now rewrite no_negative.
    + unfold flags_c_contiguous in Hc. now rewrite Hsame.
  - unfold rebuilt. rewrite (contiguous_tobytes (MkNdarray _ _ _ _ _)).
    + cbn [nd_base nd_offset nd_shape nd_dtype]. unfold bytes_slice.
      cbn [Z.to_nat skipn]. apply firstn_all2. lia.
    + repeat split; cbn [nd_base nd_offset nd_shape nd_dtype nd_strides];
        try assumption; lia.
    + unfold flags_c_contiguous in *.
      cbn [nd_shape nd_dtype nd_strides]. now rewrite Hsame.
Qed.

Lemma every_other_not_contiguous : flags_c_contiguous every_other = false.
Proof. reflexivity. Qed.

(** C4: the round trip fails on arrays the serializer accepts.  For an
    array that is not contiguous the serializer emits the elements
    linearized by [tobytes()] together with the strides of the view,
    which describe another layout.  For the view [[::2]] of six integers
    the record has three packed elements and the stride 8, and the
    deserializer refuses it.  For the transpose of [reshape(2, 3)] the
    record is accepted, and the array built from it has the shape, the
    element type and the strides of the original but reads the six
    integers in another order. *)
Theorem C4_round_trip_fails_on_views :
    (numpy_serialize (SpecHost.host []) (VNdarray every_other)
     = Return (VProto (VList [VInt 3]) (VStr "int32")
                      (VBytes (le32 "000" ++ le32 "002" ++ le32 "004"))
                      (VList [VInt 8]))
     /\ (proto <- numpy_serialize (SpecHost.host []) (VNdarray every_other) ;;
         numpy_deserialize (SpecHost.host []) proto)
        = Raise strides_refused)
    /\ (nd_tobytes transposed = transposed_bytes
        /\ numpy_serialize (SpecHost.host []) (VNdarray transposed)
           = Return (VProto (VList [VInt 3; VInt 2]) (VStr "int32")
                            (VBytes transposed_bytes) (VList [VInt 4; VInt 12]))
        /\ (proto <- numpy_serialize (SpecHost.host []) (VNdarray transposed) ;;
            numpy_deserialize (SpecHost.host []) proto)
           = Return (VNdarray (rebuilt transposed int32))
        /\ nd_tobytes (rebuilt transposed int32)
           = le32 "000" ++ le32 "004" ++ le32 "003" ++ le32 "002"
             ++ le32 "001" ++ le32 "005"
        /\ nd_tobytes (rebuilt transposed int32) <> nd_tobytes transposed).
Proof.
  split; [split; reflexivity |].
  split; [reflexivity |]. split; [reflexivity |]. split; [reflexivity |].
  split; [reflexivity | discriminate].
Qed.

Lemma X20_contiguous_round_trip_witness :
  (proto <- numpy_serialize (SpecHost.host []) (VNdarray two_by_three) ;;
   numpy_deserialize (SpecHost.host []) proto)
  = Return (VNdarray two_by_three)
  /\ nd_tobytes (rebuilt two_by_three int32) = nd_tobytes two_by_three.
Proof.
  destruct (X20_contiguous_round_trip (SpecHost.host []) two_by_three int32)
    as (Hround & _ & _ & _ & _ & Hbytes).
  - reflexivity.
  - reflexivity.
  - reflexivity.
  - reflexivity.
  - reflexivity.
  - unfold well_formed, two_by_three; cbn.
    repeat split; try lia. repeat constructor; lia.
  - reflexivity.
  - split; [exact Hround | exact Hbytes].
Defined.

(** ** Plain data *)

Lemma assoc_get_absent {A} (k : string) (kvs : list (string * A)) :
  existsb (String.eqb k) (map fst kvs) = false -> assoc_get k kvs = None.
Proof.
  induction kvs as [| [k' v] kvs IH]; cbn; [reflexivity |].
  destruct (String.eqb k k'); cbn; [discriminate | exact IH].
Qed.

(** Pairs with distinct keys that the mapping does not have yet are
    appended as they come. *)
Lemma setdefault_all_fresh (outs m : list (string * value)) :
  distinct (map fst outs) = true ->
  (forall k, In k (map fst outs) -> assoc_get k m = None) ->
  setdefault_all outs m = m ++ outs.
Proof.
  unfold setdefault_all.
  revert m; induction outs as [| [k v] outs IH]; intros m Hd Hm; cbn.
  - now rewrite app_nil_r.
  - cbn in Hd. apply andb_true_iff in Hd as [Hk Hd].
    apply negb_true_iff in Hk.
    unfold assoc_setdefault at 2. rewrite (Hm k) by now left. cbn.
    rewrite IH; [now rewrite <- app_assoc | exact Hd |].
    intros k' Hin. rewrite assoc_get_app, (Hm k') by now right.
    destruct (String.eqb k' k) eqn:E; [| reflexivity].
    apply String.eqb_eq in E; subst k'.
    assert (existsb (String.eqb k) (map fst outs) = true) as Hc
      by (apply existsb_exists; exists k; split; [assumption | apply String.eqb_refl]).
    congruence.
Qed.

(** The items loop on a dict. *)
Lemma items_loop_dict (H : Host) rec elem_hint :
  forall (items outs m : list (string * value)),
    Forall2 (item_result rec elem_hint) items outs ->
    for_each items (VDict m) (fun item result =>
      let '(key, serialize_value) := item in
      let attr_cls := if ty_truth elem_hint then elem_hint
                      else type_of serialize_value in
      attr_value <- rec serialize_value attr_cls (Some key) TyNone ;;
      py_setdefault H result key attr_value)
    = Return (VDict (setdefault_all outs m)).
Proof.
  induction items as [| [k sv] items IH]; intros outs m Hall.
  - inversion Hall; subst. reflexivity.
  - inversion Hall as [| ? out ? outs' Hres Hrest]; subst.
    destruct out as [k' v]. destruct Hres as [Hk Hv]. cbn in Hk, Hv; subst k'.
    cbn [for_each]. unfold attr_cls_of in Hv. rewrite Hv; cbn [bind py_setdefault].
    exact (IH outs' _ Hrest).
Qed.

Lemma item_result_keys rec elem_hint items outs :
  Forall2 (item_result rec elem_hint) items outs ->
  map fst outs = map fst items.
Proof.
  induction 1 as [| item out items outs [Hk _] _ IH]; cbn; [reflexivity |].
  now rewrite Hk, IH.
Qed.

Lemma by_items_dict (H : Host) rec elem_hint items outs :
  Forall2 (item_result rec elem_hint) items outs ->
  distinct (map fst items) = true ->
  _deserialize_mapping_by_items H rec Tdict items elem_hint = Return (VDict outs).
Proof.
  intros Hall Hd. unfold _deserialize_mapping_by_items.
  change (issubclass Tdict BMutableMapping) with (@Return bool true).
  change (py_new H Tdict [] []) with (Return (VDict [])).
  cbn [bind py_assert].
  etransitivity; [exact (items_loop_dict H rec elem_hint items outs [] Hall) |].
  rewrite setdefault_all_fresh; [reflexivity | | reflexivity].
  now rewrite (item_result_keys _ _ _ _ Hall).
Qed.

Lemma deserialize_mapping_dict (H : Host) rec kvs elem_hint :
  _deserialize_mapping H rec (VDict kvs) Tdict elem_hint
  = _deserialize_mapping_by_items H rec Tdict kvs elem_hint.
Proof. reflexivity. Qed.

(** A dict for an untyped target ends in the items loop on a fresh
    dict. *)
Lemma try_untyped_dict (H : Host) rec kvs cls key :
  is_deserialize_cls H Tdict = false ->
  untyped_target H (VDict kvs) cls ->
  _deserialize_any_try H rec (VDict kvs) cls key TyNone
  = _deserialize_mapping_by_items H rec Tdict kvs TyNone.
Proof.
  intros Hdcls Hcls.
  assert (Hdata : by_data H rec (VDict kvs) cls
                  = _deserialize_mapping_by_items H rec Tdict kvs TyNone)
    by reflexivity.
  unfold _deserialize_any_try, by_hint; cbn [is_none_value get_origin is_None bind].
  destruct (is_none H cls) eqn:Hn.
  - unfold by_class. rewrite Hn; cbn [negb andb bind]. exact Hdata.
  - destruct (is_Any cls) eqn:Ha.
    + unfold by_class. rewrite Hn, Ha; cbn [negb andb bind]. exact Hdata.
    + destruct Hcls as [-> | [Hc | Hc]]; try congruence.
      change (type_of (VDict kvs)) with Tdict in *.
      unfold by_class. rewrite Hn; cbn.
      unfold Tdict; no_ndarray. fold Tdict. rewrite Hdcls; cbn.
      unfold _deserialize_mapping_any; cbn. rewrite deserialize_mapping_dict.
      now destruct (_deserialize_mapping_by_items H rec Tdict kvs TyNone).
Qed.

(** A list for an untyped target ends in the sequence loop on a fresh
    list. *)
Lemma try_untyped_list (H : Host) rec xs cls key :
  is_deserialize_cls H Tlist = false ->
  compatible_iterable H (VList xs) = true ->
  untyped_target H (VList xs) cls ->
  _deserialize_any_try H rec (VList xs) cls key TyNone
  = _deserialize_iterable H rec (VList xs) Tlist TyNone.
Proof.
  intros Hdcls Hcompat Hcls.
  assert (Hdata : by_data H rec (VList xs) cls
                  = _deserialize_iterable H rec (VList xs) Tlist TyNone)
    by reflexivity.
  destruct (is_none H cls) eqn:Hn; [| destruct (is_Any cls) eqn:Ha].
  - unfold _deserialize_any_try, by_hint, by_class;
      cbn [is_none_value get_origin is_None bind].
    rewrite Hn; cbn [negb andb bind]. exact Hdata.
  - unfold _deserialize_any_try, by_hint, by_class;
      cbn [is_none_value get_origin is_None bind].
    rewrite Hn, Ha; cbn [negb andb bind]. exact Hdata.
  - destruct Hcls as [-> | [Hc | Hc]]; try congruence.
    now apply try_list_target.
Qed.

Lemma try_untyped_scalar (H : Host) rec v cls key :
  match v with VBool _ | VInt _ | VStr _ => True | _ => False end ->
  untyped_target H v cls ->
  _deserialize_any_try H rec v cls key TyNone = Return v.
Proof.
  intros Hv Hcls.
  assert (Hdata : by_data H rec v cls = Return v) by (destruct v; easy).
  destruct (is_none H cls) eqn:Hn; [| destruct (is_Any cls) eqn:Ha].
  - unfold _deserialize_any_try, by_hint, by_class.
    destruct v; try contradiction;
      cbn [is_none_value get_origin is_None bind];
      rewrite Hn; cbn [negb andb bind]; exact Hdata.
  - unfold _deserialize_any_try, by_hint, by_class.
    destruct v; try contradiction;
      cbn [is_none_value get_origin is_None bind];
      rewrite Hn, Ha; cbn [negb andb bind]; exact Hdata.
  - destruct Hcls as [-> | [Hc | Hc]]; try congruence.
    unfold _deserialize_any_try, by_hint, by_class.
    destruct v; try contradiction; cbn in Hn |- *; rewrite Hn; reflexivity.
Qed.

Lemma elements_unchanged rec (xs : list value) :
  (forall x key, In x xs -> rec x (type_of x) key TyNone = Return x) ->
  forall start, Forall2 (elem_result rec TyNone) (enumerate_from start xs) xs.
Proof.
  induction xs as [| x xs IH]; intros Hrec start; cbn; constructor.
  - unfold elem_result, attr_cls_of; cbn. apply Hrec. now left.
  - apply IH. intros y key Hy. apply Hrec. now right.
Qed.

Lemma entries_unchanged rec (kvs : list (string * value)) :
  (forall kv key, In kv kvs -> rec (snd kv) (type_of (snd kv)) key TyNone
                               = Return (snd kv)) ->
  Forall2 (item_result rec TyNone) kvs kvs.
Proof.
  induction kvs as [| kv kvs IH]; intros Hrec; constructor.
  - split; [reflexivity |]. unfold attr_cls_of; cbn. apply Hrec. now left.
  - apply IH. intros y key Hy. apply Hrec. now right.
Qed.

Lemma plain_engine (H : Host) :
  is_deserialize_cls H Tlist = false ->
  is_deserialize_cls H Tdict = false ->
  (forall xs, compatible_iterable H (VList xs) = true) ->
  forall depth v cls key,
    plain depth v = true ->
    untyped_target H v cls ->
    _deserialize_any H (S depth) v cls key TyNone = Return v.
Proof.
  intros Hl Hd Hc.
  induction depth as [| depth IH]; intros v cls key Hp Hu;
    rewrite deserialize_any_unfold;
    destruct v; cbn [plain] in Hp; try discriminate;
    try reflexivity;
    try (rewrite try_untyped_scalar by (exact I || assumption); reflexivity).
  - rewrite try_untyped_list by auto.
    rewrite (deserialize_iterable_ok H _ (VList xs) Tlist TyNone (VList []) [] xs xs);
      try reflexivity.
    apply elements_unchanged. intros x k Hx. apply IH; [| now left].
    now apply (proj1 (forallb_forall _ _) Hp).
  - apply andb_true_iff in Hp as [Hkeys Hvals].
    rewrite try_untyped_dict by auto.
    rewrite (by_items_dict H _ TyNone kvs kvs); [reflexivity | | assumption].
    apply entries_unchanged. intros kv k Hkv. apply IH; [| now left].
    now apply (proj1 (forallb_forall _ _) Hvals).
Qed.

(** X1: on a host for which [list] and [dict] are not self-deserializing
    and a list is a compatible iterable, plain data (absence, booleans,
    integers, text, lists, dicts with distinct keys, nested) comes back
    equal when the target leaves the deduction to the data, in the
    engine and through [deserialize] without a target, as soon as the
    fuel covers the nesting. *)
Theorem X1_plain_data_identity :
  forall (H : Host) (depth : nat) (v : value) (cls : ty) (key : option string),
    is_deserialize_cls H Tlist = false ->
    is_deserialize_cls H Tdict = false ->
    (forall xs, compatible_iterable H (VList xs) = true) ->
    plain depth v = true ->
    untyped_target H v cls ->
    _deserialize_any H (S depth) v cls key TyNone = Return v
    /\ deserialize H (S depth) v TyNone = Return v
    /\ deserialize H (S depth) v TyAny = Return v.
Proof.
  intros H depth v cls key Hl Hd Hc Hplain Hcls.
  split; [now apply plain_engine |].
  split; unfold deserialize, _deserialize_root; cbn [is_None get_origin type_of];
    apply plain_engine; auto; unfold untyped_target; auto.
Qed.

Lemma X1_plain_data_identity_witness :
  deserialize (SpecHost.host []) 4 nested_sample TyNone = Return nested_sample.
Proof.
  apply (X1_plain_data_identity (SpecHost.host []) 3 nested_sample
           (type_of nested_sample) None).
  - reflexivity.
  - reflexivity.
  - intros xs. reflexivity.
  - reflexivity.
  - left. reflexivity.
Defined.

(** ** Mappings with a typed hint *)

Lemma try_dict_hint (H : Host) rec kvs cls key k v :
  is_deserialize_cls H Tdict = false ->
  is_serializable_pod_cls H Tdict = false ->
  _deserialize_any_try H rec (VDict kvs) cls key (DictOf k v)
  = _deserialize_mapping_by_items H rec Tdict kvs v.
Proof.
  intros Hdcls Hpod.
  unfold _deserialize_any_try, by_hint; cbn. fold Tdict.
  rewrite Hdcls, Hpod; cbn. unfold _deserialize_mapping_any; cbn.
  rewrite deserialize_mapping_dict.
  now destruct (_deserialize_mapping_by_items H rec Tdict kvs v).
Qed.

(** X2: a dict with distinct keys under the hint [Dict[K, V]]: when the
    value of every entry deserializes against [V] (against its own type
    when [V] is absent), the result is the dict of these results under
    the same keys in the same order.  The key type [K] plays no part. *)
Theorem X2_typed_dict_keeps_keys_and_order :
  forall (H : Host) (fuel : nat) (kvs outs : list (string * value))
         (k v cls : ty) (key : option string),
    is_deserialize_cls H Tdict = false ->
    is_serializable_pod_cls H Tdict = false ->
    distinct (map fst kvs) = true ->
    Forall2 (item_result (_deserialize_any H fuel) v) kvs outs ->
    _deserialize_any H (S fuel) (VDict kvs) cls key (DictOf k v) = Return (VDict outs)
    /\ deserialize H (S fuel) (VDict kvs) (DictOf k v) = Return (VDict outs)
    /\ map fst outs = map fst kvs.
Proof.
  intros H fuel kvs outs k v cls key Hdcls Hpod Hkeys Hall.
  assert (Hengine : forall cls key,
             _deserialize_any H (S fuel) (VDict kvs) cls key (DictOf k v)
             = Return (VDict outs)).
  { intros c kk. rewrite deserialize_any_unfold, try_dict_hint by assumption.
    now rewrite (by_items_dict H _ v kvs outs). }
  split; [apply Hengine | split; [| now apply item_result_keys with (1 := Hall)]].
  unfold deserialize, deserialize_origin, _deserialize_root; cbn.
  apply Hengine.
Qed.

Lemma X2_typed_dict_keeps_keys_and_order_witness :
  deserialize (SpecHost.host []) 2 typed_sample (DictOf Tbool Tint)
  = Return (VDict [("a", VInt 1); ("b", VInt 2)]).
Proof.
  apply (X2_typed_dict_keeps_keys_and_order (SpecHost.host []) 1
           [("a", VStr "1"); ("b", VInt 2)] [("a", VInt 1); ("b", VInt 2)]
           Tbool Tint Tdict None); try reflexivity.
  repeat constructor.
Defined.

(** ** Sources that are not of the target's shape *)

Lemma to_uint_not_nil (n : nat) : Nat.to_uint n <> Decimal.Nil.
Proof.
  intros E. pose proof (Unsigned.of_to n) as Hn. rewrite E in Hn.
  cbn in Hn. subst n. discriminate E.
Qed.

(** Distinct indices have distinct decimal labels. *)
Lemma str_of_nat_inj (n m : nat) : str_of_nat n = str_of_nat m -> n = m.
Proof.
  unfold str_of_nat. intros E.
  apply Unsigned.to_uint_inj.
  pose proof (NilZero.usu _ (to_uint_not_nil n)) as Hn.
  pose proof (NilZero.usu _ (to_uint_not_nil m)) as Hm.
  rewrite E in Hn. congruence.
Qed.

Lemma indexed_keys_above (xs : list value) :
  forall start k, In k (map fst (indexed_from start xs)) ->
                  exists i, (start <= i)%nat /\ k = str_of_nat i.
Proof.
  unfold indexed_from.
  induction xs as [| x xs IH]; intros start k; cbn; [contradiction |].
  intros [<- | Hin]; [exists start; split; [lia | reflexivity] |].
  destruct (IH (S start) k Hin) as (i & Hi & ->). exists i. split; [lia | reflexivity].
Qed.

Lemma indexed_key_fresh (xs : list value) (start : nat) :
  existsb (String.eqb (str_of_nat start)) (map fst (indexed_from (S start) xs))
  = false.
Proof.
  destruct (existsb _ _) eqn:E; [| reflexivity].
  apply existsb_exists in E as (k & Hin & Hk).
  apply String.eqb_eq in Hk; subst k.
  apply indexed_keys_above in Hin as (i & Hi & Heq).
  apply str_of_nat_inj in Heq. lia.
Qed.

Lemma indexed_distinct (xs : list value) :
  forall start, distinct (map fst (indexed_from start xs)) = true.
Proof.
  induction xs as [| x xs IH]; intros start; [reflexivity |].
  change (indexed_from start (x :: xs))
    with ((str_of_nat start, x) :: indexed_from (S start) xs).
  cbn [map fst distinct]. now rewrite indexed_key_fresh, IH.
Qed.

Lemma assoc_set_fresh {A} (k : string) (v : A) (m : list (string * A)) :
  assoc_get k m = None -> assoc_set k v m = m ++ [(k, v)].
Proof.
  induction m as [| [k' v'] m IH]; cbn; [reflexivity |].
  destruct (String.eqb k k'); [discriminate |]. intros E. now rewrite IH.
Qed.

(** The dict comprehension over [enumerate(data)]. *)
Lemma comprehension_indexed (xs : list value) :
  forall start (m : list (string * value)),
    (forall i, (start <= i)%nat -> assoc_get (str_of_nat i) m = None) ->
    fold_left (fun d iv => assoc_set (str_of_nat (fst iv)) (snd iv) d)
              (enumerate_from start xs) m
    = m ++ indexed_from start xs.
Proof.
  induction xs as [| x xs IH]; intros start m Hm; cbn [enumerate_from fold_left].
  - now rewrite app_nil_r.
  - cbn [fst snd]. rewrite assoc_set_fresh by (apply Hm; lia).
    rewrite IH.
    + now rewrite <- app_assoc.
    + intros i Hi. rewrite assoc_get_app, Hm by lia.
      destruct (String.eqb (str_of_nat i) (str_of_nat start)) eqn:E; [| reflexivity].
      apply String.eqb_eq, str_of_nat_inj in E. lia.
Qed.

(** X3: a source that is neither a mapping nor a compatible iterable is
    taken as the one element of a sequence target and as the entry ["0"]
    of a mapping target; a sequence source for a mapping target is taken
    entry by entry under its decimal indices, in order. *)
Theorem X3_sources_of_another_shape :
  forall (H : Host) (rec : value -> ty -> option string -> ty -> outcome value)
         (data : value) (xs : list value) (elem_hint : ty)
         (outs : list (string * value)),
    compatible_iterable H data = false ->
    isinstance data BMapping = false ->
    compatible_iterable H (VList xs) = true ->
    Forall2 (item_result rec elem_hint) (indexed xs) outs ->
    _deserialize_iterable_any H rec data Tlist elem_hint
    = (y <- rec data (attr_cls_of elem_hint data) (Some "[0]") TyNone ;;
       Return (VList [y]))
    /\ _deserialize_mapping_any H rec data Tdict elem_hint
       = (y <- rec data (attr_cls_of elem_hint data) (Some "0") TyNone ;;
          Return (VDict [("0", y)]))
    /\ _deserialize_mapping_any H rec (VList xs) Tdict elem_hint
       = Return (VDict outs)
    /\ map fst outs = map str_of_nat (seq 0 (List.length xs)).
Proof.
  intros H rec data xs elem_hint outs Hc Hm Hcx Hall.
  split; [| split; [| split]].
  - unfold _deserialize_iterable_any; cbn. rewrite Hc.
    unfold _deserialize_iterable; cbn. unfold attr_cls_of.
    change (String "[" (str_of_nat 0 ++ "]")) with "[0]".
    match goal with
    | |- context [rec ?a ?b ?c ?d] => now destruct (rec a b c d)
    end.
  - unfold _deserialize_mapping_any; cbn. rewrite Hm, Hc.
    rewrite deserialize_mapping_dict.
    unfold _deserialize_mapping_by_items; cbn. unfold attr_cls_of.
    change FIRST_INDEX_KEY_STR with "0".
    match goal with
    | |- context [rec ?a ?b ?c ?d] => now destruct (rec a b c d)
    end.
  - unfold _deserialize_mapping_any; cbn. rewrite Hcx. cbn [iterate bind].
    unfold enumerate. rewrite (comprehension_indexed xs 0 []) by reflexivity.
    cbn [app]. rewrite deserialize_mapping_dict.
    apply by_items_dict; [exact Hall | apply indexed_distinct].
  - rewrite (item_result_keys _ _ _ _ Hall). clear. unfold indexed, indexed_from.
    rewrite map_map; cbn [fst]. generalize 0%nat.
    induction xs as [| x xs IH]; intros start; cbn; [reflexivity |].
    now rewrite IH.
Qed.

Lemma X3_sources_of_another_shape_witness :
  _deserialize_iterable_any (SpecHost.host []) (_deserialize_any (SpecHost.host []) 1)
    (VInt 5) Tlist TyNone
  = Return (VList [VInt 5])
  /\ _deserialize_mapping_any (SpecHost.host []) (_deserialize_any (SpecHost.host []) 1)
       (VList [VInt 7; VInt 8]) Tdict TyNone
     = Return (VDict [("0", VInt 7); ("1", VInt 8)]).
Proof.
  destruct (X3_sources_of_another_shape (SpecHost.host [])
              (_deserialize_any (SpecHost.host []) 1) (VInt 5) [VInt 7; VInt 8]
              TyNone [("0", VInt 7); ("1", VInt 8)])
    as (Hseq & _ & Hmap & _); try reflexivity.
  - repeat constructor.
  - split; [rewrite Hseq; reflexivity | exact Hmap].
Defined.

(** ** Failures of the entry point *)

Lemma strip_ge (args : list ty) :
  (List.length args <= S (List.length (strip_none args)))%nat.
Proof.
  unfold strip_none. destruct (ty_in NoneType args); [| lia].
  induction args as [| t args IH]; cbn; [lia |].
  destruct (ty_eqb NoneType t); cbn; lia.
Qed.

Lemma root_raises (H : Host) fuel data cls hint e :
  _deserialize_root H fuel data cls hint = Raise e ->
  e_class e = DeserializeError
  /\ (e = DeserializeError0 union_ambiguity
      \/ exists rest, e_keys e = Some DEFAULT_ROOT_KEY :: rest).
Proof.
  intros E. apply deserialize_any_raises in E as [Hc Hk]. auto.
Qed.

(** X4: [deserialize] raises nothing but: a [DeserializeError], which is
    its own union-ambiguity error or an error of the engine with a path
    that starts at the root; the [TypeError] "Unsupported origin" for a
    generic hint whose origin is a class, neither a list nor a dict
    class; the [TypeError] of [issubclass] for a parametrized special
    form such as [Literal["a"]], whose origin is not a class; an
    [AssertionError] for a union hint of fewer than two alternatives. *)
Theorem X4_failures_of_deserialize :
  forall (H : Host) (fuel : nat) (data : value) (h : ty) (e : exn),
    deserialize H fuel data h = Raise e ->
    root_failure h e.
Proof.
  intros H fuel data h e. unfold deserialize, root_failure.
  destruct h as [ | | | c | o args | args | f | f args];
    cbn [is_None get_origin type_of];
    try (intros E; left; exact (root_raises _ _ _ _ _ _ E)).
  - unfold deserialize_origin; cbn.
    destruct (class_issubclass o Blist) eqn:Hl; cbn;
      [intros E; left; exact (root_raises _ _ _ _ _ _ E) |].
    destruct (class_issubclass o Bdict) eqn:Hd; cbn;
      [intros E; left; exact (root_raises _ _ _ _ _ _ E) |].
    intros [= <-]. right; left. exists o, args. auto.
  - unfold deserialize_origin; step. fold (strip_none args).
    pose proof (strip_ge args) as Hge.
    destruct (2 <=? List.length args)%nat eqn:H2; step.
    + destruct (2 <=? List.length (strip_none args))%nat eqn:H3.
      * intros [= <-]. left. split; [reflexivity | now left].
      * apply Nat.leb_le in H2. apply Nat.leb_gt in H3.
        assert (Hone : (List.length (strip_none args) =? 1)%nat = true)
          by (apply Nat.eqb_eq; lia).
        rewrite Hone; step.
        intros E; left; exact (root_raises _ _ _ _ _ _ E).
    + intros [= <-]. right; right; right. exists args.
      apply Nat.leb_gt in H2. auto.
  - unfold deserialize_origin; cbn.
    intros [= <-]. right; right; left. exists f, args. auto.
Qed.

Lemma X4_failures_of_deserialize_witness :
  root_failure (SetOf Tint) (unsupported_origin (Builtin Bset)).
Proof.
  apply (X4_failures_of_deserialize (SpecHost.host []) 1 (VInt 5) (SetOf Tint)).
  reflexivity.
Defined.

(** ** Optional hints *)

Lemma NoneType_eqb : ty_eqb NoneType NoneType = true.
Proof. reflexivity. Qed.

(** X5: a union of one type [t] with [NoneType], in either order, is
    taken for [t]: [deserialize] runs the engine on [t] as class and as
    hint; the engine does the same in a frame of its own, which has no
    label, whatever class it was called with. *)
Theorem X5_optional_is_its_alternative :
  forall (H : Host) (fuel : nat) (data : value) (t cls : ty) (key : option string),
    ty_eqb NoneType t = false ->
    deserialize H fuel data (Optional t) = _deserialize_root H fuel data t t
    /\ deserialize H fuel data (TyUnion [NoneType; t]) = _deserialize_root H fuel data t t
    /\ (is_none_value data = false ->
        _deserialize_any H (S fuel) data cls key (Optional t)
        = _deserialize_any_except key (_deserialize_any H fuel data t None t)
        /\ _deserialize_any H (S fuel) data cls key (TyUnion [NoneType; t])
           = _deserialize_any_except key (_deserialize_any H fuel data t None t)).
Proof.
  intros H fuel data t cls key Ht.
  assert (H1 : strip_none [t; NoneType] = [t]).
  { unfold strip_none, ty_in; cbn [existsb ty_remove].
    now rewrite Ht, NoneType_eqb. }
  assert (H2 : strip_none [NoneType; t] = [t]).
  { unfold strip_none, ty_in; cbn [existsb ty_remove].
    now rewrite NoneType_eqb. }
  unfold strip_none in H1, H2.
  split; [| split].
  - unfold deserialize, deserialize_origin, Optional; step. now rewrite H1.
  - unfold deserialize, deserialize_origin; step. now rewrite H2.
  - intros Hd. split; rewrite deserialize_any_unfold; f_equal;
      unfold _deserialize_any_try, by_hint, Optional; rewrite Hd; step;
      [rewrite H1 | rewrite H2]; step;
      now destruct (_deserialize_any H fuel data t None t).
Qed.

Lemma X5_optional_is_its_alternative_witness :
  deserialize (SpecHost.host []) 2 (VStr "7") (TyUnion [NoneType; Tint])
  = Return (VInt 7).
Proof.
  destruct (X5_optional_is_its_alternative (SpecHost.host []) 2 (VStr "7")
              Tint Tint None eq_refl) as (_ & Horder & _).
  rewrite Horder. reflexivity.
Defined.

(** ** The codec without the array runtime, and on either platform *)

(** X6: without the array runtime every function of the codec raises
    [ModuleNotFoundError], whatever it is given. *)
Theorem X6_missing_capability :
  forall (H : Host) (v : value) (cls : ty),
    HAS_NUMPY H = false ->
    valid_numpy_module H = Raise module_not_found
    /\ is_ndarray_instance H v = Raise module_not_found
    /\ is_ndarray_subclass H cls = Raise module_not_found
    /\ ndarray_to_bytes H v = Raise module_not_found
    /\ numpy_serialize H v = Raise module_not_found
    /\ _numpy_deserialize H v = Raise module_not_found
    /\ numpy_deserialize H v = Raise module_not_found.
Proof.
  intros H v cls Hnp.
  assert (Hv : valid_numpy_module H = Raise module_not_found)
    by (unfold valid_numpy_module; now rewrite Hnp).
  repeat split; try exact Hv.
  - unfold is_ndarray_instance. now rewrite Hv.
  - unfold is_ndarray_subclass. now rewrite Hv.
  - unfold ndarray_to_bytes, _ndarray_to_bytes_by_darwin, _ndarray_to_bytes.
    rewrite Hv. now destruct (String.eqb (platform H) "darwin").
  - unfold numpy_serialize. now rewrite Hv.
  - unfold _numpy_deserialize. now rewrite Hv.
  - unfold numpy_deserialize. now rewrite Hv.
Qed.

Lemma X6_missing_capability_witness :
  numpy_deserialize host_without_numpy malformed_record = Raise module_not_found.
Proof.
  apply (X6_missing_capability host_without_numpy malformed_record Tint).
  reflexivity.
Defined.

(** X7: the two extraction strategies compared, for an array that,
    when flagged contiguous, is well formed.  The platform-specific copy
    always returns [tobytes()].  The default extraction returns the same
    bytes for an array that is not contiguous and for a contiguous one
    whose element type has a buffer format; for a contiguous array of an
    element type without one (datetime64, timedelta64) it raises the
    [ValueError] of the buffer export, so there the outcome of the
    serializer depends on the platform. *)
Theorem X7_extraction_strategies_compared :
  forall (H : Host) (a : ndarray),
    HAS_NUMPY H = true ->
    (flags_c_contiguous a = true -> well_formed a) ->
    _ndarray_to_bytes_by_darwin H (VNdarray a) = Return (nd_tobytes a)
    /\ (flags_c_contiguous a = false \/ dt_no_buffer (nd_dtype a) = None ->
        _ndarray_to_bytes H (VNdarray a) = Return (nd_tobytes a))
    /\ (forall c, flags_c_contiguous a = true ->
                  dt_no_buffer (nd_dtype a) = Some c ->
                  _ndarray_to_bytes H (VNdarray a) = Raise (buffer_refused c)).
Proof.
  intros H a Hnp Hwf.
  split; [| split].
  - unfold _ndarray_to_bytes_by_darwin, valid_numpy_module. now rewrite Hnp.
  - intros Hcase. rewrite default_extraction by assumption.
    destruct (flags_c_contiguous a); [| reflexivity].
    destruct Hcase as [Hc | Hbuf]; [discriminate | now rewrite Hbuf].
  - intros c Hc Hbuf. rewrite default_extraction by assumption.
    now rewrite Hc, Hbuf.
Qed.

Lemma X7_extraction_strategies_compared_witness :
  _ndarray_to_bytes_by_darwin (SpecHost.host []) (VNdarray three_instants)
  = Return arange6
  /\ _ndarray_to_bytes (SpecHost.host []) (VNdarray three_instants)
     = Raise (buffer_refused "M").
Proof.
  destruct (X7_extraction_strategies_compared (SpecHost.host []) three_instants)
    as (Hdarwin & _ & Hdefault).
  - reflexivity.
  - intros _. unfold well_formed, three_instants; cbn.
    repeat split; try lia. repeat constructor; lia.
  - split; [exact Hdarwin | exact (Hdefault "M" eq_refl eq_refl)].
Defined.

(** X8: what the serializer returns is a named record of a list of
    integers, a text, bytes and a list of integers; handed over as a raw
    tuple or list of its four fields it passes the positional checks, and
    the deserializer treats it as the record itself. *)
Theorem X8_serialized_record_as_raw_sequence :
  forall (H : Host) (array proto : value),
    numpy_serialize H array = Return proto ->
    exists a buffer,
      array = VNdarray a
      /\ proto = VProto (VList (map VInt (nd_shape a))) (VStr (dt_name (nd_dtype a)))
                        (VBytes buffer) (VList (map VInt (nd_strides a)))
      /\ numpy_deserialize H
           (VTuple [VList (map VInt (nd_shape a)); VStr (dt_name (nd_dtype a));
                    VBytes buffer; VList (map VInt (nd_strides a))])
         = numpy_deserialize H proto
      /\ numpy_deserialize H
           (VList [VList (map VInt (nd_shape a)); VStr (dt_name (nd_dtype a));
                   VBytes buffer; VList (map VInt (nd_strides a))])
         = numpy_deserialize H proto.
Proof.
  intros H array proto. unfold numpy_serialize, valid_numpy_module.
  destruct (HAS_NUMPY H) eqn:Hnp; cbn [negb bind]; [| discriminate].
  destruct array; cbn [assert_ndarray bind]; try discriminate.
  destruct (numpy_dtype H (VStr (dt_name (nd_dtype a)))) eqn:Hreg.
  - destruct (ndarray_to_bytes H (VNdarray a)) as [buffer | |] eqn:Hb;
      cbn [bind]; try discriminate.
    intros [= <-]. exists a, buffer. split; [reflexivity | split; [reflexivity |]].
    split.
    + rewrite (numpy_deserialize_raw H _ _ Hnp (or_intror eq_refl)).
      cbn. unfold numpy_deserialize, valid_numpy_module. now rewrite Hnp.
    + rewrite (numpy_deserialize_raw H _ _ Hnp (or_introl eq_refl)).
      cbn. unfold numpy_deserialize, valid_numpy_module. now rewrite Hnp.
  - destruct (is_empty_string (dt_name (nd_dtype a))); discriminate.
Qed.

Lemma X8_serialized_record_as_raw_sequence_witness :
  exists a buffer,
    VNdarray two_by_three = VNdarray a
    /\ VProto (VList [VInt 2; VInt 3]) (VStr "int32") (VBytes arange6)
              (VList [VInt 12; VInt 4])
       = VProto (VList (map VInt (nd_shape a))) (VStr (dt_name (nd_dtype a)))
                (VBytes buffer) (VList (map VInt (nd_strides a)))
    /\ numpy_deserialize (SpecHost.host [])
         (VTuple [VList (map VInt (nd_shape a)); VStr (dt_name (nd_dtype a));
                  VBytes buffer; VList (map VInt (nd_strides a))])
       = numpy_deserialize (SpecHost.host [])
           (VProto (VList [VInt 2; VInt 3]) (VStr "int32") (VBytes arange6)
                   (VList [VInt 12; VInt 4]))
    /\ numpy_deserialize (SpecHost.host [])
         (VList [VList (map VInt (nd_shape a)); VStr (dt_name (nd_dtype a));
                 VBytes buffer; VList (map VInt (nd_strides a))])
       = numpy_deserialize (SpecHost.host [])
           (VProto (VList [VInt 2; VInt 3]) (VStr "int32") (VBytes arange6)
                   (VList [VInt 12; VInt 4])).
Proof.
  apply (X8_serialized_record_as_raw_sequence (SpecHost.host [])
           (VNdarray two_by_three)).
  reflexivity.
Defined.

(** ** Array, date and tuple targets *)

Lemma string_app_assoc (a b c : string) : ((a ++ b) ++ c = a ++ (b ++ c))%string.
Proof. induction a as [| x a IH]; cbn; [reflexivity | now rewrite IH]. Qed.

Lemma cannot_convert_refused data dest key :
  insert_first key (cannot_convert data dest) = conversion_refused data dest key.
Proof.
  unfold insert_first, cannot_convert, conversion_refused, DeserializeError0; cbn.
  f_equal. f_equal. now rewrite !string_app_assoc.
Qed.

Lemma except_cannot_convert data dest key :
  _deserialize_any_except key (Raise (cannot_convert data dest))
  = Raise (conversion_refused data dest key).
Proof.
  unfold _deserialize_any_except; cbn. now rewrite cannot_convert_refused.
Qed.

Lemma except_some key (m : outcome value) (fallback : outcome value) :
  _deserialize_any_except key
    (deduced <- (r <- m ;; Return (Some r)) ;;
     match deduced with Some r => Return r | None => fallback end)
  = _deserialize_any_except key m.
Proof. now destruct m. Qed.

(** The target [numpy.ndarray] in the class chain. *)
Lemma array_target_dispatch (H : Host) (fuel : nat) (data : value)
      (key : option string) :
  HAS_NUMPY H = true ->
  is_none H Tndarray = false ->
  is_none_value data = false ->
  _deserialize_any H (S fuel) data Tndarray key TyNone
  = if isinstance data Btuple || isinstance data Blist
    then _deserialize_any_except key (numpy_deserialize H data)
    else Raise (conversion_refused data "numpy.ndarray" key).
Proof.
  intros Hnp Hn Hd.
  assert (Htry : _deserialize_any_try H (_deserialize_any H fuel) data Tndarray key TyNone
                 = deduced <-
                   (if isinstance data Btuple || isinstance data Blist
                    then r <- numpy_deserialize H data ;; Return (Some r)
                    else Raise (cannot_convert data "numpy.ndarray")) ;;
                   match deduced with
                   | Some r => Return r
                   | None => by_data H (_deserialize_any H fuel) data Tndarray
                   end).
  { unfold _deserialize_any_try, by_hint, by_class. rewrite Hd; cbn.
    fold Tndarray. rewrite Hn; cbn. unfold Tndarray. rewrite ndarray_test.
    rewrite Hnp; cbn. reflexivity. }
  rewrite deserialize_any_unfold, Htry.
  destruct (isinstance data Btuple || isinstance data Blist).
  - apply except_some.
  - cbn [bind]. apply except_cannot_convert.
Qed.

(** X9: with the array runtime, for the target [numpy.ndarray] and
    present data: a list or tuple is handed to [numpy_deserialize], whose
    errors leave the frame as [DeserializeError]s; anything else is
    refused with a [DeserializeError] that names the type of the data. *)
Theorem X9_array_target :
  forall (H : Host) (fuel : nat) (data : value) (key : option string),
    HAS_NUMPY H = true ->
    is_none H Tndarray = false ->
    is_none_value data = false ->
    (isinstance data Btuple || isinstance data Blist = true ->
     _deserialize_any H (S fuel) data Tndarray key TyNone
     = _deserialize_any_except key (numpy_deserialize H data))
    /\ (isinstance data Btuple || isinstance data Blist = false ->
        _deserialize_any H (S fuel) data Tndarray key TyNone
        = Raise (conversion_refused data "numpy.ndarray" key)).
Proof.
  intros H fuel data key Hnp Hn Hd.
  split; intros Hi; rewrite array_target_dispatch by assumption; now rewrite Hi.
Qed.

Lemma X9_array_target_witness :
  _deserialize_any (SpecHost.host []) 1 (VStr "abc") Tndarray (Some "field") TyNone
  = Raise (MkExn DeserializeError
                 "`str` type cannot be converted to `numpy.ndarray` type."
                 [Some "field"]).
Proof.
  apply (X9_array_target (SpecHost.host []) 0 (VStr "abc") (Some "field"));
    reflexivity.
Defined.

(** The record of a contiguous array and what is rebuilt from it. *)
Lemma round_trip_record (H : Host) (a : ndarray) (dt : dtype) :
  HAS_NUMPY H = true ->
  numpy_dtype H (VStr (dt_name (nd_dtype a))) = Some dt ->
  dt_itemsize dt = dt_itemsize (nd_dtype a) ->
  dt_no_buffer (nd_dtype a) = None ->
  well_formed a ->
  flags_c_contiguous a = true ->
  let proto := VProto (VList (map VInt (nd_shape a))) (VStr (dt_name (nd_dtype a)))
                      (VBytes (nd_tobytes a)) (VList (map VInt (nd_strides a))) in
  numpy_serialize H (VNdarray a) = Return proto
  /\ numpy_deserialize H proto = Return (VNdarray (rebuilt a dt)).
Proof.
  intros Hnp Hreg Hsame Hbuf Hwf Hc proto.
  pose proof Hwf as (Hi & Hlen & Hd & Ho & Hb).
  pose proof (multiply_list_nonneg _ Hd) as Hm.
  assert (Hsize : Z.of_nat (List.length (nd_tobytes a))
                  = (dt_itemsize dt * multiply_list (nd_shape a))%Z).
  { rewrite contiguous_tobytes by assumption.
    rewrite bytes_slice_length; nia. }
  split.
  - unfold numpy_serialize, valid_numpy_module.
    rewrite Hnp; cbn [negb bind assert_ndarray].
    rewrite Hreg. now rewrite ndarray_to_bytes_tobytes by auto.
  - unfold proto, numpy_deserialize, valid_numpy_module.
    rewrite Hnp; cbn [negb bind is_NumpyProto].
    unfold _numpy_deserialize, valid_numpy_module. rewrite Hnp; cbn [negb bind].
    rewrite Hreg. unfold ndarray_new; cbn [int_seq buffer_bytes].
    rewrite !int_items_map. rewrite Hlen, Nat.eqb_refl; cbn [negb].
    rewrite Hsize, check_strides_contiguous; try assumption; try lia.
    + cbn [negb]. now rewrite no_negative.
    + unfold flags_c_contiguous in Hc. now rewrite Hsame.
Qed.

(** X10: the engine and the codec compose, the codec the engine
    imports being taken for the driver modelled above: what
    [numpy_serialize] returns for a contiguous array whose element type
    has a buffer format, given to [deserialize] with the array class as
    target, comes back as the array rebuilt over [tobytes()], with the
    shape and the strides of the original. *)
Theorem X10_array_through_deserialize :
  forall (H : Host) (fuel : nat) (a : ndarray) (dt : dtype),
    HAS_NUMPY H = true ->
    is_none H Tndarray = false ->
    numpy_dtype H (VStr (dt_name (nd_dtype a))) = Some dt ->
    dt_itemsize dt = dt_itemsize (nd_dtype a) ->
    dt_no_buffer (nd_dtype a) = None ->
    well_formed a ->
    flags_c_contiguous a = true ->
    (proto <- numpy_serialize H (VNdarray a) ;; deserialize H (S fuel) proto Tndarray)
    = Return (VNdarray (rebuilt a dt)).
Proof.
  intros H fuel a dt Hnp Hn Hreg Hsame Hbuf Hwf Hc.
  destruct (round_trip_record H a dt Hnp Hreg Hsame Hbuf Hwf Hc) as [Hs Hdes].
  rewrite Hs; cbn [bind].
  unfold deserialize, _deserialize_root; cbn [is_None Tndarray get_origin].
  fold Tndarray.
  rewrite array_target_dispatch by (assumption || reflexivity).
  cbn [isinstance class_of class_issubclass orb].
  now rewrite Hdes.
Qed.

Lemma X10_array_through_deserialize_witness :
  (proto <- numpy_serialize (SpecHost.host []) (VNdarray two_by_three) ;;
   deserialize (SpecHost.host []) 1 proto Tndarray)
  = Return (VNdarray two_by_three).
Proof.
  apply (X10_array_through_deserialize (SpecHost.host []) 0 two_by_three int32);
    try reflexivity.
  unfold well_formed, two_by_three; cbn.
  repeat split; try lia. repeat constructor; lia.
Defined.

(** ** Date and time targets *)

Ltac temporal_chain Hd Hn :=
  rewrite deserialize_any_unfold;
  unfold _deserialize_any_try, by_hint, by_class; rewrite Hd; cbn;
  rewrite Hn; cbn; no_ndarray.

(** X11: the targets [datetime], [date] and [time] for present data.
    [time] takes text only and refuses everything else, numbers
    included; [datetime] and [date] refuse what is neither a float, an
    integer nor text; an integer, and so a boolean, is taken for an
    ordinal, by [datetime.fromordinal] for [datetime] (tested before
    [date], of which it is a subclass) and by [date.fromordinal] for
    [date].  Each refusal is a [DeserializeError] naming the type of the
    data and the target. *)
Theorem X11_temporal_targets :
  forall (H : Host) (fuel : nat) (data : value) (key : option string),
    is_none H Tdatetime = false ->
    is_none H Tdate = false ->
    is_none H Ttime = false ->
    is_none_value data = false ->
    (isinstance data Bstr = false ->
     _deserialize_any H (S fuel) data Ttime key TyNone
     = Raise (conversion_refused data "time" key))
    /\ (isinstance data Bfloat = false -> isinstance data Bint = false ->
        isinstance data Bstr = false ->
        _deserialize_any H (S fuel) data Tdatetime key TyNone
        = Raise (conversion_refused data "datetime" key)
        /\ _deserialize_any H (S fuel) data Tdate key TyNone
           = Raise (conversion_refused data "date" key))
    /\ (isinstance data Bfloat = false -> isinstance data Bint = true ->
        _deserialize_any H (S fuel) data Tdatetime key TyNone
        = _deserialize_any_except key (host_call H "datetime.fromordinal" [data])
        /\ _deserialize_any H (S fuel) data Tdate key TyNone
           = _deserialize_any_except key (host_call H "date.fromordinal" [data])).
Proof.
  intros H fuel data key Hdt Hda Hti Hd.
  unfold Tdatetime in Hdt; unfold Tdate in Hda; unfold Ttime in Hti.
  split; [| split].
  - intros Hs. unfold Ttime. temporal_chain Hd Hti.
    rewrite Hs; cbn [bind]. apply except_cannot_convert.
  - intros Hf Hi Hs. split.
    + unfold Tdatetime. temporal_chain Hd Hdt.
      rewrite Hf, Hi, Hs; cbn [bind]. apply except_cannot_convert.
    + unfold Tdate. temporal_chain Hd Hda.
      rewrite Hf, Hi, Hs; cbn [bind]. apply except_cannot_convert.
  - intros Hf Hi. split.
    + unfold Tdatetime. temporal_chain Hd Hdt.
      rewrite Hf, Hi. apply except_some.
    + unfold Tdate. temporal_chain Hd Hda.
      rewrite Hf, Hi. apply except_some.
Qed.

Lemma X11_temporal_targets_witness :
  _deserialize_any (SpecHost.host []) 1 (VInt 738000) Ttime (Some "at") TyNone
  = Raise (MkExn DeserializeError
                 "`int` type cannot be converted to `time` type." [Some "at"]).
Proof.
  apply (X11_temporal_targets (SpecHost.host []) 0 (VInt 738000) (Some "at"));
    reflexivity.
Defined.

(** ** The tuple target *)

(** X12: for the target [tuple] and present data the elements are
    copied, not deserialized: iterable data gives the tuple of what
    iterating it yields (the characters of a text, the keys of a dict),
    and data that is not iterable gives the tuple of that one value. *)
Theorem X12_tuple_target :
  forall (H : Host) (fuel : nat) (data : value) (key : option string),
    is_none H Ttuple = false ->
    is_namedtuple_subclass H Ttuple = false ->
    is_none_value data = false ->
    (forall xs, isinstance data BIterable = true -> iterate H data = Return xs ->
                _deserialize_any H (S fuel) data Ttuple key TyNone
                = Return (VTuple xs))
    /\ (isinstance data BIterable = false ->
        _deserialize_any H (S fuel) data Ttuple key TyNone
        = Return (VTuple [data])).
Proof.
  intros H fuel data key Hn Hnt Hd. unfold Ttuple in Hn, Hnt.
  assert (Htry : _deserialize_any H (S fuel) data Ttuple key TyNone
                 = _deserialize_any_except key
                     (if isinstance data BIterable
                      then xs <- iterate H data ;; Return (VTuple xs)
                      else Return (VTuple [data]))).
  { unfold Ttuple. temporal_chain Hd Hn. rewrite Hnt.
    destruct (isinstance data BIterable); cbn; [| reflexivity].
    now destruct (iterate H data). }
  split.
  - intros xs Hi Hxs. now rewrite Htry, Hi, Hxs.
  - intros Hi. now rewrite Htry, Hi.
Qed.

Lemma X12_tuple_target_witness :
  _deserialize_any (SpecHost.host []) 1 (VStr "ab") Ttuple None TyNone
  = Return (VTuple [VStr "a"; VStr "b"]).
Proof.
  apply (X12_tuple_target (SpecHost.host []) 0 (VStr "ab") None);
    reflexivity.
Defined.

(** ** Records *)

Lemma field_result_keys rec hints items outs :
  Forall2 (field_result rec hints) items outs ->
  map fst outs = map fst items.
Proof.
  induction 1 as [| item out items outs [Hk _] _ IH]; cbn; [reflexivity |].
  now rewrite Hk, IH.
Qed.

Lemma assoc_get_snoc {A} (k k' : string) (v : A) (m : list (string * A)) :
  assoc_get k m = None -> String.eqb k k' = false ->
  assoc_get k (m ++ [(k', v)]) = None.
Proof.
  intros Hm Hk. induction m as [| [k0 v0] m IH]; cbn in *.
  - now rewrite Hk.
  - destruct (String.eqb k k0); [discriminate | now apply IH].
Qed.

(** The loop of [_deserialize_data_to_dict] over attributes with
    distinct names. *)
Lemma fields_loop (rec : value -> ty -> option string -> ty -> outcome value)
      (hints : list (string * ty)) :
  forall (items outs m : list (string * value)),
    Forall2 (field_result rec hints) items outs ->
    distinct (map fst items) = true ->
    (forall k, In k (map fst items) -> assoc_get k m = None) ->
    for_each items m (fun item result =>
      let '(key, serialize_value) := item in
      let hint := match assoc_get key hints with
                  | Some h => h
                  | None => TyNone
                  end in
      let origin := get_origin hint in
      let attr_cls :=
        if ty_truth origin then origin
        else if ty_truth hint then hint
        else type_of serialize_value in
      v <- rec serialize_value attr_cls (Some key) hint ;;
      Return (assoc_set key v result))
    = Return (m ++ outs).
Proof.
  induction items as [| [k sv] items IH]; intros outs m Hall Hd Hm.
  - inversion Hall; subst. cbn. now rewrite app_nil_r.
  - inversion Hall as [| ? out ? outs' Hres Hrest]; subst.
    destruct out as [k' v]. destruct Hres as [Hk Hv].
    cbn [fst snd] in Hk, Hv; subst k'.
    unfold field_cls, field_hint in Hv.
    cbn [map fst distinct] in Hd. apply andb_true_iff in Hd as [Hfresh Hd].
    apply negb_true_iff in Hfresh.
    cbn [for_each]. cbv zeta. rewrite Hv; cbn [bind].
    rewrite assoc_set_fresh by (apply Hm; now left).
    pose proof (IH outs' (m ++ [(k, v)]) Hrest Hd) as Hloop.
    cbv zeta in Hloop. rewrite Hloop.
    + now rewrite <- app_assoc.
    + intros k0 Hin. apply assoc_get_snoc; [apply Hm; now right |].
      destruct (String.eqb k0 k) eqn:E; [| reflexivity].
      apply String.eqb_eq in E; subst k0.
      assert (existsb (String.eqb k) (map fst items) = true); [| congruence].
      apply existsb_exists. exists k. split; [exact Hin | apply String.eqb_refl].
Qed.

(** X13: when the public attributes of the source have distinct names
    and the engine call of each one returns, [_deserialize_data_to_dict]
    returns exactly those names, in the order of the attributes, each
    with the result of its call: the target of an attribute is the
    origin of its annotation, else the annotation, else the type of the
    value.  Annotated fields that the source lacks are not supplied and
    attributes that the class does not annotate are not dropped:
    [_deserialize_dataclass] calls the class with these keywords and no
    others. *)
Theorem X13_record_fields :
  forall (H : Host) (rec : value -> ty -> option string -> ty -> outcome value)
         (data : value) (cls : ty) (hints : list (string * ty))
         (outs : list (string * value)),
    get_type_hints H cls = Return hints ->
    distinct (map fst (get_public_attributes H data)) = true ->
    Forall2 (field_result rec hints) (get_public_attributes H data) outs ->
    _deserialize_data_to_dict H rec data cls = Return outs
    /\ map fst outs = map fst (get_public_attributes H data)
    /\ _deserialize_dataclass H rec data cls = py_new H cls [] outs.
Proof.
  intros H rec data cls hints outs Hh Hd Hall.
  assert (E : _deserialize_data_to_dict H rec data cls = Return outs).
  { unfold _deserialize_data_to_dict. rewrite Hh; cbn [bind].
    exact (fields_loop rec hints _ outs [] Hall Hd (fun _ _ => eq_refl)). }
  split; [exact E | split].
  - exact (field_result_keys _ _ _ _ Hall).
  - unfold _deserialize_dataclass. now rewrite E.
Qed.

Lemma X13_record_fields_witness :
  _deserialize_dataclass (SpecHost.host [("Point", [("x", Tint)])])
    (_deserialize_any (SpecHost.host [("Point", [("x", Tint)])]) 1)
    point_source Point
  = Return (VObj (User "Point" Bobject true) [("x", VInt 1); ("label", VStr "p")]
                 None None None).
Proof.
  refine (proj2 (proj2 (X13_record_fields
            (SpecHost.host [("Point", [("x", Tint)])])
            (_deserialize_any (SpecHost.host [("Point", [("x", Tint)])]) 1)
            point_source Point [("x", Tint)]
            [("x", VInt 1); ("label", VStr "p")] eq_refl eq_refl _))).
  repeat (constructor; [split; reflexivity |]). constructor.
Defined.

(** ** A generic alias as the class of a frame *)

(** X14: a generic alias given as the class of a frame, without a hint,
    as the loops do with an element hint such as [List[int]], is not
    decided in that frame: the engine runs again on the origin with the
    alias as hint and under the same label.  What the inner frame
    returns is returned; an error of the inner frame, whose path starts
    with the label, leaves the outer one with the label twice. *)
Theorem X14_generic_class_repeats_label :
  forall (H : Host) (fuel : nat) (data : value) (cls : ty) (key : option string),
    is_none H cls = false ->
    is_None (get_origin cls) = false ->
    is_none_value data = false ->
    (forall v, _deserialize_any H fuel data (get_origin cls) key cls = Return v ->
               _deserialize_any H (S fuel) data cls key TyNone = Return v)
    /\ (forall e, _deserialize_any H fuel data (get_origin cls) key cls = Raise e ->
          exists msg rest,
            e = MkExn DeserializeError msg (key :: rest)
            /\ _deserialize_any H (S fuel) data cls key TyNone
               = Raise (MkExn DeserializeError msg (key :: key :: rest))).
Proof.
  intros H fuel data cls key Hn Ho Hd.
  assert (Ha : is_Any cls = false) by (destruct cls; try reflexivity; discriminate).
  assert (E : _deserialize_any H (S fuel) data cls key TyNone
              = _deserialize_any_except key
                  (_deserialize_any H fuel data (get_origin cls) key cls)).
  { rewrite deserialize_any_unfold. f_equal.
    unfold _deserialize_any_try, by_hint, by_class.
    rewrite Hd; cbn [get_origin is_None bind]. rewrite Hn, Ha, Ho; cbn [negb andb].
    now destruct (_deserialize_any H fuel data (get_origin cls) key cls). }
  split.
  - intros v Hv. now rewrite E, Hv.
  - intros e He. destruct (deserialize_any_raises _ _ _ _ _ _ _ He) as [Hc [rest Hk]].
    destruct e as [c msg keys]; cbn in Hc, Hk; subst c keys.
    exists msg, rest. split; [reflexivity |]. now rewrite E, He.
Qed.

Lemma X14_generic_class_repeats_label_witness :
  _deserialize_any (SpecHost.host []) 3 one_x (ListOf Tint) (Some "a") TyNone
  = Raise (MkExn DeserializeError invalid_x [Some "a"; Some "a"; Some "[1]"]).
Proof.
  destruct (proj2 (X14_generic_class_repeats_label (SpecHost.host []) 2 one_x
                     (ListOf Tint) (Some "a") eq_refl eq_refl eq_refl)
              (MkExn DeserializeError invalid_x [Some "a"; Some "[1]"]) eq_refl)
    as (msg & rest & He & Hout).
  injection He as <- <-. exact Hout.
Defined.

(** ** Results filled in with [setattr] *)

Lemma setattr_loop (H : Host) (c : class) items keys elems :
  forall (outs attrs : list (string * value)),
    for_each outs (VObj c attrs items keys elems) (fun item result =>
      let '(key, value) := item in py_setattr H result key value)
    = Return (VObj c (set_all outs attrs) items keys elems).
Proof.
  induction outs as [| [k v] outs IH]; intros attrs; [reflexivity |].
  cbn [for_each py_setattr bind]. now rewrite IH.
Qed.

(** X15: a mapping source that offers [keys()] and no [items()] is
    copied with [getattr] and [setattr]; for the target [dict], which
    takes no attributes, the call therefore fails at the first key whose
    engine call returns, with the [AttributeError] of [setattr] on a
    dict: a dict is never filled from such a source. *)
Theorem X15_keys_route_fails_on_dict :
  forall (H : Host) (rec : value -> ty -> option string -> ty -> outcome value)
         (data : value) (elem_hint : ty) (k : string) (ks : list string)
         (out : string * value),
    items_of data = None ->
    keys_of data = Some (k :: ks) ->
    key_result H rec data elem_hint k out ->
    _deserialize_mapping H rec data Tdict elem_hint
    = Raise (no_attribute (VDict []) k).
Proof.
  intros H rec data elem_hint k ks out Hi Hk [_ (sv & Hsv & Hv)].
  unfold _deserialize_mapping.
  change (issubclass Tdict BMutableMapping) with (@Return bool true).
  cbn [bind py_assert]. rewrite Hi, Hk.
  unfold _deserialize_mapping_by_keys.
  change (issubclass Tdict BMutableMapping) with (@Return bool true).
  change (py_new H Tdict [] []) with (Return (VDict [])).
  cbn [bind py_assert for_each].
  rewrite Hsv; cbn [bind]. unfold attr_cls_of in Hv. now rewrite Hv.
Qed.

Lemma X15_keys_route_fails_on_dict_witness :
  _deserialize_mapping (SpecHost.host []) (_deserialize_any (SpecHost.host []) 1)
    keyed_source Tdict TyNone
  = Raise (MkExn AttributeError "'dict' object has no attribute 'a'" []).
Proof.
  apply (X15_keys_route_fails_on_dict (SpecHost.host [])
           (_deserialize_any (SpecHost.host []) 1) keyed_source TyNone "a" []
           ("a", VInt 1)); try reflexivity.
  split; [reflexivity |]. exists (VInt 1). split; reflexivity.
Defined.

(** [_deserialize_object] once the fields are known. *)
Lemma object_filled (H : Host) rec data cls outs (result : value) :
  py_new H cls [] [] = Return result ->
  _deserialize_data_to_dict H rec data cls = Return outs ->
  _deserialize_object H rec data cls
  = for_each outs result (fun item result =>
      let '(key, value) := item in py_setattr H result key value).
Proof.
  intros Hnew Hd. unfold _deserialize_object. now rewrite Hnew, Hd.
Qed.

Lemma data_to_dict_fields (H : Host) rec data cls hints outs :
  get_type_hints H cls = Return hints ->
  distinct (map fst (get_public_attributes H data)) = true ->
  Forall2 (field_result rec hints) (get_public_attributes H data) outs ->
  _deserialize_data_to_dict H rec data cls = Return outs.
Proof.
  intros Hh Hd Hall. unfold _deserialize_data_to_dict. rewrite Hh; cbn [bind].
  exact (fields_loop rec hints _ outs [] Hall Hd (fun _ _ => eq_refl)).
Qed.

(** X16: [_deserialize_object] builds the target without arguments and
    sets one attribute for each public attribute of the source, in
    their order, to the result of its engine call; what the constructor
    set stays unless a field has the same name.  When the target is
    [dict] and the source has a public attribute, the call fails at the
    first one with the [AttributeError] of [setattr] on a dict. *)
Theorem X16_object_is_filled_by_setattr :
  forall (H : Host) (rec : value -> ty -> option string -> ty -> outcome value)
         (data : value) (cls : ty) (hints : list (string * ty))
         (outs : list (string * value)),
    get_type_hints H cls = Return hints ->
    distinct (map fst (get_public_attributes H data)) = true ->
    Forall2 (field_result rec hints) (get_public_attributes H data) outs ->
    (forall c attrs items keys elems,
        py_new H cls [] [] = Return (VObj c attrs items keys elems) ->
        _deserialize_object H rec data cls
        = Return (VObj c (set_all outs attrs) items keys elems))
    /\ (forall k v rest,
          cls = Tdict -> outs = (k, v) :: rest ->
          _deserialize_object H rec data cls = Raise (no_attribute (VDict []) k)).
Proof.
  intros H rec data cls hints outs Hh Hd Hall.
  pose proof (data_to_dict_fields H rec data cls hints outs Hh Hd Hall) as E.
  split.
  - intros c attrs items keys elems Hnew.
    rewrite (object_filled H rec data cls outs _ Hnew E). apply setattr_loop.
  - intros k v rest -> ->.
    now rewrite (object_filled H rec data Tdict _ (VDict []) eq_refl E).
Qed.

Lemma X16_object_is_filled_by_setattr_witness :
  _deserialize_object (SpecHost.host [])
    (_deserialize_any (SpecHost.host []) 1) plain_object (TyClass Plain)
  = Return plain_object.
Proof.
  refine (proj1 (X16_object_is_filled_by_setattr (SpecHost.host [])
            (_deserialize_any (SpecHost.host []) 1) plain_object (TyClass Plain)
            [] [("a", VInt 1)] eq_refl eq_refl _) Plain [] None None None eq_refl).
  repeat (constructor; [split; reflexivity |]). constructor.
Defined.

(** X17: an object that is neither a scalar, a mapping nor an iterable,
    for a target that leaves the deduction to the data ([Any], or what
    the host takes for the absent type), is copied into a [dict] by
    [setattr]: as soon as it has a public attribute whose engine call
    returns, the frame fails with a [DeserializeError] that carries the
    text of the [AttributeError] for the first attribute. *)
Theorem X17_object_without_target_fails :
  forall (H : Host) (fuel : nat) (data : value) (cls : ty) (key : option string)
         (hints : list (string * ty)) (k : string) (v : value)
         (rest : list (string * value)),
    is_Any cls = true \/ is_none H cls = true ->
    is_none_value data = false ->
    isinstance data Bbytes || isinstance data Bbytearray
    || isinstance data Bbool || isinstance data Bint
    || isinstance data Bfloat || isinstance data Bstr = false ->
    isinstance data BMapping = false ->
    isinstance data BIterable = false ->
    get_type_hints H Tdict = Return hints ->
    distinct (map fst (get_public_attributes H data)) = true ->
    Forall2 (field_result (_deserialize_any H fuel) hints)
            (get_public_attributes H data) ((k, v) :: rest) ->
    _deserialize_any H (S fuel) data cls key TyNone
    = Raise (MkExn DeserializeError (e_msg (no_attribute (VDict []) k)) [key]).
Proof.
  intros H fuel data cls key hints k v rest Hcls Hd Hsc Hm Hi Hh Hdis Hall.
  pose proof (data_to_dict_fields H _ data Tdict hints _ Hh Hdis Hall) as E.
  assert (Hobj : _deserialize_object H (_deserialize_any H fuel) data Tdict
                 = Raise (no_attribute (VDict []) k))
    by now rewrite (object_filled H _ data Tdict _ (VDict []) eq_refl E).
  assert (Hdata : by_data H (_deserialize_any H fuel) data cls
                  = Raise (no_attribute (VDict []) k)).
  { unfold by_data. rewrite Hsc, Hm, Hi. cbn [isclass type_of]. exact Hobj. }
  rewrite deserialize_any_unfold.
  assert (Htry : _deserialize_any_try H (_deserialize_any H fuel) data cls key TyNone
                 = Raise (no_attribute (VDict []) k)).
  { unfold _deserialize_any_try, by_hint. rewrite Hd.
    cbn [get_origin is_None bind]. unfold by_class.
    destruct Hcls as [Ha | Hn].
    - rewrite Ha, andb_false_r; cbn [bind]. exact Hdata.
    - rewrite Hn; cbn [negb andb bind]. exact Hdata. }
  now rewrite Htry.
Qed.

Lemma X17_object_without_target_fails_witness :
  _deserialize_any (SpecHost.host []) 2 plain_object TyAny None TyNone
  = Raise (MkExn DeserializeError "'dict' object has no attribute 'a'" [None]).
Proof.
  refine (X17_object_without_target_fails (SpecHost.host []) 1 plain_object TyAny
            None [] "a" (VInt 1) [] (or_introl eq_refl)
            eq_refl eq_refl eq_refl eq_refl eq_refl eq_refl _).
  repeat (constructor; [split; reflexivity |]). constructor.
Defined.

(** ** Plain classes as targets *)

(** The deduction by class for a class that is in none of the families
    of the chain. *)
Lemma try_plain_class (H : Host) rec data name key :
  let cls := TyClass (User name Bobject false) in
  is_none_value data = false ->
  is_none H cls = false ->
  is_deserialize_cls H cls = false ->
  is_protocol H cls = false ->
  _deserialize_any_try H rec data cls key TyNone
  = if negb (is_nil (required_init_parameters H cls))
    then _deserialize_dataclass H rec data cls
    else _deserialize_object H rec data cls.
Proof.
  intros cls Hd Hn Hdcls Hp. subst cls.
  unfold _deserialize_any_try, by_hint, by_class; rewrite Hd; cbn.
  rewrite Hn; cbn. no_ndarray. rewrite Hdcls, Hp; cbn.
  destruct (negb (is_nil (required_init_parameters H _))).
  - now destruct (_deserialize_dataclass H rec data _).
  - now destruct (_deserialize_object H rec data _).
Qed.

(** X18: a plain class as target (no dataclass, no protocol, not
    self-deserializing, in none of the built-in families), for a present
    source whose public attributes have distinct names and deserialize:
    when the constructor has required parameters the class is called
    with the results as keywords, as a dataclass is; when it has none
    the instance is built without arguments and every result is set as
    an attribute, so [deserialize] returns an instance that carries the
    deserialized public attributes of the source. *)
Theorem X18_plain_class_target :
  forall (H : Host) (fuel : nat) (data : value) (name : string)
         (key : option string) (hints : list (string * ty))
         (outs : list (string * value)),
    is_none_value data = false ->
    is_none H (TyClass (User name Bobject false)) = false ->
    is_deserialize_cls H (TyClass (User name Bobject false)) = false ->
    is_protocol H (TyClass (User name Bobject false)) = false ->
    get_type_hints H (TyClass (User name Bobject false)) = Return hints ->
    distinct (map fst (get_public_attributes H data)) = true ->
    Forall2 (field_result (_deserialize_any H fuel) hints)
            (get_public_attributes H data) outs ->
    (required_init_parameters H (TyClass (User name Bobject false)) <> [] ->
     _deserialize_any H (S fuel) data (TyClass (User name Bobject false)) key TyNone
     = _deserialize_any_except key
         (py_new H (TyClass (User name Bobject false)) [] outs))
    /\ (required_init_parameters H (TyClass (User name Bobject false)) = [] ->
        forall c attrs items keys elems,
          py_new H (TyClass (User name Bobject false)) [] []
          = Return (VObj c attrs items keys elems) ->
          _deserialize_any H (S fuel) data (TyClass (User name Bobject false))
                           key TyNone
          = Return (VObj c (set_all outs attrs) items keys elems)
          /\ deserialize H (S fuel) data (TyClass (User name Bobject false))
             = Return (VObj c (set_all outs attrs) items keys elems)).
Proof.
  intros H fuel data name key hints outs Hd Hn Hdcls Hp Hh Hdis Hall.
  pose proof (data_to_dict_fields H _ data _ hints outs Hh Hdis Hall) as E.
  split.
  - intros Hreq. rewrite deserialize_any_unfold, try_plain_class by assumption.
    destruct (required_init_parameters H _); [contradiction |]. cbn [is_nil negb].
    unfold _deserialize_dataclass. now rewrite E.
  - intros Hreq c attrs items keys elems Hnew.
    assert (Hengine : forall key,
               _deserialize_any H (S fuel) data (TyClass (User name Bobject false))
                                key TyNone
               = Return (VObj c (set_all outs attrs) items keys elems)).
    { intros k. rewrite deserialize_any_unfold, try_plain_class by assumption.
      rewrite Hreq; cbn [is_nil negb].
      rewrite (object_filled H _ data _ outs _ Hnew E). now rewrite setattr_loop. }
    split; [apply Hengine |].
    unfold deserialize, _deserialize_root; cbn [is_None get_origin]. apply Hengine.
Qed.

Lemma X18_plain_class_target_witness :
  deserialize (SpecHost.host []) 2 plain_object (TyClass Plain)
  = Return plain_object.
Proof.
  refine (proj2 (proj2 (X18_plain_class_target (SpecHost.host []) 1 plain_object
            "Plain" None [] [("a", VInt 1)] eq_refl eq_refl eq_refl eq_refl
            eq_refl eq_refl _) eq_refl Plain [] None None None eq_refl)).
  repeat (constructor; [split; reflexivity |]). constructor.
Defined.

(** ** Hint before class *)

Lemma by_hint_decides (H : Host) rec data hint :
  hint_decides H hint = true ->
  by_hint H rec data hint <> Return None.
Proof.
  destruct hint as [ | | | c | o args | args | f | f args];
    try discriminate; intros Hdec.
  - unfold by_hint; cbn [get_origin is_None is_Union get_args issubclass bind].
    cbn [hint_decides] in Hdec.
    destruct (class_issubclass o Bbytes);
      [now destruct (py_bytes H data) |].
    destruct (class_issubclass o Bbytearray);
      [now destruct (py_bytearray H data) |].
    destruct (is_deserialize_cls H (TyClass o));
      [now destruct (_deserialize_interface H data (TyClass o)) |].
    destruct (is_serializable_pod_cls H (TyClass o));
      [now destruct (py_new H (TyClass o) [data] []) |].
    destruct (class_issubclass o BMutableMapping);
      [now destruct (_deserialize_mapping_any H rec data (TyClass o) _) |].
    destruct (class_issubclass o BMutableSequence);
      [now destruct (_deserialize_iterable_any H rec data (TyClass o) _) |].
    discriminate.
  - unfold by_hint; step.
    destruct (2 <=? List.length args)%nat; step; [| discriminate].
    match goal with |- context [if ?b then Raise _ else _] => destruct b end;
      [discriminate |].
    destruct (_ =? 1)%nat; step; [| discriminate].
    match goal with |- context [rec ?a ?b ?c ?d] => now destruct (rec a b c d) end.
Qed.

(** X19: when the hint is a union, or a generic whose origin is one of
    the families of the hint dispatch (bytes, bytearray, a
    self-deserializing class, a POD class, a mutable mapping, a mutable
    sequence), the class argument plays no part: the engine gives the
    same outcome for every class. *)
Theorem X19_hint_decides_before_class :
  forall (H : Host) (fuel : nat) (data : value) (cls cls' : ty)
         (key : option string) (hint : ty),
    hint_decides H hint = true ->
    _deserialize_any H fuel data cls key hint
    = _deserialize_any H fuel data cls' key hint.
Proof.
  intros H fuel data cls cls' key hint Hdec.
  destruct fuel as [| fuel]; [reflexivity |].
  rewrite !deserialize_any_unfold. f_equal.
  unfold _deserialize_any_try. destruct (is_none_value data); [reflexivity |].
  pose proof (by_hint_decides H (_deserialize_any H fuel) data hint Hdec) as Hne.
  destruct (by_hint H (_deserialize_any H fuel) data hint) as [[r |] | e |];
    try reflexivity.
  now contradiction Hne.
Qed.

Lemma X19_hint_decides_before_class_witness :
  _deserialize_any (SpecHost.host []) 2 one_x Tint (Some "a") (ListOf Tstr)
  = _deserialize_any (SpecHost.host []) 2 one_x Tdict (Some "a") (ListOf Tstr).
Proof.
  apply (X19_hint_decides_before_class (SpecHost.host []) 2 one_x Tint Tdict
           (Some "a") (ListOf Tstr)).
  reflexivity.
Defined.
